(** * Verification of [subaligner/trainer.py]

    A shallow embedding of the [Trainer] class: the Python object protocol
    the constructor relies on, the worker-pool sizing, the per-sample
    extraction task, the extraction coordinator and the [train] entry point.

    Collaborators that live outside [trainer.py] ([MediaHelper], the feature
    embedder, [Network], the process environment, the random generator) are
    inputs of the model: every theorem quantifies over what they return. *)

From stdpp Require Import gmap strings list fin_maps numbers.
From Stdlib Require Import QArith.QArith_base.
From Stdlib Require Import Ascii.
From Stdlib Require String.

Local Open Scope string_scope.
Local Open Scope list_scope.
Local Open Scope Z_scope.

(** ** Exceptions and fallible results *)

(** The exception classes the module can observe.  Every class below derives
    from Python's [Exception]; [OtherException] stands for any class a
    collaborator may raise that is neither of the two domain failures. *)
Inductive exn : Type :=
| UnsupportedFormatException (msg : string)
| TerminalException (msg : string)
| OtherException (msg : string)
| ValueError (msg : string)
| IndexError (msg : string)
| KeyError (key : string)
| OSError (path : string)
| UnboundLocalError (name : string)
| AttributeError (name : string)
| NotImplementedError (msg : string)
| TypeError (msg : string).

Inductive result (A : Type) : Type :=
| Ok (a : A)
| Raise (e : exn).
Arguments Ok {A} a.
Arguments Raise {A} e.

Definition is_Ok {A} (r : result A) : bool :=
  match r with Ok _ => true | Raise _ => false end.

Definition rbind {A B} (r : result A) (k : A → result B) : result B :=
  match r with
  | Ok a => k a
  | Raise e => Raise e
  end.

(** ** Python library functions used by the module *)

Module Py.

(** [str.rfind] for a single character; [None] is Python's [-1]. *)
Fixpoint rfind (c : ascii) (l : list ascii) : option nat :=
  match l with
  | [] => None
  | x :: r =>
      match rfind c r with
      | Some i => Some (S i)
      | None => if Ascii.eqb x c then Some 0%nat else None
      end
  end.

(** [os.path.splitext] (posixpath / genericpath._splitext): the extension
    starts at the last dot of the last path component, unless that
    component consists of leading dots only up to that dot. *)
Definition splitext (p : string) : string * string :=
  let l := String.list_ascii_of_string p in
  let filenameIndex :=
    match rfind "/"%char l with Some i => S i | None => 0%nat end in
  match rfind "."%char l with
  | Some dotIndex =>
      if (filenameIndex <=? dotIndex)%nat
         && existsb (λ c, negb (Ascii.eqb c "."%char))
              (take (dotIndex - filenameIndex) (drop filenameIndex l))
      then (String.string_of_list_ascii (take dotIndex l),
            String.string_of_list_ascii (drop dotIndex l))
      else (p, "")
  | None => (p, "")
  end.

(** Whitespace skipped by [int(str)] around the literal: tab, line feed,
    vertical tab, form feed, carriage return and space.  (The separators
    28..31, which [str.strip] removes, are not skipped by [int].) *)
Definition is_space (c : ascii) : bool :=
  let n := nat_of_ascii c in
  ((9 <=? n) && (n <=? 13) || (n =? 32))%nat.

Definition digit_value (c : ascii) : option Z :=
  let n := nat_of_ascii c in
  if ((48 <=? n) && (n <=? 57))%nat then Some (Z.of_nat n - 48) else None.

(** Digits of a base-10 literal after the first one; a single underscore
    may separate two digits. *)
Fixpoint digits (acc : Z) (after_underscore : bool) (l : list ascii)
  : option Z :=
  match l with
  | [] => if after_underscore then None else Some acc
  | c :: r =>
      if Ascii.eqb c "_"%char
      then (if after_underscore then None else digits acc true r)
      else match digit_value c with
           | Some d => digits (10 * acc + d) false r
           | None => None
           end
  end.

Definition unsigned_literal (l : list ascii) : option Z :=
  match l with
  | c :: r =>
      match digit_value c with
      | Some d => digits d false r
      | None => None
      end
  | [] => None
  end.

Fixpoint lstrip (l : list ascii) : list ascii :=
  match l with
  | c :: r => if is_space c then lstrip r else l
  | [] => []
  end.

Definition strip (l : list ascii) : list ascii :=
  rev (lstrip (rev (lstrip l))).

(** [int(s)] for a string in base 10 (ASCII literals; an interpreter's
    own limit on the number of digits, 4300 by default where there is one,
    is left out). *)
Definition int_of_str (s : string) : option Z :=
  match strip (String.list_ascii_of_string s) with
  | "-"%char :: r => Z.opp <$> unsigned_literal r
  | "+"%char :: r => unsigned_literal r
  | l => unsigned_literal l
  end.

(** A plain decimal literal, to state what [int_of_str] computes: the string
    of the digits [ds] and the number it denotes. *)
Definition digit_char (d : nat) : ascii := ascii_of_nat (48 + d).

Definition decimal_literal (ds : list nat) : string :=
  String.string_of_list_ascii (digit_char <$> ds).

Definition decimal_value (ds : list nat) : Z :=
  fold_left (λ acc d, 10 * acc + Z.of_nat d) ds 0.

(** The same for the characters: the six whitespace characters (tab, line
    feed, vertical tab, form feed, carriage return, space), and every
    character an integer literal with whitespace around it is made of. *)
Definition whitespace : list ascii :=
  ascii_of_nat <$> [9; 10; 11; 12; 13; 32]%nat.

Definition literal_chars : list ascii :=
  String.list_ascii_of_string "0123456789_+-" ++ whitespace.

(** The argument of [int(...)] in the module is either the environment
    string or the float [cpu_count() / 2]; halving an integer is exact in
    binary floating point, so the float is kept as a rational. *)
Inductive value : Type :=
| Str (s : string)
| Float (q : Q).

(** [int(x)]: parse a string, truncate a float towards zero. *)
Definition int (v : value) : result Z :=
  match v with
  | Str s =>
      match int_of_str s with
      | Some z => Ok z
      | None => Raise (ValueError "invalid literal for int() with base 10")
      end
  | Float q => Ok (Qnum q ÷ Zpos (Qden q))
  end.

(** [os.getenv(key, default)]. *)
Definition getenv (environ : gmap string string) (key : string)
    (default : value) : value :=
  match environ !! key with
  | Some s => Str s
  | None => default
  end.

(** [min] / [max] of a Python list under the element order [lt];
    an empty argument raises [ValueError]. *)
Definition min {A} (lt : A → A → bool) (l : list A) : result A :=
  match l with
  | [] => Raise (ValueError "min() arg is an empty sequence")
  | x :: r => Ok (fold_left (λ best y, if lt y best then y else best) r x)
  end.

Definition max {A} (lt : A → A → bool) (l : list A) : result A :=
  match l with
  | [] => Raise (ValueError "max() arg is an empty sequence")
  | x :: r => Ok (fold_left (λ best y, if lt best y then y else best) r x)
  end.

End Py.

(** ** Worker-pool sizing *)

(** The part of the process environment read by the coordinator:
    [os.environ] and [multiprocessing.cpu_count()] (always positive). *)
Record machine : Type := Machine {
  environ : gmap string string;
  cpu_count : positive;
}.

(** [int(os.getenv("MAX_WORKERS", mp.cpu_count() / 2))] *)
Definition max_workers (m : machine) : result Z :=
  Py.int (Py.getenv (environ m) "MAX_WORKERS"
            (Py.Float (Qdiv (inject_Z (Zpos (cpu_count m))) (2 # 1)))).

(** [concurrent.futures.ThreadPoolExecutor(max_workers=n)]: the constructor
    rejects a non-positive worker count. *)
Definition ThreadPoolExecutor (n : Z) : result Z :=
  if n <=? 0
  then Raise (ValueError "max_workers must be greater than 0")
  else Ok n.

(** The pool the coordinator works with, when it can be created. *)
Definition worker_pool (m : machine) : result Z :=
  rbind (max_workers m) ThreadPoolExecutor.

(** ** The Python object protocol behind [Trainer.__init__] *)

Module PyObject.

(** What a name bound in a class body or in a function frame stands for.
    A function is summarised by the exception its body raises
    unconditionally, if it has that form, as the two nested [def]s of
    [__init__] do. *)
Inductive binding : Type :=
| ClassAttr
| Function (raises : option exn).

(** Attribute values an instance holds: the bound feature embedder, or a
    plain value a caller may try to store. *)
Inductive value (E : Type) : Type :=
| VEmbedder (fe : E)
| VInt (z : Z)
| VStr (s : string).
Arguments VEmbedder {E} fe.
Arguments VInt {E} z.
Arguments VStr {E} s.

Section Protocol.
Context {E : Type}.

(** The names under which every instance of a class deriving from [object]
    without [__slots__] finds a data descriptor of its type: a store or a
    deletion under one of them goes to the descriptor, not to the instance
    dictionary. *)
Definition reserved (name : string) : bool :=
  bool_decide (name ∈ ["__class__"; "__dict__"; "__weakref__"]).

(** [object.__setattr__(obj, name, v)].  [__weakref__] is not writable;
    [__class__] accepts only a class and [__dict__] only a dictionary, which
    an integer and a string are not ([None] for the embedder object, whose
    type the model does not describe); every other name is stored into the
    instance dictionary. *)
Definition object_setattr (obj : gmap string (value E)) (name : string)
    (v : value E) : option (result (gmap string (value E))) :=
  if String.eqb name "__weakref__"
  then Some (Raise (AttributeError "__weakref__"))
  else if String.eqb name "__class__"
  then match v with
       | VEmbedder _ => None
       | VInt _ | VStr _ =>
           Some (Raise (TypeError "__class__ must be set to a class"))
       end
  else if String.eqb name "__dict__"
  then match v with
       | VEmbedder _ => None
       | VInt _ | VStr _ =>
           Some (Raise (TypeError "__dict__ must be set to a dictionary"))
       end
  else Some (Ok (<[name := v]> obj)).

(** [object.__delattr__(obj, name)].  [__class__] cannot be deleted and
    [__weakref__] is not writable; deleting [__dict__] drops the instance
    dictionary; any other name must be in the instance dictionary. *)
Definition object_delattr (obj : gmap string (value E)) (name : string)
  : result (gmap string (value E)) :=
  if String.eqb name "__weakref__"
  then Raise (AttributeError "__weakref__")
  else if String.eqb name "__class__"
  then Raise (TypeError "can't delete __class__ attribute")
  else if String.eqb name "__dict__"
  then Ok ∅
  else match obj !! name with
       | Some _ => Ok (delete name obj)
       | None => Raise (AttributeError name)
       end.

(** [type(obj).__setattr__(obj, name, v)].  The hook is looked up in the
    class namespace only; without one, [object.__setattr__] is what runs.
    [None]: the class defines a hook whose behaviour this model does not
    describe. *)
Definition setattr (cls : gmap string binding)
    (obj : gmap string (value E)) (name : string) (v : value E)
  : option (result (gmap string (value E))) :=
  match cls !! "__setattr__" with
  | None => object_setattr obj name v
  | Some (Function (Some e)) => Some (Raise e)
  | Some _ => None
  end.

(** [type(obj).__delattr__(obj, name)], with [object.__delattr__] as the
    default. *)
Definition delattr (cls : gmap string binding)
    (obj : gmap string (value E)) (name : string)
  : option (result (gmap string (value E))) :=
  match cls !! "__delattr__" with
  | None => Some (object_delattr obj name)
  | Some (Function (Some e)) => Some (Raise e)
  | Some _ => None
  end.

(** [obj.name] on an instance dictionary. *)
Definition getattr (obj : gmap string (value E)) (name : string)
  : result (value E) :=
  match obj !! name with
  | Some v => Ok v
  | None => Raise (AttributeError name)
  end.

End Protocol.

Definition immutable_msg : string := "Cannot modify the immutable object".

(** The namespace of [class Trainer(object)]: the names its body binds
    (private names mangled).  No [__setattr__] and no [__delattr__]. *)
Definition Trainer_class : gmap string binding :=
  list_to_map
    [ ("_Trainer__LOGGER", ClassAttr);
      ("_Trainer__MAX_BYTES", ClassAttr);
      ("__init__", Function None);
      ("train", Function None);
      ("_Trainer__extract_data_and_label_from_avs", Function None);
      ("_Trainer__extract_in_multithreads", Function None);
      ("_Trainer__convert_to_pb_model", Function None);
      ("_Trainer__create_saved_model", Function None) ].

(** A class that does freeze its instances: the two hooks of [__init__]
    bound in the class body instead. *)
Definition Frozen_class : gmap string binding :=
  <["__setattr__" := Function (Some (NotImplementedError immutable_msg))]>
    (<["__delattr__" := Function (Some (NotImplementedError immutable_msg))]>
       Trainer_class).

Section Init.
Context {E : Type}.

(** [Trainer.__init__(self, feature_embedder)]: one attribute store, then
    two [def] statements, which bind the names [__setattr__] and
    [__delattr__] in the frame of the call.  Returns the instance and
    the frame's local bindings. *)
Definition Trainer_init (self : gmap string (value E)) (feature_embedder : E)
  : option (result (gmap string (value E) * gmap string binding)) :=
  match setattr Trainer_class self "_Trainer__feature_embedder"
          (VEmbedder feature_embedder) with
  | Some (Ok self) =>
      let locals : gmap string binding :=
        <["__delattr__" :=
            Function (Some (NotImplementedError immutable_msg))]>
          (<["__setattr__" :=
               Function (Some (NotImplementedError immutable_msg))]> ∅) in
      Some (Ok (self, locals))
  | Some (Raise e) => Some (Raise e)
  | None => None
  end.

(** [Trainer(feature_embedder)]: a fresh instance is initialised; the
    frame of [__init__] is discarded when the call returns. *)
Definition Trainer_new (feature_embedder : E)
  : option (result (gmap string (value E))) :=
  match Trainer_init ∅ feature_embedder with
  | Some (Ok (self, _)) => Some (Ok self)
  | Some (Raise e) => Some (Raise e)
  | None => None
  end.

End Init.

End PyObject.

(** ** Arrays *)

(** An array with at least one axis: the entries along axis 0 and the shape
    each entry has ([shape = len :: tail_shape]). *)
Record ndarray (A : Type) : Type := NdArray {
  tail_shape : list nat;
  items : list A;
}.
Arguments NdArray {A} tail_shape items.
Arguments tail_shape {A} _.
Arguments items {A} _.

Module Np.
Section Arrays.
Context {A : Type}.

Definition len (a : ndarray A) : nat := length (items a).

Definition shape (a : ndarray A) : list nat := len a :: tail_shape a.

(** [a.shape[i]] *)
Definition shape_at (a : ndarray A) (i : nat) : result nat :=
  match shape a !! i with
  | Some n => Ok n
  | None => Raise (IndexError "tuple index out of range")
  end.

(** [np.concatenate(arrays)] along axis 0. *)
Definition concatenate (arrays : list (ndarray A)) : result (ndarray A) :=
  match arrays with
  | [] => Raise (ValueError "need at least one array to concatenate")
  | a :: rest =>
      if forallb (λ b, bool_decide (tail_shape b = tail_shape a)) rest
      then Ok (NdArray (tail_shape a) (concat (items <$> arrays)))
      else Raise (ValueError "all the input array dimensions except for the concatenation axis must match exactly")
  end.

(** [a[idx]] for an index array [idx]: a new array of the chosen
    entries. *)
Definition take (a : ndarray A) (idx : list nat) : result (ndarray A) :=
  match mapM (λ i, items a !! i) idx with
  | Some chosen => Ok (NdArray (tail_shape a) chosen)
  | None => Raise (IndexError "index out of bounds for axis 0")
  end.

End Arrays.

Section Matrices.
Context {F : Type}.

Definition transpose (ncols : nat) (m : list (list F)) : list (list F) :=
  (λ j, omap (λ row : list F, row !! j) m) <$> seq 0 ncols.

(** [np.rot90(m=val, k=1, axes=(0, 1))] on an entry of shape [val_shape]:
    [transpose(flip(val, 1))], with the first two axes exchanged. *)
Definition rot90 (val_shape : list nat) (val : list (list F))
  : result (list nat * list (list F)) :=
  match val_shape with
  | a :: b :: rest => Ok (b :: a :: rest, transpose b (@rev F <$> val))
  | _ => Raise (ValueError "Axes must be different.")
  end.

Fixpoint rot90_each (val_shape : list nat) (vals : list (list (list F)))
  : result (list (list nat * list (list F))) :=
  match vals with
  | [] => Ok []
  | val :: rest =>
      rbind (rot90 val_shape val) (λ r,
      rbind (rot90_each val_shape rest) (λ rs, Ok (r :: rs)))
  end.

(** [np.array(vals)] of a list of equally shaped arrays; the empty list
    gives the one-dimensional empty array. *)
Definition array (vals : list (list nat * list (list F)))
  : ndarray (list (list F)) :=
  match vals with
  | [] => NdArray [] []
  | (s, _) :: _ => NdArray s (snd <$> vals)
  end.

(** [np.mean(a, axis=0)], entry by entry. *)
Definition mean0 (fmean : list F → F) (a : ndarray (list (list F)))
  : list (list F) :=
  (λ i, (λ j, fmean (omap (λ m : list (list F), m !! i ≫= (.!! j)) (items a)))
          <$> seq 0 (default 0%nat (tail_shape a !! 1%nat)))
    <$> seq 0 (default 0%nat (tail_shape a !! 0%nat)).

(** [a - mean], the mean broadcast along axis 0. *)
Definition subtract (fsub : F → F → F) (a : ndarray (list (list F)))
    (mean : list (list F)) : ndarray (list (list F)) :=
  NdArray (tail_shape a)
    ((λ m, zip_with (zip_with fsub) m mean) <$> items a).

End Matrices.
End Np.

(** ** The trainer *)

(** A feature tensor: samples along axis 0, each a matrix of floats [F].
    A label tensor: entries [L] along axis 0. *)
Abbreviation features F := (ndarray (list (list F))).
Abbreviation label_array L := (ndarray L).

(** [feature_embedder.extract_data_and_label_from_audio(audio, subtitle,
    subtitles=None, ignore_sound_effects=True)] *)
Abbreviation embedder F L :=
  (string → string → result (features F * label_array L)).

Section Trainer.
(** [F]: the floats stored in feature tensors and fit histories; [L]: an
    entry of a label tensor along axis 0; [network]: a [Network] object. *)
Context {F L network : Type}.

(** The arguments of a fitting call, in source order. *)
Record fit_args : Type := FitArgs {
  fit_data : features F;
  fit_labels : label_array L;
  fit_model_filepath : string;
  fit_weights_filepath : string;
  fit_logs_dir : string;
  fit_epochs : Z;
  fit_training_log : string;
  fit_resume : bool;
}.

(** Everything [trainer.py] imports or reads from its surroundings. *)
Record collaborators : Type := Collaborators {
  (** [MediaHelper.AUDIO_FILE_EXTENSION] *)
  AUDIO_FILE_EXTENSION : list string;
  (** [MediaHelper.extract_audio(path, True, 16000)] *)
  extract_audio : string → result string;
  (** [os.environ] and [mp.cpu_count()] *)
  host : machine;
  (** the order in which the pool runs [n] submitted tasks *)
  schedule : nat → list nat;
  (** [np.random.permutation(np.arange(n))] *)
  random_permutation : nat → list nat;
  (** whether [h5py.File(path, "w")] can create the file *)
  can_create : string → bool;
  (** [Network.load_model_and_weights], [Network.get_lstm] and the
      methods of the network they return *)
  load_model_and_weights : string → string → result network;
  get_lstm : nat * nat → result network;
  fit_with_generator : network → fit_args → result (list F * list F);
  fit_and_get_history : network → fit_args → result (list F * list F);
  save_model_and_weights : network → string → string → string → result unit;
  (** float subtraction, mean and comparison *)
  fsub : F → F → F;
  fmean : list F → F;
  flt : F → F → bool;
}.

(** A training dump: the two named datasets of the HDF5 container. *)
Record h5file : Type := H5File {
  ds_train_data : option (features F);
  ds_labels : option (label_array L);
}.

Inductive level : Type := DEBUG | INFO | ERROR.

(** The records handed to the logger, by format string. *)
Inductive message : Type :=
| MsgResumeDump                      (* "Resume training on data dump: " *)
| MsgInputShape (input_shape : nat * nat)
| MsgValLoss (x : F)
| MsgValAcc (x : F)
| MsgTotalTime
| MsgExtracted                       (* "Data and labels extracted after.." *)
| MsgAudioExtracted                  (* "- Audio extracted after .." *)
| MsgException (e : exn)             (* "Exception: {}; stacktrace: {}" *)
| MsgUnexpected (e : exn)            (* "Unexpected exception: {}; .." *)
| MsgPaths (audio subtitle : string) (* "[Audio: {}, Subtitle: {}]" *).

(** The calls made on [Network], with their arguments. *)
Inductive call : Type :=
| CallLoad (model_filepath weights_filepath : string)
| CallGetLstm (input_shape : nat * nat)
| CallFitWithGenerator (n : network) (args : fit_args)
| CallFitAndGetHistory (n : network) (args : fit_args)
| CallSave (n : network) (model_filepath weights_filepath combined : string).

(** What a run can change: the dump files, the log and the calls made on
    the network so far (both in chronological order). *)
Record world : Type := World {
  fs : gmap string h5file;
  log : list (level * message);
  calls : list call;
}.

Definition set_fs (f : gmap string h5file → gmap string h5file) (w : world)
  : world := World (f (fs w)) (log w) (calls w).
Definition add_log (lv : level) (m : message) (w : world) : world :=
  World (fs w) (log w ++ [(lv, m)]) (calls w).
Definition add_call (c : call) (w : world) : world :=
  World (fs w) (log w) (calls w ++ [c]).

(** *** Stateful, fallible computations *)

Definition M (A : Type) : Type := world → world * result A.

#[local] Instance M_ret : MRet M := λ A a w, (w, Ok a).
#[local] Instance M_bind : MBind M := λ A B k m w,
  match m w with
  | (w', Ok a) => k a w'
  | (w', Raise e) => (w', Raise e)
  end.

Definition lift {A} (r : result A) : M A := λ w, (w, r).
Definition logger (lv : level) (m : message) : M unit :=
  λ w, (add_log lv m w, Ok tt).
Definition called (c : call) : M unit := λ w, (add_call c w, Ok tt).

Variable C : collaborators.
Abbreviation instance := (gmap string (PyObject.value (embedder F L))).

(** *** [Trainer.__extract_in_multithreads] *)

(** The two result lists shared by the tasks, and the log. *)
Record task_state : Type := TaskState {
  train_data : list (option (features F));
  labels : list (option (label_array L));
  task_log : list (level * message);
}.

Definition task_logger (lv : level) (m : message) (st : task_state)
  : task_state :=
  TaskState (train_data st) (labels st) (task_log st ++ [(lv, m)]).

(** Reading a local variable that may not have been assigned. *)
Definition read_local (name : string) (binding : option string)
  : result string :=
  match binding with
  | Some v => Ok v
  | None => Raise (UnboundLocalError name)
  end.

(** [l[i] = x] on a Python list. *)
Definition set_item {A} (l : list (option A)) (i : nat) (x : A)
  : result (list (option A)) :=
  if (i <? length l)%nat
  then Ok (<[i := Some x]> l)
  else Raise (IndexError "list assignment index out of range").

(** [self.__feature_embedder.extract_data_and_label_from_audio(...)] *)
Definition embed (self : instance) (audio_file_path subtitle_file_path : string)
  : result (features F * label_array L) :=
  rbind (PyObject.getattr self "_Trainer__feature_embedder") (λ v,
    match v with
    | PyObject.VEmbedder fe => fe audio_file_path subtitle_file_path
    | _ => Raise (AttributeError "extract_data_and_label_from_audio")
    end).

(** The second logger call of either handler and the final [return]: both
    read the local [audio_file_path]. *)
Definition log_paths_and_return (audio_file_path : option string)
    (subtitle_file_path : string) (st : task_state)
  : task_state * result (string * string) :=
  match read_local "audio_file_path" audio_file_path with
  | Raise e => (st, Raise e)
  | Ok audio =>
      let st := task_logger ERROR (MsgPaths audio subtitle_file_path) st in
      (st, rbind (read_local "audio_file_path" audio_file_path)
             (λ audio, Ok (audio, subtitle_file_path)))
  end.

Definition extract_in_multithreads (self : instance) (index : nat)
    (av_file_path subtitle_file_path : string) (st : task_state)
  : task_state * result (string * string) :=
  let '(file_name, file_ext) := Py.splitext av_file_path in
  (* try: *)
  let '(st, audio_file_path, audio) :=
    if negb (bool_decide (file_ext ∈ AUDIO_FILE_EXTENSION C))
    then match extract_audio C av_file_path with
         | Ok p => (task_logger DEBUG MsgAudioExtracted st, Some p, Ok p)
         | Raise e => (st, None, Raise e)
         end
    else (st, Some av_file_path, Ok av_file_path) in
  match rbind audio (λ p, embed self p subtitle_file_path) with
  (* except (UnsupportedFormatException, TerminalException) as e: *)
  | Raise (UnsupportedFormatException _ as e)
  | Raise (TerminalException _ as e) =>
      let st := task_logger ERROR (MsgException e) st in
      log_paths_and_return audio_file_path subtitle_file_path st
  (* except Exception as e: *)
  | Raise e =>
      let st := task_logger ERROR (MsgUnexpected e) st in
      log_paths_and_return audio_file_path subtitle_file_path st
  (* else: *)
  | Ok (x, y) =>
      match set_item (train_data st) index x with
      | Raise e => (st, Raise e)
      | Ok data =>
          let st := TaskState data (labels st) (task_log st) in
          match set_item (labels st) index y with
          | Raise e => (st, Raise e)
          | Ok labs =>
              let st := TaskState (train_data st) labs (task_log st) in
              (st, rbind (read_local "audio_file_path" audio_file_path)
                     (λ audio, Ok (audio, subtitle_file_path)))
          end
      end
  end.

(** *** [Trainer.__extract_data_and_label_from_avs] *)

(** One submitted task.  What the task returns or raises stays in its
    future, which the coordinator never reads: [wait] has no timeout, so
    [not_done] is empty and the loop over it does not run. *)
Definition run_task (self : instance) (tasks : list (string * string))
    (st : task_state) (index : nat) : task_state :=
  match tasks !! index with
  | Some (av_file_path, subtitle_file_path) =>
      (extract_in_multithreads self index av_file_path subtitle_file_path st).1
  | None => st
  end.

Definition run_tasks (self : instance) (tasks : list (string * string))
    (order : list nat) (st : task_state) : task_state :=
  foldl (run_task self tasks) st order.

(** The lists [[None] * len(...)] after the pool has run every submitted
    task.  Evaluating [subtitle_file_paths[index]] stops the submissions at
    the first missing index, so the tasks are those of the common
    indices. *)
Definition run_pool (self : instance)
    (av_file_paths subtitle_file_paths : list string)
    (log0 : list (level * message)) : task_state :=
  let tasks := zip av_file_paths subtitle_file_paths in
  run_tasks self tasks (schedule C (length tasks))
    (TaskState (replicate (length av_file_paths) None)
       (replicate (length subtitle_file_paths) None) log0).

Definition extract_data_and_label_from_avs (self : instance)
    (av_file_paths subtitle_file_paths : list string)
  : M (features F * label_array L) :=
  max_workers ← lift (max_workers (host C));
  lift (ThreadPoolExecutor max_workers);;
  st ← (λ w,
          let st := run_pool self av_file_paths subtitle_file_paths (log w) in
          (World (fs w) (task_log st) (calls w), Ok st));
  (* leaving the [with] block waits for the tasks submitted so far, then
     the failed submission propagates *)
  (if (length subtitle_file_paths <? length av_file_paths)%nat
   then lift (Raise (IndexError "list index out of range"))
   else mret tt);;
  let train_data := omap id (train_data st) in
  let labels := omap id (labels st) in
  train_data ← lift (Np.concatenate train_data);
  labels ← lift (Np.concatenate labels);
  logger DEBUG MsgExtracted;;
  mret (train_data, labels).

(** *** [Trainer.train] *)

(** [h5py.File(path, "r")] *)
Definition h5_open_read (path : string) : M h5file := λ w,
  match fs w !! path with
  | Some hf => (w, Ok hf)
  | None => (w, Raise (OSError path))
  end.

(** [hf[name]] for the two datasets of a dump *)
Definition h5_dataset {A} (name : string) (ds : option A) : result A :=
  match ds with
  | Some a => Ok a
  | None => Raise (KeyError name)
  end.

(** [h5py.File(path, "w")]: create the file, truncating an existing one. *)
Definition h5_open_write (path : string) : M unit := λ w,
  if can_create C path
  then (set_fs <[path := H5File None None]> w, Ok tt)
  else (w, Raise (OSError path)).

(** [hf.create_dataset("train_data", data=...)] on the file at [path]. *)
Definition h5_create_train_data (path : string) (data : features F) : M unit :=
  λ w,
  match fs w !! path with
  | Some (H5File None labs) =>
      (set_fs <[path := H5File (Some data) labs]> w, Ok tt)
  | Some (H5File (Some _) _) =>
      (w, Raise (ValueError "Unable to create dataset (name already exists)"))
  | None => (w, Raise (OSError path))
  end.

(** [hf.create_dataset("labels", data=...)] on the file at [path]. *)
Definition h5_create_labels (path : string) (data : label_array L) : M unit :=
  λ w,
  match fs w !! path with
  | Some (H5File td None) =>
      (set_fs <[path := H5File td (Some data)]> w, Ok tt)
  | Some (H5File _ (Some _)) =>
      (w, Raise (ValueError "Unable to create dataset (name already exists)"))
  | None => (w, Raise (OSError path))
  end.

(** [rand = np.random.permutation(np.arange(len(labels)))], then
    [train_data[rand]] and [labels[rand]]. *)
Definition permute (train_data : features F) (labels : label_array L)
  : result (features F * label_array L) :=
  let rand := random_permutation C (Np.len labels) in
  rbind (Np.take train_data rand) (λ train_data,
  rbind (Np.take labels rand) (λ labels,
  Ok (train_data, labels))).

(** [np.array([np.rot90(m=val, k=1, axes=(0, 1)) for val in train_data])] *)
Definition reorient (train_data : features F) : result (features F) :=
  rbind (Np.rot90_each (tail_shape train_data) (items train_data))
    (λ vals, Ok (Np.array vals)).

(** [train_data - np.mean(train_data, axis=0)] *)
Definition center (train_data : features F) : features F :=
  Np.subtract (fsub C) train_data (Np.mean0 (fmean C) train_data).

(** The branch of [train] that reads the dump. *)
Definition resume_from_dump
    (model_filepath weights_filepath logs_dir training_dump_dir : string)
    (epochs : Z) (training_log : string) (resume : bool)
  : M (network * (list F * list F)) :=
  let training_dump := training_dump_dir +:+ "/training_dump.hdf5" in
  logger DEBUG MsgResumeDump;;
  hf ← h5_open_read training_dump;
  train_data_raw ← lift (h5_dataset "train_data" (ds_train_data hf));
  labels_raw ← lift (h5_dataset "labels" (ds_labels hf));
  network ←
    (if resume
     then called (CallLoad model_filepath weights_filepath);;
          lift (load_model_and_weights C model_filepath weights_filepath)
     else d2 ← lift (Np.shape_at train_data_raw 2);
          d1 ← lift (Np.shape_at train_data_raw 1);
          let input_shape := (d2, d1) in
          logger DEBUG (MsgInputShape input_shape);;
          called (CallGetLstm input_shape);;
          lift (get_lstm C input_shape));
  let args := FitArgs train_data_raw labels_raw model_filepath
                weights_filepath logs_dir epochs training_log resume in
  called (CallFitWithGenerator network args);;
  history ← lift (fit_with_generator C network args);
  mret (network, history).

(** The dump written by a fresh extraction:
    [h5py.File(training_dump, "w")] and the two [create_dataset] calls. *)
Definition write_dump (training_dump : string) (train_data : features F)
    (labels : label_array L) : M unit :=
  h5_open_write training_dump;;
  h5_create_train_data training_dump train_data;;
  h5_create_labels training_dump labels.

(** The rest of the [with] block: permutation, reorientation and
    zero-centering in memory, then a new model fitted from scratch. *)
Definition fit_extracted (train_data : features F) (labels : label_array L)
    (model_filepath weights_filepath logs_dir : string)
    (epochs : Z) (training_log : string)
  : M (network * (list F * list F)) :=
  '(train_data, labels) ← lift (permute train_data labels);
  train_data ← lift (reorient train_data);
  let train_data := center train_data in
  d1 ← lift (Np.shape_at train_data 1);
  d2 ← lift (Np.shape_at train_data 2);
  let input_shape := (d1, d2) in
  logger DEBUG (MsgInputShape input_shape);;
  called (CallGetLstm input_shape);;
  network ← lift (get_lstm C input_shape);
  let args := FitArgs train_data labels model_filepath weights_filepath
                logs_dir epochs training_log false in
  called (CallFitAndGetHistory network args);;
  history ← lift (fit_and_get_history C network args);
  mret (network, history).

(** The branch of [train] that extracts afresh. *)
Definition fresh_extraction (self : instance)
    (av_file_paths subtitle_file_paths : list string)
    (model_filepath weights_filepath logs_dir training_dump_dir : string)
    (epochs : Z) (training_log : string)
  : M (network * (list F * list F)) :=
  '(train_data, labels) ←
    extract_data_and_label_from_avs self av_file_paths subtitle_file_paths;
  let training_dump := training_dump_dir +:+ "/training_dump.hdf5" in
  write_dump training_dump train_data labels;;
  fit_extracted train_data labels model_filepath weights_filepath logs_dir
    epochs training_log.

(** What [train] does after either branch: log the best validation loss
    and accuracy and the elapsed time, then save the combined artifact. *)
Definition after_fit (model_dir model_filepath weights_filepath : string)
    (fitted : network * (list F * list F)) : M unit :=
  let '(network, (val_loss, val_acc)) := fitted in
  best_loss ← lift (Py.min (flt C) val_loss);
  logger DEBUG (MsgValLoss best_loss);;
  best_acc ← lift (Py.max (flt C) val_acc);
  logger DEBUG (MsgValAcc best_acc);;
  logger INFO MsgTotalTime;;
  let combined_filepath := model_dir +:+ "/combined.hdf5" in
  called (CallSave network model_filepath weights_filepath combined_filepath);;
  lift (save_model_and_weights C network model_filepath weights_filepath
          combined_filepath).

Definition train (self : instance)
    (av_file_paths subtitle_file_paths : option (list string))
    (model_dir weights_dir logs_dir training_dump_dir : string)
    (epochs : Z) (training_log : string) (resume : bool) : M unit :=
  let model_filepath := model_dir +:+ "/" +:+ "model.hdf5" in
  let weights_filepath := weights_dir +:+ "/" +:+ "weights.hdf5" in
  fitted ←
    match av_file_paths, subtitle_file_paths with
    (* if av_file_paths is None or subtitle_file_paths is None: *)
    | None, _ | _, None =>
        resume_from_dump model_filepath weights_filepath logs_dir
          training_dump_dir epochs training_log resume
    | Some av_file_paths, Some subtitle_file_paths =>
        fresh_extraction self av_file_paths subtitle_file_paths
          model_filepath weights_filepath logs_dir training_dump_dir
          epochs training_log
    end;
  after_fit model_dir model_filepath weights_filepath fitted.

(** *** Notions the statements below are phrased with *)

(** What extracting one sample yields: the audio path is the input itself
    when its extension is an audio one and the extracted audio otherwise,
    and the embedder is run on it with the sample's subtitle path. *)
Definition audio_path_of (av_file_path : string) : result string :=
  if bool_decide ((Py.splitext av_file_path).2 ∈ AUDIO_FILE_EXTENSION C)
  then Ok av_file_path
  else extract_audio C av_file_path.

Definition sample_extraction (self : instance)
    (av_file_path subtitle_file_path : string)
  : result (features F * label_array L) :=
  rbind (audio_path_of av_file_path)
    (λ audio, embed self audio subtitle_file_path).

(** The pair a sample contributes to the corpus, if it extracts. *)
Definition sample_pair (self : instance) (sample : string * string)
  : option (features F * label_array L) :=
  match sample_extraction self sample.1 sample.2 with
  | Ok xy => Some xy
  | Raise _ => None
  end.

(** The pairs of the samples that extract successfully, in index order. *)
Definition survivors (self : instance)
    (av_file_paths subtitle_file_paths : list string)
  : list (features F * label_array L) :=
  omap (sample_pair self) (zip av_file_paths subtitle_file_paths).

(** The entry of a result list at [i] once the tasks of [order] have run:
    the projection [pr] of the sample's pair if its task ran and
    succeeded, the initial entry otherwise. *)
Definition slot_after {A} (self : instance) (pr : features F * label_array L → A)
    (tasks : list (string * string)) (order : list nat)
    (initial : list (option A)) (i : nat) : option (option A) :=
  if decide (i ∈ order)
  then match tasks !! i ≫= sample_pair self with
       | Some xy => Some (Some (pr xy))
       | None => initial !! i
       end
  else initial !! i.

(** The arrays of a list have one common entry shape. *)
Definition same_tail_shape {A} (arrays : list (ndarray A)) : Prop :=
  ∀ a b, a ∈ arrays → b ∈ arrays → tail_shape a = tail_shape b.

(** A recognized domain failure: one of the two classes of the first
    [except] clause. *)
Definition recognized (e : exn) : bool :=
  match e with
  | UnsupportedFormatException _ | TerminalException _ => true
  | _ => false
  end.

(** The path of the dump inside [training_dump_dir]. *)
Definition dump_path (training_dump_dir : string) : string :=
  training_dump_dir +:+ "/training_dump.hdf5".

(** A run went through the resume-from-dump branch: that branch, and no
    other statement of the module, logs [MsgResumeDump]. *)
Definition took_dump_branch (w : world) : Prop :=
  (DEBUG, MsgResumeDump) ∈ log w.

Definition not_resume_record (r : level * message) : Prop :=
  r ≠ (DEBUG, MsgResumeDump).

(** A path list that is "absent or empty". *)
Definition absent_or_empty (paths : option (list string)) : Prop :=
  paths = None ∨ paths = Some [].

(** The two file paths [train] derives from its directories. *)
Definition model_path (model_dir : string) : string :=
  model_dir +:+ "/" +:+ "model.hdf5".
Definition weights_path (weights_dir : string) : string :=
  weights_dir +:+ "/" +:+ "weights.hdf5".

Definition is_load (c : call) : Prop :=
  match c with CallLoad _ _ => True | _ => False end.
Definition is_get_lstm (c : call) : Prop :=
  match c with CallGetLstm _ => True | _ => False end.

(** A call a fresh-extraction run may make: no model is loaded, and
    fitting goes through [fit_and_get_history] with the resume flag off. *)
Definition from_scratch (c : call) : Prop :=
  match c with
  | CallLoad _ _ | CallFitWithGenerator _ _ => False
  | CallFitAndGetHistory _ args => fit_resume args = false
  | CallGetLstm _ | CallSave _ _ _ _ => True
  end.

(** Relations between the world before and after a computation. *)
Definition same_fs (w w' : world) : Prop := fs w' = fs w.
Definition calls_extended (P : call → Prop) (w w' : world) : Prop :=
  ∃ cs, calls w' = calls w ++ cs ∧ Forall P cs.
Definition log_extended (P : level * message → Prop) (w w' : world) : Prop :=
  ∃ rs, log w' = log w ++ rs ∧ Forall P rs.

Definition task_log_extended (P : level * message → Prop)
    (st st' : task_state) : Prop :=
  ∃ rs, task_log st' = task_log st ++ rs ∧ Forall P rs.

(** [m] relates every world it starts in to the one it ends in. *)
Definition preserves {A} (R : world → world → Prop) (m : M A) : Prop :=
  ∀ w, R w (m w).1.

End Trainer.

Arguments World {F L network} fs log calls.
Arguments TaskState {F L} train_data labels task_log.

(** ** A concrete setting to run the model on *)

Module Demo.

(** A two-sample batch: ["a.wav"] is audio already, ["b.mp4"] needs its
    audio extracted, which [MediaHelper] refuses as unsupported. *)
Definition x_a : features Z := NdArray [2; 1]%nat [[[1]; [2]]; [[3]; [4]]].
Definition y_a : label_array Z := NdArray [] [0; 1].

Definition fe : embedder Z Z := λ audio subtitle,
  if String.eqb audio "a.wav" then Ok (x_a, y_a)
  else Raise (TerminalException "corrupt audio").

Definition collab (env : gmap string string) (cpus : positive)
  : @collaborators Z Z nat :=
  {| AUDIO_FILE_EXTENSION := [".wav"; ".aac"; ".flac"; ".mp3"];
     extract_audio := λ _, Raise (UnsupportedFormatException "no audio stream");
     host := Machine env cpus;
     schedule := λ n, rev (seq 0 n);
     random_permutation := λ n, rev (seq 0 n);
     can_create := λ _, true;
     load_model_and_weights := λ _ _, Ok 7%nat;
     get_lstm := λ _, Ok 1%nat;
     fit_with_generator := λ _ _, Ok ([3; 2], [8; 9]);
     fit_and_get_history := λ _ _, Ok ([3; 2], [8; 9]);
     save_model_and_weights := λ _ _ _ _, Ok tt;
     fsub := Z.sub;
     fmean := λ l, foldr Z.add 0 l / Z.of_nat (length l);
     flt := Z.ltb |}.

Definition C : @collaborators Z Z nat := collab ∅ 4.

Definition empty_world : @world Z Z nat := World ∅ [] [].

Definition trainer : gmap string (PyObject.value (embedder Z Z)) :=
  {[ "_Trainer__feature_embedder" := PyObject.VEmbedder fe ]}.

Definition empty_task_state : @task_state Z Z := TaskState [None] [None] [].

(** A store that already holds a dump, with other content. *)
Definition stale_world : @world Z Z nat :=
  World {[ "dump/training_dump.hdf5" := H5File (Some (NdArray [] [])) None ]}
    [] [].

(** A store with a dump of two samples. *)
Definition dumped_world : @world Z Z nat :=
  World {[ "dump/training_dump.hdf5" := H5File (Some x_a) (Some y_a) ]} [] [].

End Demo.

(** ** The export helpers *)

(** [os.path.join(a, b)] (posixpath). *)
Definition path_join (a b : string) : string :=
  if String.prefix "/" b then b
  else if String.eqb a "" || String.eqb (String.substring (String.length a - 1) 1 a) "/"
       then a +:+ b
       else a +:+ "/" +:+ b.

Section ExportHelpers.
(** [E]: the embedder type of the instance; [session], [saver], [builder]:
    the TensorFlow objects the helpers handle. *)
Context {E session saver builder : Type}.

(** What the two helpers use of TensorFlow and of the backend object. *)
Record tensorflow : Type := TensorFlow {
  (** [tf.compat.v1.train.Saver()] *)
  tf_Saver : result saver;
  (** [backend.get_session()] on the value of [self.__backend] *)
  get_session : PyObject.value E → result session;
  (** [saver.save(session, path)] *)
  saver_save : saver → session → string → result unit;
  (** [tf.compat.v1.saved_model.builder.SavedModelBuilder(path)] *)
  SavedModelBuilder : string → result builder;
  (** [builder.add_meta_graph_and_variables(session, [tf.saved_model.SERVING])] *)
  add_meta_graph_and_variables : builder → session → result unit;
  (** [builder.save()] *)
  builder_save : builder → result unit;
}.

(** The calls the helpers make, in order. *)
Inductive tf_call : Type :=
| TfSaver
| TfGetSession
| TfSaverSave (path : string)
| TfBuilder (path : string)
| TfAddMetaGraph
| TfBuilderSave.

Variable T : tensorflow.

(** [self.__backend.get_session()]: the attribute lookup, then the call. *)
Definition backend_session (self : gmap string (PyObject.value E))
    (trace : list tf_call) : list tf_call * result session :=
  match PyObject.getattr self "_Trainer__backend" with
  | Raise e => (trace, Raise e)
  | Ok backend => (trace ++ [TfGetSession], get_session T backend)
  end.

(** [Trainer.__convert_to_pb_model(self, pb_model_dir, pb_model_name)] *)
Definition convert_to_pb_model (self : gmap string (PyObject.value E))
    (pb_model_dir pb_model_name : string) : list tf_call * result unit :=
  match tf_Saver T with
  | Raise e => ([TfSaver], Raise e)
  | Ok saver =>
      match backend_session self [TfSaver] with
      | (trace, Raise e) => (trace, Raise e)
      | (trace, Ok session) =>
          let path := path_join pb_model_dir (pb_model_name +:+ ".ckpt") in
          (trace ++ [TfSaverSave path], saver_save T saver session path)
      end
  end.

(** [Trainer.__create_saved_model(self, saved_model_path)] *)
Definition create_saved_model (self : gmap string (PyObject.value E))
    (saved_model_path : string) : list tf_call * result unit :=
  match SavedModelBuilder T saved_model_path with
  | Raise e => ([TfBuilder saved_model_path], Raise e)
  | Ok saved_model_builder =>
      match backend_session self [TfBuilder saved_model_path] with
      | (trace, Raise e) => (trace, Raise e)
      | (trace, Ok session) =>
          match add_meta_graph_and_variables T saved_model_builder session with
          | Raise e => (trace ++ [TfAddMetaGraph], Raise e)
          | Ok _ =>
              (trace ++ [TfAddMetaGraph; TfBuilderSave],
               builder_save T saved_model_builder)
          end
      end
  end.

End ExportHelpers.

(** ** Further notions *)

Section Notions.
Context {F L network : Type}.

(** A record one of the two handlers of a task writes first. *)
Definition is_failure_record (r : level * @message F) : bool :=
  match r.2 with
  | MsgException _ | MsgUnexpected _ => true
  | _ => false
  end.

(** A matrix of [a] rows of [b] entries. *)
Definition well_formed (a b : nat) (m : list (list F)) : Prop :=
  length m = a ∧ Forall (λ row, length row = b) m.

(** One of the two fitting calls, on the network [n]. *)
Definition is_fit_of (n : network) (c : @call F L network) : Prop :=
  match c with
  | CallFitWithGenerator n' _ | CallFitAndGetHistory n' _ => n' = n
  | _ => False
  end.

Definition is_save (c : @call F L network) : Prop :=
  match c with CallSave _ _ _ _ => True | _ => False end.

End Notions.

Section PoolNotions.
Context {F L network : Type} (C : @collaborators F L network).

(** A sample whose extraction fails. *)
Definition sample_fails (self : gmap string (PyObject.value (embedder F L)))
    (sample : string * string) : bool :=
  negb (is_Ok (sample_extraction C self sample.1 sample.2)).

(** The index of a submitted task whose sample fails. *)
Definition task_fails_at (self : gmap string (PyObject.value (embedder F L)))
    (tasks : list (string * string)) (i : nat) : Prop :=
  match tasks !! i with
  | Some sample => Is_true (sample_fails self sample)
  | None => False
  end.

(** The number of failure records among [rs]. *)
Definition failure_count (rs : list (level * @message F)) : nat :=
  length (filter (λ r, Is_true (is_failure_record r)) rs).

End PoolNotions.

(** Further concrete settings. *)
Module Cases.

(** An embedder that fails in an unforeseen way. *)
Definition broken_fe : embedder Z Z := λ audio subtitle,
  Raise (OtherException "division by zero").

Definition broken_trainer : gmap string (PyObject.value (embedder Z Z)) :=
  {[ "_Trainer__feature_embedder" := PyObject.VEmbedder broken_fe ]}.

(** [MediaHelper.extract_audio] failing in an unforeseen way. *)
Definition C_unexpected : @collaborators Z Z nat :=
  {| AUDIO_FILE_EXTENSION := AUDIO_FILE_EXTENSION Demo.C;
     extract_audio := λ _, Raise (OtherException "ffmpeg not found");
     host := host Demo.C;
     schedule := schedule Demo.C;
     random_permutation := random_permutation Demo.C;
     can_create := can_create Demo.C;
     load_model_and_weights := load_model_and_weights Demo.C;
     get_lstm := get_lstm Demo.C;
     fit_with_generator := fit_with_generator Demo.C;
     fit_and_get_history := fit_and_get_history Demo.C;
     save_model_and_weights := save_model_and_weights Demo.C;
     fsub := fsub Demo.C;
     fmean := fmean Demo.C;
     flt := flt Demo.C |}.

(** A read-only location for the dump. *)
Definition C_readonly : @collaborators Z Z nat :=
  {| AUDIO_FILE_EXTENSION := AUDIO_FILE_EXTENSION Demo.C;
     extract_audio := extract_audio Demo.C;
     host := host Demo.C;
     schedule := schedule Demo.C;
     random_permutation := random_permutation Demo.C;
     can_create := λ _, false;
     load_model_and_weights := load_model_and_weights Demo.C;
     get_lstm := get_lstm Demo.C;
     fit_with_generator := fit_with_generator Demo.C;
     fit_and_get_history := fit_and_get_history Demo.C;
     save_model_and_weights := save_model_and_weights Demo.C;
     fsub := fsub Demo.C;
     fmean := fmean Demo.C;
     flt := flt Demo.C |}.

(** An embedder whose tensors differ in the shape of a sample. *)
Definition x_d : features Z := NdArray [1; 2]%nat [[[5; 6]]].

Definition mixed_fe : embedder Z Z := λ audio subtitle,
  if String.eqb audio "a.wav" then Ok (Demo.x_a, Demo.y_a)
  else Ok (x_d, NdArray [] [1]).

Definition mixed_trainer : gmap string (PyObject.value (embedder Z Z)) :=
  {[ "_Trainer__feature_embedder" := PyObject.VEmbedder mixed_fe ]}.

(** Dumps that cannot be trained on. *)
Definition labels_only_world : @world Z Z nat :=
  World {[ "dump/training_dump.hdf5" := H5File None (Some Demo.y_a) ]} [] [].

Definition flat_world : @world Z Z nat :=
  World {[ "dump/training_dump.hdf5" :=
             H5File (Some (NdArray [3]%nat [])) (Some Demo.y_a) ]} [] [].

(** Embedders whose labels do not match their feature samples. *)
Definition empty_fe : embedder Z Z := λ audio subtitle,
  Ok (NdArray [2; 1]%nat [], NdArray [] []).

Definition empty_trainer : gmap string (PyObject.value (embedder Z Z)) :=
  {[ "_Trainer__feature_embedder" := PyObject.VEmbedder empty_fe ]}.

Definition skewed_fe : embedder Z Z := λ audio subtitle,
  Ok (NdArray [2; 1]%nat [[[1]; [2]]], NdArray [] [0; 1]).

Definition skewed_trainer : gmap string (PyObject.value (embedder Z Z)) :=
  {[ "_Trainer__feature_embedder" := PyObject.VEmbedder skewed_fe ]}.

(** A TensorFlow in which every call succeeds. *)
Definition tf : @tensorflow (embedder Z Z) nat nat nat :=
  {| tf_Saver := Ok 1%nat;
     get_session := λ _, Ok 2%nat;
     saver_save := λ _ _ _, Ok tt;
     SavedModelBuilder := λ _, Ok 3%nat;
     add_meta_graph_and_variables := λ _ _, Ok tt;
     builder_save := λ _, Ok tt |}.

End Cases.

(** * Properties *)

(** ** Library functions on concrete inputs *)

Example splitext_mp4 : Py.splitext "dir.d/movie.mp4" = ("dir.d/movie", ".mp4").
Proof. reflexivity. Qed.

Example splitext_hidden : Py.splitext "a/.bashrc" = ("a/.bashrc", "").
Proof. reflexivity. Qed.

Example splitext_nodot : Py.splitext "a.b/c" = ("a.b/c", "").
Proof. reflexivity. Qed.

Example int_of_str_examples :
  Py.int_of_str " 12 " = Some 12 ∧ Py.int_of_str "-3" = Some (-3) ∧
  Py.int_of_str "1_000" = Some 1000 ∧ Py.int_of_str "1__0" = None ∧
  Py.int_of_str "" = None ∧ Py.int_of_str "four" = None.
Proof. repeat split; reflexivity. Qed.

(** A vertical tab is skipped, a file separator (character 28) is not. *)
Example int_of_str_separators :
  Py.int_of_str (String (ascii_of_nat 11) "4") = Some 4 ∧
  Py.int_of_str (String (ascii_of_nat 28) "4") = None.
Proof. split; reflexivity. Qed.

Example rot90_example :
  Np.rot90 [2; 2]%nat [[1; 2]; [3; 4]] = Ok ([2; 2]%nat, [[2; 4]; [1; 3]]).
Proof. reflexivity. Qed.

(** ** Worker count *)

Section WorkerCount.

(** [int(n / 2)] is the floor of the half for a positive [n]. *)
Lemma int_of_half (n : positive) :
  Py.int (Py.Float (Qdiv (inject_Z (Zpos n)) (2 # 1))) = Ok (Zpos n / 2).
Proof.
  cbn [Py.int]. f_equal.
  unfold Qdiv, Qmult, Qinv, inject_Z; cbn [Qnum Qden].
  rewrite Z.mul_1_r. change (Zpos (1 * 2)) with 2.
  apply Z.quot_div_nonneg; lia.
Qed.

Lemma digit_char_spec (d : nat) :
  (d < 10)%nat →
  Py.digit_value (Py.digit_char d) = Some (Z.of_nat d) ∧
  Py.is_space (Py.digit_char d) = false ∧
  Ascii.eqb (Py.digit_char d) "_"%char = false.
Proof.
  intros Hd. do 10 (destruct d as [| d]; [by split_and! |]). lia.
Qed.

Lemma digits_decimal (ds : list nat) (acc : Z) :
  Forall (λ d, (d < 10)%nat) ds →
  Py.digits acc false (Py.digit_char <$> ds)
    = Some (fold_left (λ acc d, 10 * acc + Z.of_nat d) ds acc).
Proof.
  intros Hds. revert acc.
  induction Hds as [| d ds Hd Hds IH]; intros acc; [done |].
  destruct (digit_char_spec d Hd) as (Hval & _ & Hus).
  cbn [fmap list_fmap Py.digits fold_left]. rewrite Hus, Hval. apply IH.
Qed.

Lemma list_ascii_of_string_app (a b : string) :
  String.list_ascii_of_string (a +:+ b)
    = String.list_ascii_of_string a ++ String.list_ascii_of_string b.
Proof. induction a as [| c a IH]; [done |]. simpl. by f_equal. Qed.

Lemma is_space_whitespace (c : ascii) :
  Py.is_space c = true ↔ c ∈ Py.whitespace.
Proof.
  split.
  - destruct c as [[] [] [] [] [] [] [] []]; intros Hc;
      try discriminate Hc; apply (bool_decide_unpack _); by vm_compute.
  - intros Hc. unfold Py.whitespace in Hc. cbn [fmap list_fmap] in Hc.
    repeat (apply elem_of_cons in Hc as [-> | Hc]; [reflexivity |]).
    by apply elem_of_nil in Hc.
Qed.

Lemma whitespace_literal_chars (c : ascii) :
  c ∈ Py.whitespace → c ∈ Py.literal_chars.
Proof. intros Hc. apply elem_of_app. by right. Qed.

Lemma digit_literal_chars (c : ascii) (d : Z) :
  Py.digit_value c = Some d → c ∈ Py.literal_chars.
Proof.
  destruct c as [[] [] [] [] [] [] [] []]; intros Hc;
    try discriminate Hc; apply (bool_decide_unpack _); by vm_compute.
Qed.

Lemma lstrip_spaces (ws l : list ascii) :
  Forall (λ c, c ∈ Py.whitespace) ws → Py.lstrip (ws ++ l) = Py.lstrip l.
Proof.
  induction 1 as [| c ws Hc%is_space_whitespace Hws IH]; [done |].
  cbn [app Py.lstrip]. by rewrite Hc.
Qed.

Lemma Forall_rev_whitespace (ws : list ascii) :
  Forall (λ c, c ∈ Py.whitespace) ws →
  Forall (λ c, c ∈ Py.whitespace) (rev ws).
Proof.
  intros Hws. apply list.Forall_forall. intros c Hc.
  rewrite list.Forall_forall in Hws. apply Hws.
  apply list_elem_of_In, in_rev, list_elem_of_In. exact Hc.
Qed.

(** What [lstrip] and [strip] remove is whitespace, and they remove nothing
    else. *)
Lemma lstrip_split (l : list ascii) :
  ∃ ws, l = ws ++ Py.lstrip l ∧ Forall (λ c, c ∈ Py.whitespace) ws.
Proof.
  induction l as [| c l (ws & IH & Hws)]; [by exists [] |].
  cbn [Py.lstrip]. destruct (Py.is_space c) eqn:Hc.
  - exists (c :: ws). split; [cbn; by f_equal |].
    constructor; [by apply is_space_whitespace | done].
  - by exists [].
Qed.

Lemma strip_split (l : list ascii) :
  ∃ ws1 ws2, l = ws1 ++ Py.strip l ++ ws2 ∧
             Forall (λ c, c ∈ Py.whitespace) ws1 ∧
             Forall (λ c, c ∈ Py.whitespace) ws2.
Proof.
  unfold Py.strip.
  destruct (lstrip_split l) as (ws1 & Hl & Hws1).
  destruct (lstrip_split (rev (Py.lstrip l))) as (ws2 & Hr & Hws2).
  exists ws1, (rev ws2). split_and!; [| done | by apply Forall_rev_whitespace].
  rewrite <- rev_app_distr, <- Hr, rev_involutive. exact Hl.
Qed.

(** Around a text that neither starts nor ends with whitespace, the
    whitespace is all that [strip] removes. *)
Lemma strip_padded (ws1 ws2 pre mid : list ascii) (c1 c2 : ascii) :
  Forall (λ c, c ∈ Py.whitespace) ws1 →
  Forall (λ c, c ∈ Py.whitespace) ws2 →
  c1 :: mid = pre ++ [c2] →
  Py.is_space c1 = false → Py.is_space c2 = false →
  Py.strip (ws1 ++ c1 :: mid ++ ws2) = c1 :: mid.
Proof.
  intros Hws1 Hws2 Hshape Hc1 Hc2. unfold Py.strip.
  rewrite lstrip_spaces by done.
  cbn [Py.lstrip]. rewrite Hc1.
  change (c1 :: mid ++ ws2) with ((c1 :: mid) ++ ws2).
  rewrite Hshape, !rev_app_distr.
  rewrite lstrip_spaces by (by apply Forall_rev_whitespace).
  cbn [rev app Py.lstrip]. rewrite Hc2.
  cbn [rev]. by rewrite rev_involutive.
Qed.

(** The dispatch on the sign in [int_of_str], as a test on the first
    character. *)
Lemma int_of_str_unfold (s : string) :
  Py.int_of_str s
  = match Py.strip (String.list_ascii_of_string s) with
    | [] => None
    | c :: r =>
        if Ascii.eqb c "-" then Z.opp <$> Py.unsigned_literal r
        else if Ascii.eqb c "+" then Py.unsigned_literal r
        else Py.unsigned_literal (c :: r)
    end.
Proof.
  unfold Py.int_of_str.
  destruct (Py.strip (String.list_ascii_of_string s)) as [| c r]; [done |].
  destruct c as [[] [] [] [] [] [] [] []]; reflexivity.
Qed.

Lemma digit_char_no_sign (d : nat) :
  (d < 10)%nat →
  Ascii.eqb (Py.digit_char d) "-" = false ∧
  Ascii.eqb (Py.digit_char d) "+" = false.
Proof.
  intros Hd. do 10 (destruct d as [| d]; [by split |]). lia.
Qed.

Lemma unsigned_literal_decimal (ds : list nat) :
  ds ≠ [] → Forall (λ d, (d < 10)%nat) ds →
  Py.unsigned_literal (Py.digit_char <$> ds) = Some (Py.decimal_value ds).
Proof.
  intros Hne Hds. destruct Hds as [| d ds Hd Hds]; [done |].
  destruct (digit_char_spec d Hd) as (Hval & _ & _).
  cbn [fmap list_fmap Py.unsigned_literal]. rewrite Hval.
  rewrite digits_decimal by done. unfold Py.decimal_value.
  cbn [fold_left]. do 2 f_equal; lia.
Qed.

(** [int] reads a decimal literal with an optional sign and whitespace
    around it as the number it denotes. *)
Lemma int_of_str_signed (ws1 ws2 : list ascii) (sg : string)
    (ds : list nat) :
  Forall (λ c, c ∈ Py.whitespace) ws1 →
  Forall (λ c, c ∈ Py.whitespace) ws2 →
  sg ∈ ["-"; "+"; ""] →
  ds ≠ [] → Forall (λ d, (d < 10)%nat) ds →
  Py.int_of_str (String.string_of_list_ascii ws1 +:+ sg
                 +:+ Py.decimal_literal ds
                 +:+ String.string_of_list_ascii ws2)
    = Some (if String.eqb sg "-" then - Py.decimal_value ds
            else Py.decimal_value ds).
Proof.
  intros Hws1 Hws2 Hsg Hne Hds.
  pose proof (unsigned_literal_decimal ds Hne Hds) as Hvalue.
  rewrite int_of_str_unfold. unfold Py.decimal_literal.
  rewrite !list_ascii_of_string_app,
    !String.list_ascii_of_string_of_list_ascii.
  rewrite (app_assoc (String.list_ascii_of_string sg)).
  destruct (exists_last Hne) as (ds' & dl & ->).
  assert (Hdl : (dl < 10)%nat).
  { rewrite list.Forall_forall in Hds. apply Hds.
    apply elem_of_app. right. by left. }
  destruct (digit_char_spec dl Hdl) as (_ & Hlast & _).
  assert (Hfirst : ∃ d0 rest,
            Py.digit_char <$> ds' ++ [dl] = Py.digit_char d0 :: rest ∧
            (d0 < 10)%nat).
  { destruct ds' as [| d0 ds'']; cbn [app fmap list_fmap].
    - by eexists _, _.
    - eexists _, _. split; [reflexivity |]. by inversion Hds. }
  destruct Hfirst as (d0 & rest & Hshape & Hd0).
  destruct (digit_char_spec d0 Hd0) as (_ & Hsp0 & _).
  destruct (digit_char_no_sign d0 Hd0) as [Hminus Hplus].
  repeat (apply elem_of_cons in Hsg as [-> | Hsg]);
    [| | | by apply elem_of_nil in Hsg];
    cbn [String.list_ascii_of_string app].
  - rewrite (strip_padded ws1 ws2
               ("-"%char :: (Py.digit_char <$> ds')) _ _ (Py.digit_char dl));
      [| done | done | by rewrite fmap_app | done | done].
    cbn. by rewrite Hvalue.
  - rewrite (strip_padded ws1 ws2
               ("+"%char :: (Py.digit_char <$> ds')) _ _ (Py.digit_char dl));
      [| done | done | by rewrite fmap_app | done | done].
    cbn. by rewrite Hvalue.
  - rewrite Hshape. cbn [app].
    rewrite (strip_padded ws1 ws2 (Py.digit_char <$> ds') _ _
               (Py.digit_char dl));
      [| done | done | by rewrite <- Hshape, fmap_app | done | done].
    rewrite Hminus, Hplus, <- Hshape. exact Hvalue.
Qed.

(** Whatever [int] accepts is made of digits, underscores, a sign and
    whitespace only. *)
Lemma digits_chars (l : list ascii) (acc : Z) (us : bool) (n : Z) :
  Py.digits acc us l = Some n → Forall (λ c, c ∈ Py.literal_chars) l.
Proof.
  revert acc us. induction l as [| c l IH]; intros acc us; [done |].
  cbn [Py.digits]. destruct (Ascii.eqb_spec c "_") as [-> | _].
  - destruct us; [done |]. intros Hrest%IH.
    constructor; [| done]. apply (bool_decide_unpack _). by vm_compute.
  - destruct (Py.digit_value c) as [d |] eqn:Hd; [| done].
    intros Hrest%IH. constructor; [| done]. by eapply digit_literal_chars.
Qed.

Lemma unsigned_literal_chars (l : list ascii) (n : Z) :
  Py.unsigned_literal l = Some n → Forall (λ c, c ∈ Py.literal_chars) l.
Proof.
  destruct l as [| c l]; [done |]. cbn [Py.unsigned_literal].
  destruct (Py.digit_value c) as [d |] eqn:Hd; [| done].
  intros Hrest%digits_chars. constructor; [| done].
  by eapply digit_literal_chars.
Qed.

Lemma int_of_str_chars (s : string) (n : Z) :
  Py.int_of_str s = Some n →
  Forall (λ c, c ∈ Py.literal_chars) (String.list_ascii_of_string s).
Proof.
  rewrite int_of_str_unfold.
  destruct (strip_split (String.list_ascii_of_string s))
    as (ws1 & ws2 & Hs & Hws1 & Hws2).
  intros Hparse. rewrite Hs.
  assert (Hws : ∀ ws, Forall (λ c, c ∈ Py.whitespace) ws →
                      Forall (λ c, c ∈ Py.literal_chars) ws).
  { intros ws Hw. eapply list.Forall_impl; [exact Hw |].
    apply whitespace_literal_chars. }
  apply Forall_app. split; [by apply Hws |].
  apply Forall_app. split; [| by apply Hws].
  destruct (Py.strip _) as [| c r]; [done |].
  destruct (Ascii.eqb_spec c "-") as [-> | _].
  { apply fmap_Some in Hparse as (k & Hr%unsigned_literal_chars & _).
    constructor; [| done]. apply (bool_decide_unpack _). by vm_compute. }
  destruct (Ascii.eqb_spec c "+") as [-> | _].
  { apply unsigned_literal_chars in Hparse.
    constructor; [| done]. apply (bool_decide_unpack _). by vm_compute. }
  by eapply unsigned_literal_chars.
Qed.

Lemma max_workers_default (m : machine) :
  environ m !! "MAX_WORKERS" = None →
  max_workers m = Ok (Zpos (cpu_count m) / 2).
Proof.
  intros Hunset. unfold max_workers, Py.getenv. rewrite Hunset.
  apply int_of_half.
Qed.

Lemma max_workers_override (m : machine) (s : string) (n : Z) :
  environ m !! "MAX_WORKERS" = Some s →
  Py.int_of_str s = Some n →
  max_workers m = Ok n.
Proof.
  intros Hset Hparse. unfold max_workers, Py.getenv.
  rewrite Hset. cbn [Py.int]. by rewrite Hparse.
Qed.

Lemma max_workers_rejected (m : machine) (s : string) :
  environ m !! "MAX_WORKERS" = Some s →
  Py.int_of_str s = None →
  max_workers m = Raise (ValueError "invalid literal for int() with base 10").
Proof.
  intros Hset Hparse. unfold max_workers, Py.getenv.
  rewrite Hset. cbn [Py.int]. by rewrite Hparse.
Qed.

Lemma pool_of_positive (n : Z) : 0 < n → ThreadPoolExecutor n = Ok n.
Proof.
  intros Hpos. unfold ThreadPoolExecutor.
  destruct (Z.leb_spec n 0); [lia | done].
Qed.

Lemma pool_of_nonpositive (n : Z) : n ≤ 0 → is_Ok (ThreadPoolExecutor n) = false.
Proof.
  intros Hle. unfold ThreadPoolExecutor.
  destruct (Z.leb_spec n 0); [done | lia].
Qed.

(** C5, as stated, fails on a single-CPU machine without an override: the
    worker count is [int(0.5) = 0], below the claimed minimum of 1, and
    the pool constructor rejects it. *)
Lemma C5_single_cpu_no_minimum :
  max_workers (Machine ∅ 1) = Ok 0 ∧
  ¬ (∃ n, max_workers (Machine ∅ 1) = Ok n ∧ 1 ≤ n) ∧
  worker_pool (Machine ∅ 1)
    = Raise (ValueError "max_workers must be greater than 0").
Proof.
  split; [reflexivity |]. split; [| reflexivity].
  intros (n & Hn & Hle). vm_compute in Hn. injection Hn as <-. lia.
Qed.

(** C5 (amended).  With the override set, the worker count is read from it
    and from nothing else: a decimal literal (of at most 4300 digits, the
    default limit of the interpreters that have one), with an optional sign
    and whitespace around it, gives the number it spells, the pool being
    created with it when it is positive and refused otherwise; a value
    holding any other ASCII character than digits, underscore, sign and
    whitespace makes the extraction fail with [ValueError], without a fall
    back to the default; the number of processing units plays no part.
    Without the override the count is [floor(cpu_count / 2)]: no minimum is
    applied, the default is at least 1 exactly from two processing units
    on, and then it is the count the pool is created with. *)
Theorem C5_worker_count (m : machine) :
  (∀ ws1 ws2 sg ds,
     Forall (λ c, c ∈ Py.whitespace) ws1 →
     Forall (λ c, c ∈ Py.whitespace) ws2 →
     sg ∈ ["-"; "+"; ""] →
     ds ≠ [] → Forall (λ d, (d < 10)%nat) ds → (length ds ≤ 4300)%nat →
     environ m !! "MAX_WORKERS"
       = Some (String.string_of_list_ascii ws1 +:+ sg
               +:+ Py.decimal_literal ds
               +:+ String.string_of_list_ascii ws2) →
     let n := if String.eqb sg "-" then - Py.decimal_value ds
              else Py.decimal_value ds in
     max_workers m = Ok n ∧
     (0 < n → worker_pool m = Ok n) ∧
     (n ≤ 0 → worker_pool m
                = Raise (ValueError "max_workers must be greater than 0"))) ∧
  (∀ s c,
     environ m !! "MAX_WORKERS" = Some s →
     c ∈ String.list_ascii_of_string s → (nat_of_ascii c < 128)%nat →
     c ∉ Py.literal_chars →
     ∃ msg, max_workers m = Raise (ValueError msg) ∧
            worker_pool m = Raise (ValueError msg)) ∧
  (∀ s k,
     environ m !! "MAX_WORKERS" = Some s →
     max_workers (Machine (environ m) k) = max_workers m) ∧
  (environ m !! "MAX_WORKERS" = None →
     max_workers m = Ok (Zpos (cpu_count m) / 2) ∧
     (1 ≤ Zpos (cpu_count m) / 2 ↔ (2 ≤ cpu_count m)%positive) ∧
     ((2 ≤ cpu_count m)%positive →
      worker_pool m = Ok (Zpos (cpu_count m) / 2))).
Proof.
  split_and!.
  - intros ws1 ws2 sg ds Hws1 Hws2 Hsg Hne Hds _ Hset n.
    pose proof (max_workers_override m _ _ Hset
                  (int_of_str_signed ws1 ws2 sg ds Hws1 Hws2 Hsg Hne Hds))
      as Hmw.
    fold n in Hmw. unfold worker_pool. rewrite Hmw. cbn [rbind].
    split_and!; [done | by apply pool_of_positive |].
    intros Hle. unfold ThreadPoolExecutor.
    destruct (Z.leb_spec n 0); [done | lia].
  - intros s c Hset Hc _ Hforeign.
    destruct (Py.int_of_str s) as [n |] eqn:Hparse.
    { exfalso. apply Hforeign.
      pose proof (int_of_str_chars s n Hparse) as Hchars.
      rewrite list.Forall_forall in Hchars. by apply Hchars. }
    pose proof (max_workers_rejected m s Hset Hparse) as Hmw.
    eexists. unfold worker_pool. by rewrite Hmw.
  - intros s k Hset. unfold max_workers, Py.getenv. cbn [environ].
    by rewrite Hset.
  - intros Hunset. pose proof (max_workers_default m Hunset) as Hmw.
    assert (Hhalf : 1 ≤ Zpos (cpu_count m) / 2 ↔ (2 ≤ cpu_count m)%positive).
    { split; intros Hle.
      - destruct (decide (cpu_count m = 1%positive)) as [Heq | Hne]; [| lia].
        rewrite Heq in Hle. vm_compute in Hle. by destruct Hle.
      - apply Z.div_le_lower_bound; lia. }
    split; [done |]. split; [done |]. intros Hcpu.
    unfold worker_pool. rewrite Hmw. cbn [rbind].
    apply pool_of_positive. apply Hhalf in Hcpu. lia.
Qed.

Lemma C5_worker_count_witness :
  (max_workers (Machine {[ "MAX_WORKERS" := " +6 " ]} 1) = Ok 6 ∧
   worker_pool (Machine {[ "MAX_WORKERS" := " +6 " ]} 1) = Ok 6) ∧
  worker_pool (Machine {[ "MAX_WORKERS" := "-2" ]} 8)
    = Raise (ValueError "max_workers must be greater than 0") ∧
  (∃ msg, worker_pool (Machine {[ "MAX_WORKERS" := "4.0" ]} 8)
          = Raise (ValueError msg)) ∧
  (max_workers (Machine ∅ 5) = Ok 2 ∧ worker_pool (Machine ∅ 5) = Ok 2).
Proof.
  split; [| split; [| split]].
  - destruct (proj1 (C5_worker_count (Machine {[ "MAX_WORKERS" := " +6 " ]} 1))
                [" "%char] [" "%char] "+" [6%nat])
      as (Hmw & Hpool & _).
    + repeat constructor.
    + repeat constructor.
    + apply (bool_decide_unpack _). by vm_compute.
    + discriminate.
    + repeat constructor.
    + cbn. lia.
    + by vm_compute.
    + split; [exact Hmw | apply Hpool; reflexivity].
  - destruct (proj1 (C5_worker_count (Machine {[ "MAX_WORKERS" := "-2" ]} 8))
                [] [] "-" [2%nat])
      as (_ & _ & Hrefused).
    + constructor.
    + constructor.
    + apply (bool_decide_unpack _). by vm_compute.
    + discriminate.
    + repeat constructor.
    + cbn. lia.
    + by vm_compute.
    + apply Hrefused. by vm_compute.
  - destruct (proj1 (proj2 (C5_worker_count
                              (Machine {[ "MAX_WORKERS" := "4.0" ]} 8)))
                "4.0" "."%char) as (msg & _ & Hpool).
    + by vm_compute.
    + apply (bool_decide_unpack _). by vm_compute.
    + apply Nat.ltb_lt. by vm_compute.
    + apply (bool_decide_unpack _). by vm_compute.
    + by exists msg.
  - destruct (proj2 (proj2 (proj2 (C5_worker_count (Machine ∅ 5)))))
      as (Hmw & _ & Hpool);
      [by vm_compute |].
    split; [exact Hmw | apply Hpool; vm_compute; discriminate].
Defined.

End WorkerCount.

(** ** Construction and attribute mutation *)

Section Immutability.
Context {E : Type}.
Implicit Types (fe : E) (v : PyObject.value E) (name : string).
Implicit Types (obj : gmap string (PyObject.value E)).

Lemma Trainer_class_has_no_hooks :
  PyObject.Trainer_class !! "__setattr__" = None ∧
  PyObject.Trainer_class !! "__delattr__" = None.
Proof. split; by vm_compute. Qed.

(** The two hooks exist only as locals of the constructor's frame. *)
Lemma Trainer_init_binds_hooks_locally fe :
  ∃ self locals,
    PyObject.Trainer_init ∅ fe = Some (Ok (self, locals)) ∧
    locals !! "__setattr__"
      = Some (PyObject.Function
                (Some (NotImplementedError PyObject.immutable_msg))) ∧
    locals !! "__delattr__"
      = Some (PyObject.Function
                (Some (NotImplementedError PyObject.immutable_msg))).
Proof.
  unfold PyObject.Trainer_init, PyObject.setattr.
  destruct Trainer_class_has_no_hooks as [-> _].
  eexists _, _. split; [reflexivity |]. split.
  - rewrite lookup_insert_ne; [| done]. by rewrite lookup_insert_eq.
  - by rewrite lookup_insert_eq.
Qed.

Lemma Trainer_new_instance fe :
  PyObject.Trainer_new fe
    = Some (Ok {[ "_Trainer__feature_embedder" := PyObject.VEmbedder fe ]}).
Proof.
  unfold PyObject.Trainer_new, PyObject.Trainer_init, PyObject.setattr.
  destruct Trainer_class_has_no_hooks as [-> _]. done.
Qed.

(** Had the hooks been bound in the class body, every store and every
    deletion would raise. *)
Lemma Frozen_class_rejects obj name v :
  PyObject.setattr PyObject.Frozen_class obj name v
    = Some (Raise (NotImplementedError PyObject.immutable_msg)) ∧
  PyObject.delattr PyObject.Frozen_class obj name
    = Some (Raise (NotImplementedError PyObject.immutable_msg)).
Proof. split; by vm_compute. Qed.

(** The three names [object] guards are refused on a trainer as on any
    other object, with [object]'s own errors. *)
Lemma Trainer_guards_reserved_names obj (z : Z) :
  PyObject.setattr PyObject.Trainer_class obj "__class__" (PyObject.VInt z)
    = Some (Raise (TypeError "__class__ must be set to a class")) ∧
  PyObject.setattr PyObject.Trainer_class obj "__dict__" (PyObject.VInt z)
    = Some (Raise (TypeError "__dict__ must be set to a dictionary")) ∧
  PyObject.setattr PyObject.Trainer_class obj "__weakref__" (PyObject.VInt z)
    = Some (Raise (AttributeError "__weakref__")).
Proof.
  unfold PyObject.setattr.
  destruct Trainer_class_has_no_hooks as [-> _]. by split_and!.
Qed.

Lemma object_setattr_ordinary obj name v :
  PyObject.reserved name = false →
  PyObject.object_setattr obj name v = Some (Ok (<[name := v]> obj)).
Proof.
  intros Hname. apply bool_decide_eq_false in Hname.
  unfold PyObject.object_setattr.
  destruct (String.eqb_spec name "__weakref__") as [-> | _];
    [exfalso; apply Hname; set_solver |].
  destruct (String.eqb_spec name "__class__") as [-> | _];
    [exfalso; apply Hname; set_solver |].
  destruct (String.eqb_spec name "__dict__") as [-> | _];
    [exfalso; apply Hname; set_solver |].
  done.
Qed.

(** Whatever the name and the value, neither default hook raises
    [NotImplementedError]. *)
Lemma object_hooks_never_refuse obj name v msg :
  PyObject.object_setattr obj name v ≠ Some (Raise (NotImplementedError msg)) ∧
  PyObject.object_delattr obj name ≠ Raise (NotImplementedError msg).
Proof.
  unfold PyObject.object_setattr, PyObject.object_delattr.
  destruct (String.eqb name "__weakref__"); [done |].
  destruct (String.eqb name "__class__"); [by destruct v |].
  destruct (String.eqb name "__dict__"); [by destruct v |].
  by destruct (obj !! name).
Qed.

(** C4 fails on the code: the constructed trainer accepts a store under
    every ordinary name (every name but [__class__], [__dict__] and
    [__weakref__], which [object] itself guards), the new value being
    visible afterwards, and lets its only attribute, the bound embedder, be
    replaced or deleted.  Under no name at all does a store or a deletion
    raise [NotImplementedError]. *)
Theorem C4_trainer_is_mutable fe name v fe' :
  PyObject.reserved name = false →
  ∃ self,
    PyObject.Trainer_new fe = Some (Ok self) ∧
    PyObject.setattr PyObject.Trainer_class self name v
      = Some (Ok (<[name := v]> self)) ∧
    PyObject.getattr (<[name := v]> self) name = Ok v ∧
    PyObject.setattr PyObject.Trainer_class self "_Trainer__feature_embedder"
        (PyObject.VEmbedder fe')
      = Some (Ok {[ "_Trainer__feature_embedder" := PyObject.VEmbedder fe' ]}) ∧
    PyObject.delattr PyObject.Trainer_class self "_Trainer__feature_embedder"
      = Some (Ok ∅) ∧
    (∀ name' v' msg,
       PyObject.setattr PyObject.Trainer_class self name' v'
         ≠ Some (Raise (NotImplementedError msg))) ∧
    (∀ name' msg,
       PyObject.delattr PyObject.Trainer_class self name'
         ≠ Some (Raise (NotImplementedError msg))).
Proof.
  intros Hname.
  eexists. split; [apply Trainer_new_instance |].
  unfold PyObject.setattr, PyObject.delattr, PyObject.getattr.
  destruct Trainer_class_has_no_hooks as [-> ->].
  split_and!.
  - by apply object_setattr_ordinary.
  - by rewrite lookup_insert_eq.
  - rewrite object_setattr_ordinary by done. by rewrite insert_singleton_eq.
  - unfold PyObject.object_delattr. cbn [String.eqb Ascii.eqb Bool.eqb].
    rewrite lookup_singleton_eq. by rewrite delete_singleton_eq.
  - intros name' v' msg. apply object_hooks_never_refuse.
  - intros name' msg [= Hraise].
    by apply (object_hooks_never_refuse _ name' v msg) in Hraise.
Qed.

End Immutability.

Lemma C4_trainer_is_mutable_witness :
  ∃ self,
    PyObject.Trainer_new Demo.fe = Some (Ok self) ∧
    PyObject.setattr PyObject.Trainer_class self "x" (PyObject.VInt 1)
      = Some (Ok (<["x" := PyObject.VInt 1]> self)) ∧
    PyObject.delattr PyObject.Trainer_class self "_Trainer__feature_embedder"
      = Some (Ok ∅).
Proof.
  destruct (C4_trainer_is_mutable Demo.fe "x" (PyObject.VInt 1) Demo.fe)
    as (self & Hnew & Hset & _ & _ & Hdel & _).
  - reflexivity.
  - exists self. split_and!; [exact Hnew | exact Hset | exact Hdel].
Defined.

(** ** The extraction task *)

Section Task.
Context {F L network : Type} (C : @collaborators F L network).
Implicit Types (self : gmap string (PyObject.value (embedder F L))).
Implicit Types (st : @task_state F L) (e : exn).

(** A recognized failure raised once the audio path is known: both records
    are logged, the result lists are untouched and the task returns. *)
Lemma recognized_failure_with_audio_bound self index av sub st e audio :
  audio_path_of C av = Ok audio →
  embed self audio sub = Raise e →
  recognized e = true →
  ∃ st',
    extract_in_multithreads C self index av sub st = (st', Ok (audio, sub)) ∧
    train_data st' = train_data st ∧ labels st' = labels st ∧
    ∃ pre, task_log st' = task_log st ++ pre ++
             [(ERROR, MsgException e); (ERROR, MsgPaths audio sub)].
Proof.
  unfold audio_path_of, extract_in_multithreads.
  destruct (Py.splitext av) as [file_name file_ext]; cbn [snd].
  intros Haudio Hembed Hrec.
  destruct (bool_decide (file_ext ∈ AUDIO_FILE_EXTENSION C)); cbn [negb].
  - injection Haudio as ->. cbn [rbind]. rewrite Hembed.
    destruct e; try discriminate Hrec; cbn;
      (eexists; split_and!; [reflexivity | done | done |]);
      exists []; cbn; by rewrite <- app_assoc.
  - rewrite Haudio. cbn [rbind]. rewrite Hembed.
    destruct e; try discriminate Hrec; cbn;
      (eexists; split_and!; [reflexivity | done | done |]);
      exists [(DEBUG, MsgAudioExtracted)]; cbn; by rewrite <- !app_assoc.
Qed.

(** C2 fails on the code when the failure comes from the audio extraction:
    the handler logs the exception, then reads [audio_file_path], which was
    never assigned.  The task ends with [UnboundLocalError]; the record
    with the paths is never logged.  (The result lists stay untouched.) *)
Theorem C2_recognized_failure_before_assignment self index av sub st e :
  (Py.splitext av).2 ∉ AUDIO_FILE_EXTENSION C →
  extract_audio C av = Raise e →
  recognized e = true →
  extract_in_multithreads C self index av sub st
    = (TaskState (train_data st) (labels st)
         (task_log st ++ [(ERROR, MsgException e)]),
       Raise (UnboundLocalError "audio_file_path")).
Proof.
  unfold extract_in_multithreads.
  destruct (Py.splitext av) as [file_name file_ext]; cbn [snd].
  intros Hext Hfail Hrec.
  rewrite bool_decide_eq_false_2 by done. cbn [negb].
  rewrite Hfail. cbn [rbind].
  destruct e; try discriminate Hrec; reflexivity.
Qed.

(** What the task leaves in the two result lists. *)
Lemma task_slots self index av sub st :
  (index < length (train_data st))%nat →
  (index < length (labels st))%nat →
  let st' := (extract_in_multithreads C self index av sub st).1 in
  match sample_extraction C self av sub with
  | Ok (x, y) =>
      train_data st' = <[index := Some x]> (train_data st) ∧
      labels st' = <[index := Some y]> (labels st)
  | Raise _ => train_data st' = train_data st ∧ labels st' = labels st
  end.
Proof.
  intros Hdata Hlabels.
  unfold sample_extraction, audio_path_of, extract_in_multithreads.
  apply Nat.ltb_lt in Hdata, Hlabels.
  destruct (Py.splitext av) as [file_name file_ext]; cbn [snd].
  destruct (bool_decide (file_ext ∈ AUDIO_FILE_EXTENSION C)); cbn [negb].
  - cbn [rbind]. destruct (embed self av sub) as [[x y] | e].
    + unfold set_item; cbv beta iota. rewrite Hdata.
      cbn [train_data labels task_log]. by rewrite Hlabels.
    + destruct e; cbn; done.
  - destruct (extract_audio C av) as [audio | e]; cbn [rbind].
    + destruct (embed self audio sub) as [[x y] | e].
      * unfold set_item, task_logger; cbn [train_data labels task_log].
        rewrite Hdata. cbn [train_data labels task_log]. by rewrite Hlabels.
      * destruct e; cbn; done.
    + destruct e; cbn; done.
Qed.

End Task.

Lemma C2_recognized_failure_before_assignment_witness :
  extract_in_multithreads Demo.C Demo.trainer 0 "b.mp4" "b.srt"
      Demo.empty_task_state
    = (TaskState [None] [None]
         [(ERROR, MsgException (UnsupportedFormatException "no audio stream"))],
       Raise (UnboundLocalError "audio_file_path")).
Proof.
  apply (C2_recognized_failure_before_assignment Demo.C Demo.trainer 0%nat
           "b.mp4" "b.srt" Demo.empty_task_state
           (UnsupportedFormatException "no audio stream")).
  - vm_compute. intros Hin.
    repeat (apply elem_of_cons in Hin as [Heq | Hin]; [discriminate Heq |]).
    by apply elem_of_nil in Hin.
  - reflexivity.
  - reflexivity.
Defined.

(** ** The result lists after the pool has run *)

Section Slots.
Context {F L network : Type} (C : @collaborators F L network).
Variable self : gmap string (PyObject.value (embedder F L)).
Implicit Types (st : @task_state F L) (tasks : list (string * string)).
Implicit Types (order : list nat) (i index : nat).

Lemma slot_after_snoc_ne {A} (pr : features F * label_array L → A)
    tasks order (initial : list (option A)) index i :
  i ≠ index →
  slot_after C self pr tasks (order ++ [index]) initial i
    = slot_after C self pr tasks order initial i.
Proof.
  intros Hne. unfold slot_after.
  destruct (decide (i ∈ order)) as [Hin | Hnin].
  - rewrite decide_True; [done |]. apply elem_of_app; by left.
  - rewrite decide_False; [done |].
    intros [Hin | Hin%list_elem_of_singleton]%elem_of_app; done.
Qed.

Lemma slot_after_snoc_failed {A} (pr : features F * label_array L → A)
    tasks order (initial : list (option A)) index :
  tasks !! index ≫= sample_pair C self = None →
  slot_after C self pr tasks (order ++ [index]) initial index
    = slot_after C self pr tasks order initial index.
Proof.
  intros Hnone. unfold slot_after. rewrite Hnone.
  by repeat case_decide.
Qed.

Lemma slot_after_snoc_extracted {A} (pr : features F * label_array L → A)
    tasks order (initial : list (option A)) index xy :
  tasks !! index ≫= sample_pair C self = Some xy →
  slot_after C self pr tasks (order ++ [index]) initial index = Some (Some (pr xy)).
Proof.
  intros Hsome. unfold slot_after. rewrite Hsome.
  rewrite decide_True; [done |].
  apply elem_of_app; right. by apply list_elem_of_singleton.
Qed.

(** Invariant of the pool: whatever the order in which tasks run, each
    list keeps its length and holds at every index what [slot_after]
    says. *)
Lemma run_tasks_slots tasks order st :
  (length tasks ≤ length (train_data st))%nat →
  (length tasks ≤ length (labels st))%nat →
  let st' := run_tasks C self tasks order st in
  length (train_data st') = length (train_data st) ∧
  length (labels st') = length (labels st) ∧
  (∀ i, train_data st' !! i = slot_after C self fst tasks order (train_data st) i) ∧
  (∀ i, labels st' !! i = slot_after C self snd tasks order (labels st) i).
Proof.
  intros Hdata Hlabels.
  induction order as [| index order IH] using rev_ind.
  { cbn. split_and!; done. }
  unfold run_tasks in *. rewrite foldl_snoc. cbn zeta in *.
  set (st1 := foldl (run_task C self tasks) st order) in *.
  destruct IH as (Hlen1 & Hlen2 & Hd & Hl).
  destruct (tasks !! index) as [[a s] |] eqn:Htask;
    unfold run_task; rewrite Htask.
  - pose proof (lookup_lt_Some _ _ _ Htask) as Hlt.
    pose proof (task_slots C self index a s st1) as Hstep.
    rewrite Hlen1, Hlen2 in Hstep.
    specialize (Hstep ltac:(lia) ltac:(lia)). cbn zeta in Hstep.
    assert (Hpair : tasks !! index ≫= sample_pair C self
                    = sample_pair C self (a, s)) by (by rewrite Htask).
    assert (Hsp : sample_pair C self (a, s)
                  = match sample_extraction C self a s with
                    | Ok xy => Some xy
                    | Raise _ => None
                    end) by done.
    destruct (sample_extraction C self a s) as [[x y] | e];
      rewrite Hsp in Hpair.
    + destruct Hstep as [-> ->]. rewrite !length_insert.
      split_and!; [done | done | |]; intros i;
        (destruct (decide (i = index)) as [-> | Hne];
         [ rewrite list_lookup_insert_eq by lia;
           by rewrite (slot_after_snoc_extracted _ _ _ _ _ _ Hpair)
         | rewrite list_lookup_insert_ne by done;
           by rewrite slot_after_snoc_ne ]).
    + destruct Hstep as [-> ->].
      split_and!; [done | done | |]; intros i;
        (destruct (decide (i = index)) as [-> | Hne];
         [ by rewrite slot_after_snoc_failed
         | by rewrite slot_after_snoc_ne ]).
  - split_and!; [done | done | |]; intros i;
      (destruct (decide (i = index)) as [-> | Hne];
       [ rewrite slot_after_snoc_failed by (by rewrite Htask); done
       | by rewrite slot_after_snoc_ne ]).
Qed.

Lemma omap_id_fmap {A B} (f : A → option B) (l : list A) :
  omap id (f <$> l) = omap f l.
Proof. induction l as [| a l IH]; [done |]. cbn. by rewrite IH. Qed.

Lemma omap_id_replicate_None {A} (n : nat) :
  omap id (replicate n (@None A)) = [].
Proof. induction n as [| n IH]; [done |]. by cbn. Qed.

Lemma omap_fmap_pair {A B} (pr : A → B) (f : string * string → option A)
    (l : list (string * string)) :
  omap (λ p, pr <$> f p) l = pr <$> omap f l.
Proof.
  induction l as [| a l IH]; [done |]. cbn.
  destruct (f a); cbn; by rewrite IH.
Qed.

(** The lists the coordinator filters, when there are at least as many
    subtitle paths as audio/video paths and every task has run. *)
Lemma run_pool_slots av sub log0 :
  (length av ≤ length sub)%nat →
  schedule C (length av) ≡ₚ seq 0 (length av) →
  let st := run_pool C self av sub log0 in
  train_data st = (λ p, fst <$> sample_pair C self p) <$> zip av sub ∧
  labels st = ((λ p, snd <$> sample_pair C self p) <$> zip av sub)
                ++ replicate (length sub - length av) None.
Proof.
  intros Hlen Hsched. unfold run_pool.
  assert (Hzip : length (zip av sub) = length av)
    by (rewrite length_zip; lia).
  rewrite Hzip.
  destruct (run_tasks_slots (zip av sub) (schedule C (length av))
              (TaskState (replicate (length av) None)
                 (replicate (length sub) None) log0))
    as (Hl1 & Hl2 & Hd & Hl);
    [cbn; rewrite length_replicate; lia .. |].
  cbn [train_data labels] in *. clear Hl1 Hl2.
  assert (Hin : ∀ i, i ∈ schedule C (length av) ↔ (i < length av)%nat).
  { intros i. rewrite Hsched, elem_of_seq. lia. }
  cbn zeta. split; apply list_eq; intros i.
  - rewrite Hd, list_lookup_fmap. unfold slot_after.
    destruct (decide (i < length av)%nat) as [Hlt | Hge].
    + rewrite decide_True by (by apply Hin).
      destruct (zip av sub !! i) as [p |] eqn:Hp; cbn.
      * destruct (sample_pair C self p); cbn; [done |].
        by rewrite lookup_replicate_2.
      * apply lookup_ge_None in Hp. lia.
    + rewrite decide_False by (by rewrite Hin).
      rewrite (lookup_ge_None_2 (zip av sub) i) by lia.
      cbn. apply lookup_replicate_None. lia.
  - rewrite Hl. unfold slot_after.
    destruct (decide (i < length av)%nat) as [Hlt | Hge].
    + rewrite decide_True by (by apply Hin).
      rewrite lookup_app_l by (rewrite length_fmap; lia).
      rewrite list_lookup_fmap.
      destruct (zip av sub !! i) as [p |] eqn:Hp; cbn.
      * destruct (sample_pair C self p); cbn; [done |].
        rewrite lookup_replicate_2; [done | lia].
      * apply lookup_ge_None in Hp. lia.
    + rewrite decide_False by (by rewrite Hin).
      rewrite lookup_app_r by (rewrite length_fmap; lia).
      rewrite length_fmap, Hzip.
      destruct (decide (i < length sub)%nat).
      * rewrite !lookup_replicate_2; [done | lia | lia].
      * rewrite !(proj1 (lookup_replicate_None _ _ _)); [done | lia | lia].
Qed.

Lemma run_pool_filtered av sub log0 :
  (length av ≤ length sub)%nat →
  schedule C (length av) ≡ₚ seq 0 (length av) →
  let st := run_pool C self av sub log0 in
  omap id (train_data st) = (survivors C self av sub).*1 ∧
  omap id (labels st) = (survivors C self av sub).*2.
Proof.
  intros Hlen Hsched.
  destruct (run_pool_slots av sub log0 Hlen Hsched) as [Hd Hl].
  cbn zeta in *. rewrite Hd, Hl. unfold survivors. split.
  - by rewrite omap_id_fmap, omap_fmap_pair.
  - rewrite omap_app, omap_id_replicate_None, app_nil_r.
    by rewrite omap_id_fmap, omap_fmap_pair.
Qed.

End Slots.

(** ** The extraction coordinator *)

Ltac run_M :=
  unfold mbind, M_bind, mret, M_ret, lift, logger, called; cbn beta iota zeta.

Section Concatenate.
Context {A : Type}.
Implicit Types (a : ndarray A) (arrays : list (ndarray A)).

Lemma concatenate_nil :
  Np.concatenate (@nil (ndarray A))
    = Raise (ValueError "need at least one array to concatenate").
Proof. reflexivity. Qed.

Lemma concatenate_ok a arrays :
  same_tail_shape (a :: arrays) →
  Np.concatenate (a :: arrays)
    = Ok (NdArray (tail_shape a) (concat (items <$> a :: arrays))).
Proof.
  intros Hsame. unfold Np.concatenate.
  assert (Hall : forallb (λ b, bool_decide (tail_shape b = tail_shape a))
                   arrays = true); [| by rewrite Hall].
  apply forallb_forall. intros b Hb%list_elem_of_In.
  apply bool_decide_eq_true. apply Hsame; [by right | by left].
Qed.

Lemma length_omap_le {B} (f : B → option A) (l : list B) :
  (length (omap f l) ≤ length l)%nat.
Proof.
  induction l as [| b l IH]; [done |]. cbn.
  destruct (f b); cbn; lia.
Qed.

End Concatenate.

Section Coordinator.
Context {F L network : Type} (C : @collaborators F L network).
Variable self : gmap string (PyObject.value (embedder F L)).
Implicit Types (w : @world F L network) (av sub : list string).

(** The coordinator's outcome in terms of the surviving pairs. *)
Lemma coordinator_result av sub w k :
  worker_pool (host C) = Ok k →
  (length av ≤ length sub)%nat →
  schedule C (length av) ≡ₚ seq 0 (length av) →
  let st := run_pool C self av sub (log w) in
  let pairs := survivors C self av sub in
  extract_data_and_label_from_avs C self av sub w
    = match Np.concatenate pairs.*1, Np.concatenate pairs.*2 with
      | Ok d, Ok l =>
          (World (fs w) (task_log st ++ [(DEBUG, MsgExtracted)]) (calls w),
           Ok (d, l))
      | Raise e, _ | Ok _, Raise e =>
          (World (fs w) (task_log st) (calls w), Raise e)
      end.
Proof.
  intros Hpool Hlen Hsched.
  destruct (run_pool_filtered C self av sub (log w) Hlen Hsched) as [Hd Hl].
  cbn zeta in *.
  unfold worker_pool in Hpool.
  unfold extract_data_and_label_from_avs. run_M.
  destruct (max_workers (host C)) as [n |]; [| discriminate Hpool].
  cbn [rbind] in Hpool. rewrite Hpool.
  rewrite (proj2 (Nat.ltb_ge _ _)) by lia.
  rewrite Hd, Hl.
  destruct (Np.concatenate (survivors C self av sub).*1) as [d | e]; [| done].
  by destruct (Np.concatenate (survivors C self av sub).*2) as [l | e].
Qed.

(** C10: the coordinator returns the concatenation of the pairs of exactly
    the samples that extracted, in index order.  There are at most [N]
    such pairs; a feature slot is filled exactly when the label slot of
    the same index is, and the two filtered lists are the two projections
    of one list of pairs. *)
Theorem C10_coordinator_returns_survivors av sub w k :
  worker_pool (host C) = Ok k →
  (length av ≤ length sub)%nat →
  schedule C (length av) ≡ₚ seq 0 (length av) →
  let st := run_pool C self av sub (log w) in
  let pairs := survivors C self av sub in
  (length pairs ≤ length av)%nat ∧
  (∀ i, (∃ x, train_data st !! i = Some (Some x))
        ↔ (∃ y, labels st !! i = Some (Some y))) ∧
  omap id (train_data st) = pairs.*1 ∧
  omap id (labels st) = pairs.*2 ∧
  (pairs ≠ [] → same_tail_shape pairs.*1 → same_tail_shape pairs.*2 →
   ∃ d l,
     (extract_data_and_label_from_avs C self av sub w).2 = Ok (d, l) ∧
     items d = concat (items <$> pairs.*1) ∧
     items l = concat (items <$> pairs.*2)).
Proof.
  intros Hpool Hlen Hsched.
  destruct (run_pool_slots C self av sub (log w) Hlen Hsched) as [Hd Hl].
  destruct (run_pool_filtered C self av sub (log w) Hlen Hsched) as [Hfd Hfl].
  pose proof (coordinator_result av sub w k Hpool Hlen Hsched) as Hres.
  cbn zeta in *.
  assert (Hzip : length (zip av sub) = length av)
    by (rewrite length_zip; lia).
  split_and!; [| | done | done |].
  - unfold survivors. rewrite <- Hzip. apply length_omap_le.
  - intros i. rewrite Hd, Hl.
    destruct (zip av sub !! i) as [p |] eqn:Hp.
    + rewrite lookup_app_l
        by (rewrite length_fmap; by eapply lookup_lt_Some).
      rewrite !list_lookup_fmap, Hp. cbn.
      destruct (sample_pair C self p) as [[x y] |]; cbn.
      * split; intros _; eauto.
      * split; intros [? [=]].
    + rewrite list_lookup_fmap, Hp. cbn.
      apply lookup_ge_None in Hp.
      rewrite lookup_app_r by (rewrite length_fmap; lia).
      split; [by intros [? [=]] |].
      intros [y Hy]. apply lookup_replicate in Hy as [[=] _].
  - intros Hne Hsd Hsl. rewrite Hres.
    destruct (survivors C self av sub) as [| [x y] pairs]; [done |].
    cbn [fmap list_fmap fst snd] in *.
    rewrite (concatenate_ok x _ Hsd), (concatenate_ok y _ Hsl).
    eexists _, _. split; [reflexivity |]. done.
Qed.

(** C3 (amended): when every submitted sample fails extraction, all
    result slots stay empty and nothing guards the empty corpus:
    [np.concatenate] raises [ValueError] on the empty list, and the error
    leaves the coordinator and [train] uncaught, before any dump is
    written or any model built. *)
Theorem C3_all_failed_raises_in_concatenate av sub w k
    (model_dir weights_dir logs_dir training_dump_dir training_log : string)
    (epochs : Z) (resume : bool) :
  worker_pool (host C) = Ok k →
  (length av ≤ length sub)%nat →
  schedule C (length av) ≡ₚ seq 0 (length av) →
  (∀ p, p ∈ zip av sub → sample_pair C self p = None) →
  let st := run_pool C self av sub (log w) in
  let crash := ValueError "need at least one array to concatenate" in
  omap id (train_data st) = [] ∧ omap id (labels st) = [] ∧
  extract_data_and_label_from_avs C self av sub w
    = (World (fs w) (task_log st) (calls w), Raise crash) ∧
  train C self (Some av) (Some sub) model_dir weights_dir logs_dir
      training_dump_dir epochs training_log resume w
    = (World (fs w) (task_log st) (calls w), Raise crash).
Proof.
  intros Hpool Hlen Hsched Hfail.
  destruct (run_pool_filtered C self av sub (log w) Hlen Hsched) as [Hfd Hfl].
  pose proof (coordinator_result av sub w k Hpool Hlen Hsched) as Hres.
  cbn zeta in *.
  assert (Hnone : survivors C self av sub = []).
  { unfold survivors. induction (zip av sub) as [| p l IH]; [done |].
    cbn. rewrite (Hfail p) by (by left). apply IH.
    intros q Hq. apply Hfail. by right. }
  rewrite Hnone in *. cbn in Hres.
  split_and!; [done | done | done |].
  unfold train, fresh_extraction. run_M. by rewrite Hres.
Qed.

End Coordinator.

(** C3, as stated, fails: with a single sample whose audio extraction is
    refused, the coordinator ends in the [ValueError] raised by
    [np.concatenate] on the empty list. *)
Lemma C3_empty_corpus_crashes :
  survivors Demo.C Demo.trainer ["b.mp4"] ["b.srt"] = [] ∧
  (extract_data_and_label_from_avs Demo.C Demo.trainer ["b.mp4"] ["b.srt"]
     Demo.empty_world).2
    = Raise (ValueError "need at least one array to concatenate").
Proof. split; reflexivity. Qed.

Lemma C3_all_failed_raises_in_concatenate_witness :
  (train Demo.C Demo.trainer (Some ["b.mp4"]) (Some ["b.srt"])
     "models" "weights" "logs" "dump" 10 "training.log" false
     Demo.empty_world).2
    = Raise (ValueError "need at least one array to concatenate").
Proof.
  destruct (C3_all_failed_raises_in_concatenate Demo.C Demo.trainer
              ["b.mp4"] ["b.srt"] Demo.empty_world 2
              "models" "weights" "logs" "dump" "training.log" 10 false)
    as (_ & _ & _ & ->).
  - reflexivity.
  - cbn. lia.
  - reflexivity.
  - intros p Hp. apply list_elem_of_singleton in Hp as ->. reflexivity.
  - reflexivity.
Defined.

Lemma C10_coordinator_returns_survivors_witness :
  ∃ d l,
    (extract_data_and_label_from_avs Demo.C Demo.trainer
       ["a.wav"; "b.mp4"; "a.wav"] ["a.srt"; "b.srt"; "c.srt"]
       Demo.empty_world).2 = Ok (d, l) ∧
    items d = [[[1]; [2]]; [[3]; [4]]; [[1]; [2]]; [[3]; [4]]] ∧
    items l = [0; 1; 0; 1].
Proof.
  destruct (C10_coordinator_returns_survivors Demo.C Demo.trainer
              ["a.wav"; "b.mp4"; "a.wav"] ["a.srt"; "b.srt"; "c.srt"]
              Demo.empty_world 2)
    as (_ & _ & _ & _ & Hreturns).
  - reflexivity.
  - cbn. lia.
  - apply (bool_decide_unpack _). by vm_compute.
  - destruct Hreturns as (d & l & Hres & Hd & Hl).
    + by vm_compute.
    + intros a b Ha Hb. vm_compute in Ha, Hb.
      repeat (apply elem_of_cons in Ha as [-> | Ha]);
        repeat (apply elem_of_cons in Hb as [-> | Hb]);
        try done; try (by apply elem_of_nil in Ha); by apply elem_of_nil in Hb.
    + intros a b Ha Hb. vm_compute in Ha, Hb.
      repeat (apply elem_of_cons in Ha as [-> | Ha]);
        repeat (apply elem_of_cons in Hb as [-> | Hb]);
        try done; try (by apply elem_of_nil in Ha); by apply elem_of_nil in Hb.
    + exists d, l. split_and!; [exact Hres | exact Hd | exact Hl].
Defined.

(** ** The joint permutation of features and labels *)

Section IndexArrays.
Context {A B : Type}.
Implicit Types (xs : list A) (ys : list B) (idx : list nat).

Lemma mapM_lookup_in_range xs idx :
  (∀ i, i ∈ idx → (i < length xs)%nat) →
  mapM (λ i, xs !! i) idx = Some (omap (λ i, xs !! i) idx).
Proof.
  induction idx as [| i idx IH]; intros Hrange; [done |].
  destruct (lookup_lt_is_Some_2 xs i) as [x Hx]; [apply Hrange; by left |].
  cbn. rewrite Hx. cbn. rewrite IH; [done |].
  intros j Hj. apply Hrange. by right.
Qed.

Lemma omap_lookup_seq_from (pre xs : list A) :
  omap (λ i, (pre ++ xs) !! i) (seq (length pre) (length xs)) = xs.
Proof.
  revert pre. induction xs as [| x xs IH]; intros pre; [done |].
  cbn. rewrite list_lookup_middle by done. f_equal.
  specialize (IH (pre ++ [x])).
  rewrite <- app_assoc, length_app in IH. cbn in IH.
  by rewrite Nat.add_1_r in IH.
Qed.

Lemma omap_lookup_seq xs : omap (λ i, xs !! i) (seq 0 (length xs)) = xs.
Proof. apply (omap_lookup_seq_from [] xs). Qed.

Lemma omap_lookup_zip xs ys idx :
  (∀ i, i ∈ idx → (i < length xs)%nat ∧ (i < length ys)%nat) →
  omap (λ i, zip xs ys !! i) idx
    = zip (omap (λ i, xs !! i) idx) (omap (λ i, ys !! i) idx).
Proof.
  induction idx as [| i idx IH]; intros Hrange; [done |].
  destruct (Hrange i) as [Hx Hy]; [by left |].
  destruct (lookup_lt_is_Some_2 xs i Hx) as [x Hxi].
  destruct (lookup_lt_is_Some_2 ys i Hy) as [y Hyi].
  cbn. rewrite lookup_zip_with, Hxi, Hyi. cbn. f_equal.
  apply IH. intros j Hj. apply Hrange. by right.
Qed.

(** Indexing an array with a permutation of its indices succeeds. *)
Lemma take_permutation (a : ndarray A) idx :
  idx ≡ₚ seq 0 (Np.len a) →
  Np.take a idx
    = Ok (NdArray (tail_shape a) (omap (λ i, items a !! i) idx)) ∧
  Forall2 (λ i x, items a !! i = Some x) idx (omap (λ i, items a !! i) idx).
Proof.
  intros Hperm.
  assert (Hmap : mapM (λ i, items a !! i) idx
                 = Some (omap (λ i, items a !! i) idx)).
  { apply mapM_lookup_in_range. intros i Hi.
    rewrite Hperm in Hi. apply elem_of_seq in Hi. unfold Np.len in Hi. lia. }
  split; [unfold Np.take; by rewrite Hmap |].
  by apply mapM_Some_1.
Qed.

End IndexArrays.

Section Permute.
Context {F L network : Type} (C : @collaborators F L network).

(** C6: the permutation step indexes both arrays with the same
    permutation.  The (feature, label) pairs after the step are a
    reordering of the pairs before it, and position [i] holds the feature
    sample and the label that were together at position [rand[i]]. *)
Theorem C6_permutation_preserves_pairing (d : features F) (l : label_array L) :
  Np.len d = Np.len l →
  random_permutation C (Np.len l) ≡ₚ seq 0 (Np.len l) →
  ∃ d' l',
    permute C d l = Ok (d', l') ∧
    tail_shape d' = tail_shape d ∧ tail_shape l' = tail_shape l ∧
    Np.len d' = Np.len d ∧ Np.len l' = Np.len l ∧
    zip (items d') (items l') ≡ₚ zip (items d) (items l) ∧
    ∀ i j, random_permutation C (Np.len l) !! i = Some j →
      ∃ x y, items d !! j = Some x ∧ items l !! j = Some y ∧
             items d' !! i = Some x ∧ items l' !! i = Some y.
Proof.
  intros Hlen Hperm.
  set (rand := random_permutation C (Np.len l)) in *.
  destruct (take_permutation d rand) as [Hd Hfd]; [by rewrite Hlen |].
  destruct (take_permutation l rand) as [Hl Hfl]; [done |].
  assert (Hrange : ∀ i, i ∈ rand →
            (i < length (items d))%nat ∧ (i < length (items l))%nat).
  { intros i Hi. rewrite Hperm in Hi. apply elem_of_seq in Hi.
    unfold Np.len in *. lia. }
  eexists _, _. unfold permute. fold rand. rewrite Hd, Hl. cbn [rbind].
  split_and!; [reflexivity | done | done | | | |].
  - unfold Np.len in *; cbn [items].
    by rewrite <- (Forall2_length Hfd), Hperm, length_seq.
  - unfold Np.len in *; cbn [items].
    by rewrite <- (Forall2_length Hfl), Hperm, length_seq.
  - cbn [items]. rewrite <- omap_lookup_zip by done.
    rewrite Hperm.
    replace (Np.len l) with (length (zip (items d) (items l)))
      by (rewrite length_zip; unfold Np.len in *; lia).
    by rewrite omap_lookup_seq.
  - intros i j Hij. cbn [items].
    destruct (Forall2_lookup_l _ _ _ _ _ Hfd Hij) as (x & Hx' & Hx).
    destruct (Forall2_lookup_l _ _ _ _ _ Hfl Hij) as (y & Hy' & Hy).
    by exists x, y.
Qed.

End Permute.

Lemma C6_permutation_preserves_pairing_witness :
  ∃ d' l',
    permute Demo.C Demo.x_a Demo.y_a = Ok (d', l') ∧
    zip (items d') (items l') ≡ₚ zip (items Demo.x_a) (items Demo.y_a).
Proof.
  destruct (C6_permutation_preserves_pairing Demo.C Demo.x_a Demo.y_a)
    as (d' & l' & Hrun & _ & _ & _ & _ & Hpairs & _).
  - reflexivity.
  - apply (bool_decide_unpack _). by vm_compute.
  - exists d', l'. split; [exact Hrun | exact Hpairs].
Defined.

(** ** How the parts of [train] act on the world *)

#[local] Existing Instances M_ret M_bind.

Section Effects.
Context {F L network : Type}.
Implicit Types (w : @world F L network).

#[local] Instance same_fs_refl : Reflexive (@same_fs F L network).
Proof. by intros w. Qed.

#[local] Instance same_fs_trans : Transitive (@same_fs F L network).
Proof. unfold same_fs. intros w1 w2 w3 H12 H23. congruence. Qed.

#[local] Instance calls_extended_refl P :
  Reflexive (@calls_extended F L network P).
Proof. intros w. exists []. by rewrite app_nil_r. Qed.

#[local] Instance calls_extended_trans P :
  Transitive (@calls_extended F L network P).
Proof.
  intros w1 w2 w3 (cs & H12 & Hcs) (cs' & H23 & Hcs').
  exists (cs ++ cs'). rewrite H23, H12, app_assoc. split; [done |].
  by apply Forall_app.
Qed.

#[local] Instance log_extended_refl P :
  Reflexive (@log_extended F L network P).
Proof. intros w. exists []. by rewrite app_nil_r. Qed.

#[local] Instance log_extended_trans P :
  Transitive (@log_extended F L network P).
Proof.
  intros w1 w2 w3 (rs & H12 & Hrs) (rs' & H23 & Hrs').
  exists (rs ++ rs'). rewrite H23, H12, app_assoc. split; [done |].
  by apply Forall_app.
Qed.

Section Combinators.
Context (R : relation (@world F L network)).
Context `{!Reflexive R, !Transitive R}.

Lemma preserves_ret {A} (a : A) : preserves R (mret a).
Proof. intros w. cbn. reflexivity. Qed.

Lemma preserves_lift {A} (r : result A) : preserves R (lift r).
Proof. intros w. cbn. reflexivity. Qed.

Lemma preserves_bind {A B} (m : M A) (k : A → M B) :
  preserves R m → (∀ a, preserves R (k a)) → preserves R (m ≫= k).
Proof.
  intros Hm Hk w. specialize (Hm w). run_M.
  destruct (m w) as [w1 [a | e]]; cbn in *; [| done].
  etrans; [exact Hm | apply Hk].
Qed.
End Combinators.

Lemma logger_same_fs lv msg : preserves same_fs (@logger F L network lv msg).
Proof. by intros w. Qed.

Lemma logger_calls P lv msg :
  preserves (calls_extended P) (@logger F L network lv msg).
Proof. intros w. exists []. cbn. by rewrite app_nil_r. Qed.

Lemma logger_log (P : level * message → Prop) lv msg :
  P (lv, msg) → preserves (log_extended P) (@logger F L network lv msg).
Proof. intros HP w. exists [(lv, msg)]. split; [done |]. by constructor. Qed.

Lemma called_same_fs c : preserves same_fs (@called F L network c).
Proof. by intros w. Qed.

Lemma called_calls (P : call → Prop) c :
  P c → preserves (calls_extended P) (@called F L network c).
Proof. intros HP w. exists [c]. split; [done |]. by constructor. Qed.

Lemma called_log P c : preserves (log_extended P) (@called F L network c).
Proof. intros w. exists []. cbn. by rewrite app_nil_r. Qed.

End Effects.

#[local] Existing Instances same_fs_refl same_fs_trans calls_extended_refl
  calls_extended_trans log_extended_refl log_extended_trans.

Create HintDb preserves.

#[local] Hint Resolve preserves_ret preserves_lift logger_same_fs logger_calls
  called_same_fs called_log : preserves.

(** One step of a proof that a sequence of statements preserves a relation:
    split a bind, or enter a branch. *)
Ltac preserves_step :=
  lazymatch goal with
  | |- preserves _ (mbind _ _) => apply preserves_bind; [apply _ | | intros ?]
  | |- preserves _ (lift _) => apply preserves_lift; apply _
  | |- preserves (calls_extended _) (called _) => apply called_calls; done
  | |- preserves (log_extended _) (logger _ _) => apply logger_log; done
  | |- preserves _ (mret _) => apply preserves_ret; apply _
  | |- preserves _ (match ?x with _ => _ end) => destruct x
  | |- preserves _ _ => solve [eauto with preserves]
  end.

(** ** The corpus dump *)

Section Dump.
Context {F L network : Type} (C : @collaborators F L network).
Variable self : gmap string (PyObject.value (embedder F L)).
Implicit Types (w : @world F L network) (av sub : list string).
Implicit Types (d : features F) (l : label_array L).

Lemma coordinator_same_fs av sub :
  preserves same_fs (extract_data_and_label_from_avs C self av sub).
Proof.
  unfold extract_data_and_label_from_avs.
  repeat preserves_step. by intros w.
Qed.

Lemma after_fit_same_fs model_dir model_filepath weights_filepath fitted :
  preserves same_fs
    (after_fit C model_dir model_filepath weights_filepath fitted).
Proof.
  unfold after_fit. destruct fitted as [n [val_loss val_acc]].
  repeat preserves_step.
Qed.

Lemma fit_extracted_same_fs d l model_filepath weights_filepath logs_dir
    epochs training_log :
  preserves same_fs
    (fit_extracted C d l model_filepath weights_filepath logs_dir epochs
       training_log).
Proof. unfold fit_extracted. repeat preserves_step. Qed.

(** Writing the dump replaces whatever file was at that path by one that
    holds the two arrays. *)
Lemma write_dump_run training_dump d l w :
  can_create C training_dump = true →
  write_dump C training_dump d l w
    = (set_fs <[training_dump := H5File (Some d) (Some l)]> w, Ok tt).
Proof.
  intros Hcreate. unfold write_dump. run_M.
  unfold h5_open_write. rewrite Hcreate.
  unfold h5_create_train_data, set_fs at 1; cbn [fs log calls].
  rewrite lookup_insert_eq.
  unfold h5_create_labels, set_fs at 1; cbn [fs log calls].
  rewrite lookup_insert_eq.
  unfold set_fs; cbn [fs log calls]. by rewrite !insert_insert_eq.
Qed.

(** C7: after a fresh-extraction run whose extraction returned [(d, l)],
    the dump file holds exactly [d] and [l] as the coordinator returned
    them, whatever was at that path before and however the later
    permutation, reorientation, zero-centering and fitting end; no other
    file of the store changes. *)
Theorem C7_dump_holds_raw_extraction av sub w w1 d l
    (model_dir weights_dir logs_dir training_dump_dir training_log : string)
    (epochs : Z) (resume : bool) :
  extract_data_and_label_from_avs C self av sub w = (w1, Ok (d, l)) →
  can_create C (dump_path training_dump_dir) = true →
  fs (train C self (Some av) (Some sub) model_dir weights_dir logs_dir
        training_dump_dir epochs training_log resume w).1
    = <[dump_path training_dump_dir := H5File (Some d) (Some l)]> (fs w).
Proof.
  intros Hextract Hcreate.
  pose proof (coordinator_same_fs av sub w) as Hfs.
  rewrite Hextract in Hfs; unfold same_fs in Hfs; cbn in Hfs.
  unfold train, fresh_extraction. run_M. rewrite Hextract.
  fold (dump_path training_dump_dir).
  rewrite (write_dump_run _ d l w1 Hcreate).
  set (w2 := set_fs _ w1).
  set (model_filepath := model_dir +:+ "/" +:+ "model.hdf5").
  set (weights_filepath := weights_dir +:+ "/" +:+ "weights.hdf5").
  pose proof (fit_extracted_same_fs d l model_filepath weights_filepath
                logs_dir epochs training_log w2) as Hfit.
  unfold same_fs in Hfit.
  destruct (fit_extracted C d l model_filepath weights_filepath logs_dir
              epochs training_log w2) as [w3 [fitted | e]]; cbn [fst] in *.
  - rewrite (after_fit_same_fs model_dir model_filepath weights_filepath
               fitted w3).
    rewrite Hfit. unfold w2, set_fs; cbn [fs]. by rewrite Hfs.
  - rewrite Hfit. unfold w2, set_fs; cbn [fs]. by rewrite Hfs.
Qed.

End Dump.

Lemma C7_dump_holds_raw_extraction_witness :
  fs (train Demo.C Demo.trainer (Some ["a.wav"]) (Some ["a.srt"])
        "models" "weights" "logs" "dump" 10 "training.log" false
        Demo.stale_world).1
    = <["dump/training_dump.hdf5" := H5File (Some Demo.x_a) (Some Demo.y_a)]>
        (fs Demo.stale_world).
Proof.
  apply (C7_dump_holds_raw_extraction Demo.C Demo.trainer ["a.wav"] ["a.srt"]
           Demo.stale_world
           (World (fs Demo.stale_world) [(DEBUG, MsgExtracted)] [])
           Demo.x_a Demo.y_a).
  - reflexivity.
  - reflexivity.
Defined.

(** ** Resuming from a dump *)

Section ResumeFromDump.
Context {F L network : Type} (C : @collaborators F L network).
Variable self : gmap string (PyObject.value (embedder F L)).
Implicit Types (w : @world F L network) (d : features F) (l : label_array L).

Lemma after_fit_calls (P : call → Prop) model_dir model_filepath
    weights_filepath fitted :
  (∀ n cfp, P (CallSave n model_filepath weights_filepath cfp)) →
  preserves (calls_extended P)
    (after_fit C model_dir model_filepath weights_filepath fitted).
Proof.
  intros HP. unfold after_fit. destruct fitted as [n [val_loss val_acc]].
  repeat preserves_step.
Qed.

(** C8: on the resume-from-dump branch, [resume=True] loads the saved
    model and weights, builds no model, and fits the loaded network on the
    dump's datasets with the resume flag set; [resume=False] loads
    nothing, builds one model for the input shape
    [(shape[2], shape[1])] of the dump's features and fits that one. *)
Theorem C8_resume_from_dump_model
    (av sub : option (list string))
    (model_dir weights_dir logs_dir training_dump_dir training_log : string)
    (epochs : Z) w d l :
  av = None ∨ sub = None →
  fs w !! dump_path training_dump_dir = Some (H5File (Some d) (Some l)) →
  let run := λ resume,
    train C self av sub model_dir weights_dir logs_dir training_dump_dir
      epochs training_log resume w in
  let args := FitArgs d l (model_path model_dir) (weights_path weights_dir)
                logs_dir epochs training_log in
  (∃ rest,
     calls (run true).1
       = calls w
           ++ CallLoad (model_path model_dir) (weights_path weights_dir)
           :: rest ∧
     Forall (λ c, ¬ is_get_lstm c) rest ∧
     ∀ n, load_model_and_weights C (model_path model_dir)
            (weights_path weights_dir) = Ok n →
          ∃ rest', rest = CallFitWithGenerator n (args true) :: rest') ∧
  (∀ a b tl, tail_shape d = a :: b :: tl →
     ∃ rest,
       calls (run false).1 = calls w ++ CallGetLstm (b, a) :: rest ∧
       Forall (λ c, ¬ is_load c ∧ ¬ is_get_lstm c) rest ∧
       ∀ n, get_lstm C (b, a) = Ok n →
            ∃ rest', rest = CallFitWithGenerator n (args false) :: rest').
Proof.
  intros Hnone Hdump.
  assert (Htrain : ∀ resume,
    train C self av sub model_dir weights_dir logs_dir training_dump_dir
      epochs training_log resume
    = resume_from_dump C (model_path model_dir) (weights_path weights_dir)
        logs_dir training_dump_dir epochs training_log resume
      ≫= after_fit C model_dir (model_path model_dir)
           (weights_path weights_dir)).
  { intros resume. unfold train.
    destruct Hnone as [-> | ->]; [done | by destruct av]. }
  cbn beta zeta. rewrite !Htrain. clear Htrain.
  unfold resume_from_dump. fold (dump_path training_dump_dir).
  split.
  - run_M. unfold h5_open_read; cbn [fs add_log]. rewrite Hdump.
    cbn [ds_train_data ds_labels h5_dataset].
    destruct (load_model_and_weights C _ _) as [n | e].
    + destruct (fit_with_generator C n _) as [history | e] eqn:Hfit.
      * pose proof (after_fit_calls (λ c, ¬ is_get_lstm c) model_dir
                      (model_path model_dir) (weights_path weights_dir)
                      (n, history) ltac:(by intros ? ? [])) as Hafter.
        match goal with
        | |- context [after_fit _ _ _ _ _ ?w2] =>
            destruct (Hafter w2) as (cs & -> & Hcs)
        end.
        cbn [calls add_call add_log]. rewrite <- !app_assoc. cbn [app].
        eexists. split; [reflexivity |]. split.
        -- constructor; [by intros [] | done].
        -- intros n' [= <-]. eauto.
      * cbn [fst calls add_call add_log]. rewrite <- !app_assoc. cbn [app].
        eexists. split; [reflexivity |]. split.
        -- constructor; [by intros [] | done].
        -- intros n' [= <-]. eauto.
    + cbn [fst calls add_call add_log].
      eexists. split; [reflexivity |]. split; [done |]. by intros n' [=].
  - intros a b tl Htail. run_M.
    unfold h5_open_read; cbn [fs add_log]. rewrite Hdump.
    cbn [ds_train_data ds_labels h5_dataset].
    unfold Np.shape_at, Np.shape. rewrite Htail. cbn [lookup list_lookup].
    destruct (get_lstm C (b, a)) as [n | e].
    + destruct (fit_with_generator C n _) as [history | e] eqn:Hfit.
      * pose proof (after_fit_calls (λ c, ¬ is_load c ∧ ¬ is_get_lstm c)
                      model_dir (model_path model_dir)
                      (weights_path weights_dir) (n, history)
                      ltac:(by intros ? ?; split; intros [])) as Hafter.
        match goal with
        | |- context [after_fit _ _ _ _ _ ?w2] =>
            destruct (Hafter w2) as (cs & -> & Hcs)
        end.
        cbn [calls add_call add_log]. rewrite <- !app_assoc. cbn [app].
        eexists. split; [reflexivity |]. split.
        -- constructor; [by split; intros [] | done].
        -- intros n' [= <-]. eauto.
      * cbn [fst calls add_call add_log]. rewrite <- !app_assoc. cbn [app].
        eexists. split; [reflexivity |]. split.
        -- constructor; [by split; intros [] | done].
        -- intros n' [= <-]. eauto.
    + cbn [fst calls add_call add_log].
      eexists. split; [reflexivity |]. split; [done |]. by intros n' [=].
Qed.

End ResumeFromDump.

(** ** Fresh extraction *)

Section Reorient.
Context {F L network : Type} (C : @collaborators F L network).
Implicit Types (d : features F) (vals : list (list (list F))).

Lemma rot90_each_run (a b : nat) (tl : list nat) vals :
  Np.rot90_each (a :: b :: tl) vals
    = Ok ((λ val, (b :: a :: tl, Np.transpose b (@rev F <$> val))) <$> vals).
Proof.
  induction vals as [| val vals IH]; [done |].
  cbn [Np.rot90_each Np.rot90 rbind]. by rewrite IH.
Qed.

(** Each sample of shape [(a, b)] becomes one of shape [(b, a)]; zero
    centering keeps the shape. *)
Lemma center_reorient_shape d (a b : nat) (tl : list nat) :
  tail_shape d = a :: b :: tl →
  items d ≠ [] →
  ∃ rd, reorient d = Ok rd ∧
        Np.shape (center C rd) = Np.len d :: b :: a :: tl.
Proof.
  intros Htail Hitems. unfold reorient. rewrite Htail, rot90_each_run.
  cbn [rbind]. eexists. split; [reflexivity |].
  destruct (items d) as [| val vals] eqn:Hd; [done |].
  unfold Np.shape, Np.len, center, Np.subtract. cbn.
  rewrite Hd. cbn. by rewrite !length_fmap.
Qed.

Lemma permute_run d (l : label_array L) :
  Np.len d = Np.len l →
  random_permutation C (Np.len l) ≡ₚ seq 0 (Np.len l) →
  ∃ d' l', permute C d l = Ok (d', l') ∧
           tail_shape d' = tail_shape d ∧ Np.len d' = Np.len d.
Proof.
  intros Hlen Hperm.
  destruct (take_permutation d (random_permutation C (Np.len l)))
    as [Hd Hfd]; [by rewrite Hlen |].
  destruct (take_permutation l (random_permutation C (Np.len l)))
    as [Hl _]; [done |].
  eexists _, _. unfold permute. rewrite Hd, Hl. cbn [rbind].
  split_and!; [reflexivity | done |].
  unfold Np.len in *; cbn [items].
  by rewrite <- (Forall2_length Hfd), Hperm, length_seq.
Qed.

End Reorient.

Section FreshExtraction.
Context {F L network : Type} (C : @collaborators F L network).
Variable self : gmap string (PyObject.value (embedder F L)).
Implicit Types (w : @world F L network) (av sub : list string).
Implicit Types (d : features F) (l : label_array L).

Lemma coordinator_calls P av sub :
  preserves (calls_extended P) (extract_data_and_label_from_avs C self av sub).
Proof.
  unfold extract_data_and_label_from_avs.
  repeat preserves_step. intros w. exists []. cbn. by rewrite app_nil_r.
Qed.

Lemma write_dump_calls_log training_dump d l w :
  calls (write_dump C training_dump d l w).1 = calls w ∧
  log (write_dump C training_dump d l w).1 = log w.
Proof.
  unfold write_dump, h5_open_write, h5_create_train_data, h5_create_labels.
  run_M. repeat case_match; simplify_eq; done.
Qed.

Lemma write_dump_calls P training_dump d l :
  preserves (calls_extended P) (write_dump C training_dump d l).
Proof.
  intros w. exists [].
  rewrite (proj1 (write_dump_calls_log training_dump d l w)).
  by rewrite app_nil_r.
Qed.

Lemma fit_extracted_calls d l model_filepath weights_filepath logs_dir
    epochs training_log :
  preserves (calls_extended from_scratch)
    (fit_extracted C d l model_filepath weights_filepath logs_dir epochs
       training_log).
Proof. unfold fit_extracted. repeat preserves_step. Qed.

Lemma fresh_run_calls av sub
    (model_dir weights_dir logs_dir training_dump_dir training_log : string)
    (epochs : Z) (resume : bool) :
  preserves (calls_extended from_scratch)
    (train C self (Some av) (Some sub) model_dir weights_dir logs_dir
       training_dump_dir epochs training_log resume).
Proof.
  unfold train, fresh_extraction.
  preserves_step; [| by apply after_fit_calls].
  preserves_step; [apply coordinator_calls |]. preserves_step.
  preserves_step; [apply write_dump_calls | apply fit_extracted_calls].
Qed.

(** C9: on the fresh-extraction branch the [resume] argument has no
    effect.  Every call the run makes on [Network] is one of a run from
    scratch; when the extraction returns arrays of shape [(M, a, b)] with
    [M > 0], the run builds one new model for the transformed shape
    [(b, a)] and fits it through [fit_and_get_history] on the permuted,
    reoriented and centered data with the resume flag off. *)
Theorem C9_fresh_extraction_ignores_resume av sub w
    (model_dir weights_dir logs_dir training_dump_dir training_log : string)
    (epochs : Z) (resume : bool) :
  let run := λ resume,
    train C self (Some av) (Some sub) model_dir weights_dir logs_dir
      training_dump_dir epochs training_log resume w in
  run resume = run false ∧
  calls_extended from_scratch w (run resume).1 ∧
  (∀ w1 d l a b tl,
     extract_data_and_label_from_avs C self av sub w = (w1, Ok (d, l)) →
     can_create C (dump_path training_dump_dir) = true →
     Np.len d = Np.len l →
     random_permutation C (Np.len l) ≡ₚ seq 0 (Np.len l) →
     tail_shape d = a :: b :: tl →
     items d ≠ [] →
     ∃ d' l' rd rest,
       permute C d l = Ok (d', l') ∧ reorient d' = Ok rd ∧
       Np.shape (center C rd) = Np.len d :: b :: a :: tl ∧
       calls (run resume).1 = calls w ++ CallGetLstm (b, a) :: rest ∧
       ∀ n, get_lstm C (b, a) = Ok n →
            ∃ rest',
              rest = CallFitAndGetHistory n
                       (FitArgs (center C rd) l' (model_path model_dir)
                          (weights_path weights_dir) logs_dir epochs
                          training_log false) :: rest').
Proof.
  cbn beta zeta. split; [reflexivity |].
  split; [apply fresh_run_calls |].
  intros w1 d l a b tl Hextract Hcreate Hlen Hperm Htail Hitems.
  destruct (permute_run C d l Hlen Hperm) as (d' & l' & Hpermute & Htail' & Hlen').
  destruct (center_reorient_shape C d' a b tl) as (rd & Hrd & Hshape).
  { by rewrite Htail'. }
  { intros Hnil. unfold Np.len in Hlen'. rewrite Hnil in Hlen'.
    destruct (items d); [done | discriminate Hlen']. }
  rewrite Hlen' in Hshape.
  exists d', l', rd.
  pose proof (coordinator_calls (λ _, False) av sub w) as (cs & Hcalls & Hcs).
  rewrite Hextract in Hcalls; cbn [fst] in Hcalls.
  destruct cs as [| c cs]; [| by inversion Hcs]. rewrite app_nil_r in Hcalls.
  unfold train, fresh_extraction. run_M. rewrite Hextract.
  fold (dump_path training_dump_dir).
  rewrite (write_dump_run C _ d l w1 Hcreate).
  unfold fit_extracted. run_M. rewrite Hpermute, Hrd.
  unfold Np.shape_at. rewrite Hshape. cbn [lookup list_lookup].
  fold (model_path model_dir) (weights_path weights_dir).
  destruct (get_lstm C (b, a)) as [n | e].
  - destruct (fit_and_get_history C n _) as [history | e].
    + pose proof (after_fit_calls C (λ _, True) model_dir
                    (model_path model_dir) (weights_path weights_dir)
                    (n, history) ltac:(done)) as Hafter.
      match goal with
      | |- context [after_fit _ _ _ _ _ ?w2] =>
          destruct (Hafter w2) as (cs & -> & _)
      end.
      cbn [calls add_call add_log set_fs]. rewrite Hcalls, <- !app_assoc.
      cbn [app]. eexists. split_and!; [done | done | done | reflexivity |].
      intros n' [= <-]. eauto.
    + cbn [fst calls add_call add_log set_fs]. rewrite Hcalls, <- !app_assoc.
      cbn [app]. eexists. split_and!; [done | done | done | reflexivity |].
      intros n' [= <-]. eauto.
  - cbn [fst calls add_call add_log set_fs]. rewrite Hcalls.
    eexists. split_and!; [done | done | done | reflexivity |].
    by intros n' [=].
Qed.

End FreshExtraction.

(** ** Which branch [train] takes *)

Section TaskLog.
Context {F L network : Type} (C : @collaborators F L network).
Variable self : gmap string (PyObject.value (embedder F L)).
Implicit Types (st : @task_state F L).

#[local] Instance task_log_extended_refl P :
  Reflexive (@task_log_extended F L P).
Proof. intros st. exists []. by rewrite app_nil_r. Qed.

#[local] Instance task_log_extended_trans P :
  Transitive (@task_log_extended F L P).
Proof.
  intros st1 st2 st3 (rs & H12 & Hrs) (rs' & H23 & Hrs').
  exists (rs ++ rs'). rewrite H23, H12, app_assoc. split; [done |].
  by apply Forall_app.
Qed.

(** A task logs nothing but its own four kinds of records. *)
Lemma task_log_grows index av sub st :
  task_log_extended not_resume_record st
    (extract_in_multithreads C self index av sub st).1.
Proof.
  unfold extract_in_multithreads, log_paths_and_return, read_local,
    task_logger, task_log_extended.
  destruct (Py.splitext av) as [file_name file_ext].
  repeat case_match; simplify_eq; cbn [fst task_log train_data labels];
    rewrite <- ?app_assoc;
    first [ by (exists []; rewrite app_nil_r)
          | eexists; split; [reflexivity |]; repeat constructor; discriminate ].
Qed.

Lemma run_tasks_log_grows tasks order st :
  task_log_extended not_resume_record st (run_tasks C self tasks order st).
Proof.
  induction order as [| index order IH] using rev_ind; [reflexivity |].
  unfold run_tasks in *. rewrite foldl_snoc.
  etrans; [exact IH |]. unfold run_task.
  destruct (tasks !! index) as [[a s] |]; [| reflexivity].
  apply task_log_grows.
Qed.

Lemma coordinator_log av sub :
  preserves (log_extended not_resume_record)
    (extract_data_and_label_from_avs C self av sub).
Proof.
  unfold extract_data_and_label_from_avs.
  repeat preserves_step.
  intros w. cbn [fst log]. unfold run_pool.
  apply (run_tasks_log_grows _ _ (TaskState _ _ (log w))).
Qed.

End TaskLog.

Section Branch.
Context {F L network : Type} (C : @collaborators F L network).
Variable self : gmap string (PyObject.value (embedder F L)).
Implicit Types (w : @world F L network).

Lemma h5_open_read_preserves (R : relation (@world F L network))
    `{!Reflexive R} path :
  preserves R (h5_open_read path).
Proof. intros w. unfold h5_open_read. by case_match. Qed.

Lemma write_dump_log P training_dump d l :
  preserves (log_extended P) (write_dump C training_dump d l).
Proof.
  intros w. exists [].
  rewrite (proj2 (write_dump_calls_log C training_dump d l w)).
  by rewrite app_nil_r.
Qed.

Lemma after_fit_log (P : level * message → Prop) model_dir model_filepath
    weights_filepath fitted :
  (∀ x, P (DEBUG, MsgValLoss x)) → (∀ x, P (DEBUG, MsgValAcc x)) →
  P (INFO, MsgTotalTime) →
  preserves (log_extended P)
    (after_fit C model_dir model_filepath weights_filepath fitted).
Proof.
  intros Hloss Hacc Htime. unfold after_fit.
  destruct fitted as [n [val_loss val_acc]].
  repeat preserves_step.
Qed.

(** The fresh-extraction branch never logs the resume record. *)
Lemma fresh_run_log av sub
    (model_dir weights_dir logs_dir training_dump_dir training_log : string)
    (epochs : Z) (resume : bool) :
  preserves (log_extended not_resume_record)
    (train C self (Some av) (Some sub) model_dir weights_dir logs_dir
       training_dump_dir epochs training_log resume).
Proof.
  unfold train, fresh_extraction.
  preserves_step; [| by apply after_fit_log].
  preserves_step; [apply coordinator_log |]. preserves_step.
  preserves_step; [apply write_dump_log |].
  unfold fit_extracted. repeat preserves_step.
Qed.

Lemma log_after_logger {A} lv msg (rest : M A) w :
  preserves (log_extended (λ _, True)) rest →
  ∃ rs, log ((logger lv msg;; rest) w).1 = log w ++ (lv, msg) :: rs.
Proof.
  intros Hrest. run_M.
  destruct (Hrest (add_log lv msg w)) as (rs & -> & _).
  exists rs. cbn [log add_log]. by rewrite <- app_assoc.
Qed.

(** The resume-from-dump branch logs it first. *)
Lemma dump_run_log (av sub : option (list string))
    (model_dir weights_dir logs_dir training_dump_dir training_log : string)
    (epochs : Z) (resume : bool) w :
  av = None ∨ sub = None →
  ∃ rs,
    log (train C self av sub model_dir weights_dir logs_dir
           training_dump_dir epochs training_log resume w).1
      = log w ++ (DEBUG, MsgResumeDump) :: rs.
Proof.
  intros Hnone.
  assert (Htrain :
    train C self av sub model_dir weights_dir logs_dir training_dump_dir
      epochs training_log resume
    = resume_from_dump C (model_path model_dir) (weights_path weights_dir)
        logs_dir training_dump_dir epochs training_log resume
      ≫= after_fit C model_dir (model_path model_dir)
           (weights_path weights_dir)).
  { unfold train. destruct Hnone as [-> | ->]; [done | by destruct av]. }
  rewrite Htrain. clear Htrain.
  assert (Hdump : ∃ rs,
    log (resume_from_dump C (model_path model_dir) (weights_path weights_dir)
           logs_dir training_dump_dir epochs training_log resume w).1
      = log w ++ (DEBUG, MsgResumeDump) :: rs).
  { unfold resume_from_dump. apply log_after_logger.
    preserves_step; [apply h5_open_read_preserves; apply _ |].
    repeat preserves_step. }
  destruct Hdump as (rs & Hdump). run_M.
  destruct (resume_from_dump C _ _ _ _ _ _ _ w) as [w1 [fitted | e]];
    cbn [fst] in *; [| by exists rs].
  destruct (after_fit_log (λ _, True) model_dir (model_path model_dir)
              (weights_path weights_dir) fitted ltac:(done) ltac:(done)
              ltac:(done) w1) as (rs' & -> & _).
  exists (rs ++ rs'). by rewrite Hdump, <- app_assoc.
Qed.

(** C1 (amended): [train] takes the resume-from-dump branch exactly when
    at least one of the two path lists is absent ([None]); an empty list
    counts as provided.  Whenever both lists are provided, empty or not,
    it takes the fresh-extraction branch. *)
Theorem C1_branch_selection (av sub : option (list string))
    (model_dir weights_dir logs_dir training_dump_dir training_log : string)
    (epochs : Z) (resume : bool) w :
  ¬ took_dump_branch w →
  let run :=
    train C self av sub model_dir weights_dir logs_dir training_dump_dir
      epochs training_log resume in
  (took_dump_branch (run w).1 ↔ av = None ∨ sub = None) ∧
  (av = None ∨ sub = None →
     run = resume_from_dump C (model_path model_dir)
             (weights_path weights_dir) logs_dir training_dump_dir epochs
             training_log resume
           ≫= after_fit C model_dir (model_path model_dir)
                (weights_path weights_dir)) ∧
  (∀ a s, av = Some a → sub = Some s →
     run = fresh_extraction C self a s (model_path model_dir)
             (weights_path weights_dir) logs_dir training_dump_dir epochs
             training_log
           ≫= after_fit C model_dir (model_path model_dir)
                (weights_path weights_dir)).
Proof.
  intros Hfresh. cbn zeta. split_and!.
  - split.
    + intros Htook.
      destruct av as [a |]; [| by left]. destruct sub as [s |]; [| by right].
      exfalso.
      destruct (fresh_run_log a s model_dir weights_dir logs_dir
                  training_dump_dir training_log epochs resume w)
        as (rs & Hlog & Hrs).
      unfold took_dump_branch in Htook. rewrite Hlog in Htook.
      apply elem_of_app in Htook as [Hold | Hnew]; [done |].
      rewrite Forall_forall in Hrs. apply list_elem_of_In in Hnew.
      by apply (Hrs _ Hnew).
    + intros Hnone.
      destruct (dump_run_log av sub model_dir weights_dir logs_dir
                  training_dump_dir training_log epochs resume w Hnone)
        as (rs & Hlog).
      unfold took_dump_branch. rewrite Hlog.
      apply elem_of_app. right. by left.
  - unfold train. intros [-> | ->]; [done | by destruct av].
  - intros a s -> ->. reflexivity.
Qed.

End Branch.

(** C1, as stated, fails in both directions: with the audio/video list
    absent and a subtitle list provided the run resumes from the dump, and
    with both lists empty it extracts afresh. *)
Lemma C1_absent_or_empty_is_not_the_test :
  (took_dump_branch
     (train Demo.C Demo.trainer None (Some ["a.srt"]) "models" "weights"
        "logs" "dump" 10 "training.log" false Demo.empty_world).1 ∧
   ¬ (absent_or_empty None ∧ absent_or_empty (Some ["a.srt"]))) ∧
  (¬ took_dump_branch
       (train Demo.C Demo.trainer (Some []) (Some []) "models" "weights"
          "logs" "dump" 10 "training.log" false Demo.empty_world).1 ∧
   absent_or_empty (Some []) ∧ absent_or_empty (Some [])).
Proof.
  split; split.
  - unfold took_dump_branch. vm_compute. by left.
  - intros [_ [Habs | Hempty]]; discriminate.
  - unfold took_dump_branch. vm_compute. intros Hin. by apply elem_of_nil in Hin.
  - split; by right.
Qed.

Lemma C1_branch_selection_witness :
  took_dump_branch
    (train Demo.C Demo.trainer None (Some ["a.srt"]) "models" "weights"
       "logs" "dump" 10 "training.log" false Demo.empty_world).1.
Proof.
  apply (C1_branch_selection Demo.C Demo.trainer None (Some ["a.srt"])
           "models" "weights" "logs" "dump" "training.log" 10 false
           Demo.empty_world).
  - unfold took_dump_branch. cbn. intros Hin. by apply elem_of_nil in Hin.
  - by left.
Defined.

Lemma C8_resume_from_dump_model_witness :
  ∃ rest,
    calls (train Demo.C Demo.trainer None None "models" "weights" "logs"
             "dump" 10 "training.log" true Demo.dumped_world).1
      = CallLoad "models/model.hdf5" "weights/weights.hdf5"
        :: CallFitWithGenerator 7%nat
             (FitArgs Demo.x_a Demo.y_a "models/model.hdf5"
                "weights/weights.hdf5" "logs" 10 "training.log" true)
        :: rest.
Proof.
  destruct (C8_resume_from_dump_model Demo.C Demo.trainer None None
              "models" "weights" "logs" "dump" "training.log" 10
              Demo.dumped_world Demo.x_a Demo.y_a)
    as [(rest & Hcalls & _ & Hfit) _].
  - by left.
  - by vm_compute.
  - destruct (Hfit 7%nat eq_refl) as (rest' & ->).
    exists rest'. exact Hcalls.
Defined.

Lemma C9_fresh_extraction_ignores_resume_witness :
  ∃ rest,
    calls (train Demo.C Demo.trainer (Some ["a.wav"]) (Some ["a.srt"])
             "models" "weights" "logs" "dump" 10 "training.log" true
             Demo.empty_world).1
      = CallGetLstm (1%nat, 2%nat) :: rest.
Proof.
  destruct (C9_fresh_extraction_ignores_resume Demo.C Demo.trainer
              ["a.wav"] ["a.srt"] Demo.empty_world
              "models" "weights" "logs" "dump" "training.log" 10 true)
    as (_ & _ & Hshape).
  destruct (Hshape (World ∅ [(DEBUG, MsgExtracted)] []) Demo.x_a Demo.y_a
              2%nat 1%nat [])
    as (d' & l' & rd & rest & _ & _ & _ & Hcalls & _).
  - reflexivity.
  - reflexivity.
  - reflexivity.
  - apply (bool_decide_unpack _). by vm_compute.
  - reflexivity.
  - discriminate.
  - exists rest. exact Hcalls.
Defined.

(** * Further properties of the module *)

Example path_join_examples :
  path_join "out" "m.ckpt" = "out/m.ckpt" ∧
  path_join "out/" "m.ckpt" = "out/m.ckpt" ∧
  path_join "out" "/abs.ckpt" = "/abs.ckpt" ∧
  path_join "" "m.ckpt" = "m.ckpt".
Proof. repeat split; reflexivity. Qed.

(** ** One task *)

Section TaskCases.
Context {F L network : Type} (C : @collaborators F L network).
Implicit Types (self : gmap string (PyObject.value (embedder F L))).
Implicit Types (st : @task_state F L) (e : exn).

(** A task that extracts its sample stores the two tensors at its own index
    and returns the audio and subtitle paths; the only record it may log is
    the debug record of the audio extraction. *)
Theorem task_success self index av sub st audio x y :
  audio_path_of C av = Ok audio →
  embed self audio sub = Ok (x, y) →
  (index < length (train_data st))%nat →
  (index < length (labels st))%nat →
  ∃ rs,
    extract_in_multithreads C self index av sub st
      = (TaskState (<[index := Some x]> (train_data st))
           (<[index := Some y]> (labels st)) (task_log st ++ rs),
         Ok (audio, sub)) ∧
    Forall (λ r, r = (DEBUG, MsgAudioExtracted)) rs.
Proof.
  unfold audio_path_of, extract_in_multithreads.
  destruct (Py.splitext av) as [file_name file_ext]; cbn [snd].
  intros Haudio Hembed Hdata%Nat.ltb_lt Hlabels%Nat.ltb_lt.
  destruct (bool_decide (file_ext ∈ AUDIO_FILE_EXTENSION C)); cbn [negb].
  - injection Haudio as ->. cbn [rbind]. rewrite Hembed.
    unfold set_item. rewrite Hdata. cbn [train_data labels task_log].
    rewrite Hlabels. cbn [train_data labels task_log rbind read_local].
    exists []. by rewrite app_nil_r.
  - rewrite Haudio. cbn [rbind]. rewrite Hembed.
    unfold set_item, task_logger. cbn [train_data labels task_log].
    rewrite Hdata. cbn [train_data labels task_log].
    rewrite Hlabels. cbn [train_data labels task_log rbind read_local].
    exists [(DEBUG, MsgAudioExtracted)]. split; [done |]. by constructor.
Qed.

(** Whatever happens to a task, it leaves every slot but its own as it
    found it, and never changes the length of either list. *)
Theorem task_touches_only_its_index self index av sub st :
  let st' := (extract_in_multithreads C self index av sub st).1 in
  length (train_data st') = length (train_data st) ∧
  length (labels st') = length (labels st) ∧
  ∀ j, j ≠ index →
       train_data st' !! j = train_data st !! j ∧
       labels st' !! j = labels st !! j.
Proof.
  unfold extract_in_multithreads, log_paths_and_return, read_local, set_item,
    task_logger.
  destruct (Py.splitext av) as [file_name file_ext].
  repeat case_match; simplify_eq; cbn [fst task_log train_data labels];
    rewrite ?length_insert; (split_and!; [done | done |]);
    intros j Hj; by rewrite ?list_lookup_insert_ne by done.
Qed.

(** An unforeseen exception raised once the audio path is known is logged
    as unexpected, together with the two paths; the task returns and leaves
    the result lists untouched. *)
Theorem unexpected_failure_with_audio_bound self index av sub st e audio :
  audio_path_of C av = Ok audio →
  embed self audio sub = Raise e →
  recognized e = false →
  ∃ st',
    extract_in_multithreads C self index av sub st = (st', Ok (audio, sub)) ∧
    train_data st' = train_data st ∧ labels st' = labels st ∧
    ∃ pre, task_log st' = task_log st ++ pre ++
             [(ERROR, MsgUnexpected e); (ERROR, MsgPaths audio sub)].
Proof.
  unfold audio_path_of, extract_in_multithreads.
  destruct (Py.splitext av) as [file_name file_ext]; cbn [snd].
  intros Haudio Hembed Hrec.
  destruct (bool_decide (file_ext ∈ AUDIO_FILE_EXTENSION C)); cbn [negb].
  - injection Haudio as ->. cbn [rbind]. rewrite Hembed.
    destruct e; try discriminate Hrec; cbn;
      (eexists; split_and!; [reflexivity | done | done |]);
      exists []; cbn; by rewrite <- app_assoc.
  - rewrite Haudio. cbn [rbind]. rewrite Hembed.
    destruct e; try discriminate Hrec; cbn;
      (eexists; split_and!; [reflexivity | done | done |]);
      exists [(DEBUG, MsgAudioExtracted)]; cbn; by rewrite <- !app_assoc.
Qed.

(** An unforeseen exception raised by the audio extraction meets the same
    unassigned [audio_file_path] in the second handler: the exception is
    logged, the paths are not, and the task ends with
    [UnboundLocalError]. *)
Theorem unexpected_failure_before_assignment self index av sub st e :
  (Py.splitext av).2 ∉ AUDIO_FILE_EXTENSION C →
  extract_audio C av = Raise e →
  recognized e = false →
  extract_in_multithreads C self index av sub st
    = (TaskState (train_data st) (labels st)
         (task_log st ++ [(ERROR, MsgUnexpected e)]),
       Raise (UnboundLocalError "audio_file_path")).
Proof.
  unfold extract_in_multithreads.
  destruct (Py.splitext av) as [file_name file_ext]; cbn [snd].
  intros Hext Hfail Hrec.
  rewrite bool_decide_eq_false_2 by done. cbn [negb].
  rewrite Hfail. cbn [rbind].
  destruct e; try discriminate Hrec; reflexivity.
Qed.

(** An input whose extension is an audio one is used as it is: the task
    does not depend on [MediaHelper.extract_audio], and the audio path it
    returns is the input path. *)
Theorem audio_input_skips_extraction (C' : @collaborators F L network)
    self index av sub st :
  AUDIO_FILE_EXTENSION C' = AUDIO_FILE_EXTENSION C →
  (Py.splitext av).2 ∈ AUDIO_FILE_EXTENSION C →
  extract_in_multithreads C' self index av sub st
    = extract_in_multithreads C self index av sub st ∧
  ∀ audio s,
    (extract_in_multithreads C self index av sub st).2 = Ok (audio, s) →
    audio = av ∧ s = sub.
Proof.
  unfold extract_in_multithreads, log_paths_and_return, read_local.
  destruct (Py.splitext av) as [file_name file_ext]; cbn [snd].
  intros -> Hext. rewrite bool_decide_eq_true_2 by done. cbn [negb].
  split; [reflexivity |].
  intros audio s.
  repeat case_match; simplify_eq; cbn [snd rbind]; by intros [= <- <-].
Qed.

End TaskCases.

Lemma task_success_witness :
  ∃ rs,
    extract_in_multithreads Demo.C Demo.trainer 0 "a.wav" "a.srt"
      Demo.empty_task_state
    = (TaskState [Some Demo.x_a] [Some Demo.y_a] rs, Ok ("a.wav", "a.srt")).
Proof.
  destruct (task_success Demo.C Demo.trainer 0%nat "a.wav" "a.srt"
              Demo.empty_task_state "a.wav" Demo.x_a Demo.y_a)
    as (rs & Hrun & _).
  - reflexivity.
  - reflexivity.
  - cbn. lia.
  - cbn. lia.
  - eexists. exact Hrun.
Defined.

Lemma recognized_failure_with_audio_bound_witness :
  ∃ st',
    extract_in_multithreads Demo.C Demo.trainer 0 "c.wav" "c.srt"
      Demo.empty_task_state = (st', Ok ("c.wav", "c.srt")) ∧
    train_data st' = [None] ∧ labels st' = [None].
Proof.
  destruct (recognized_failure_with_audio_bound Demo.C Demo.trainer 0%nat
              "c.wav" "c.srt" Demo.empty_task_state
              (TerminalException "corrupt audio") "c.wav")
    as (st' & Hrun & Hd & Hl & _).
  - reflexivity.
  - reflexivity.
  - reflexivity.
  - exists st'. split_and!; [exact Hrun | exact Hd | exact Hl].
Defined.

Lemma unexpected_failure_with_audio_bound_witness :
  ∃ st',
    extract_in_multithreads Demo.C Cases.broken_trainer 0 "a.wav" "a.srt"
      Demo.empty_task_state = (st', Ok ("a.wav", "a.srt")) ∧
    train_data st' = [None] ∧ labels st' = [None].
Proof.
  destruct (unexpected_failure_with_audio_bound Demo.C Cases.broken_trainer
              0%nat "a.wav" "a.srt" Demo.empty_task_state
              (OtherException "division by zero") "a.wav")
    as (st' & Hrun & Hd & Hl & _).
  - reflexivity.
  - reflexivity.
  - reflexivity.
  - exists st'. split_and!; [exact Hrun | exact Hd | exact Hl].
Defined.

Lemma unexpected_failure_before_assignment_witness :
  extract_in_multithreads Cases.C_unexpected Demo.trainer 0 "b.mp4" "b.srt"
      Demo.empty_task_state
    = (TaskState [None] [None]
         [(ERROR, MsgUnexpected (OtherException "ffmpeg not found"))],
       Raise (UnboundLocalError "audio_file_path")).
Proof.
  apply (unexpected_failure_before_assignment Cases.C_unexpected Demo.trainer
           0%nat "b.mp4" "b.srt" Demo.empty_task_state
           (OtherException "ffmpeg not found")).
  - vm_compute. intros Hin.
    repeat (apply elem_of_cons in Hin as [Heq | Hin]; [discriminate Heq |]).
    by apply elem_of_nil in Hin.
  - reflexivity.
  - reflexivity.
Defined.

Lemma audio_input_skips_extraction_witness :
  extract_in_multithreads Cases.C_unexpected Demo.trainer 0 "a.wav" "a.srt"
      Demo.empty_task_state
    = extract_in_multithreads Demo.C Demo.trainer 0 "a.wav" "a.srt"
        Demo.empty_task_state.
Proof.
  apply (audio_input_skips_extraction Demo.C Cases.C_unexpected Demo.trainer
           0%nat "a.wav" "a.srt" Demo.empty_task_state).
  - reflexivity.
  - vm_compute. by left.
Defined.

(** ** The pool and the coordinator *)

Section PoolCases.
Context {F L network : Type} (C : @collaborators F L network).
Variable self : gmap string (PyObject.value (embedder F L)).
Implicit Types (st : @task_state F L) (tasks : list (string * string)).
Implicit Types (w : @world F L network) (av sub : list string).

(** The two result lists do not depend on the order in which the pool runs
    the tasks: two runs over the same tasks end with the same slots. *)
Theorem pool_order_independent tasks (order1 order2 : list nat) st :
  order1 ≡ₚ order2 →
  (length tasks ≤ length (train_data st))%nat →
  (length tasks ≤ length (labels st))%nat →
  train_data (run_tasks C self tasks order1 st)
    = train_data (run_tasks C self tasks order2 st) ∧
  labels (run_tasks C self tasks order1 st)
    = labels (run_tasks C self tasks order2 st).
Proof.
  intros Hperm Hdata Hlabels.
  destruct (run_tasks_slots C self tasks order1 st Hdata Hlabels)
    as (_ & _ & Hd1 & Hl1).
  destruct (run_tasks_slots C self tasks order2 st Hdata Hlabels)
    as (_ & _ & Hd2 & Hl2).
  cbn zeta in *.
  assert (Hslot : ∀ A (pr : features F * label_array L → A) initial i,
            slot_after C self pr tasks order1 initial i
            = slot_after C self pr tasks order2 initial i).
  { intros A pr initial i. unfold slot_after.
    destruct (decide (i ∈ order1)) as [Hin | Hnin].
    - rewrite decide_True; [done |]. by rewrite <- Hperm.
    - rewrite decide_False; [done |]. by rewrite <- Hperm. }
  split; apply list_eq; intros i.
  - by rewrite Hd1, Hd2, Hslot.
  - by rewrite Hl1, Hl2, Hslot.
Qed.

(** A task logs exactly one failure record when its sample fails to
    extract, and none when it extracts. *)
Lemma task_failure_records index a s st :
  ∃ rs,
    task_log (extract_in_multithreads C self index a s st).1
      = task_log st ++ rs ∧
    failure_count rs = if sample_fails C self (a, s) then 1%nat else 0%nat.
Proof.
  unfold sample_fails, sample_extraction, audio_path_of,
    extract_in_multithreads, log_paths_and_return, read_local, set_item,
    task_logger, failure_count.
  cbn [fst snd].
  destruct (Py.splitext a) as [file_name file_ext]; cbn [snd].
  destruct (bool_decide (file_ext ∈ AUDIO_FILE_EXTENSION C)); cbn [negb].
  - cbn [rbind]. destruct (embed self a s) as [[x y] | e].
    + repeat case_match; simplify_eq; cbn [fst task_log];
        exists []; by rewrite app_nil_r.
    + destruct e; cbn; rewrite <- ?app_assoc; by eexists.
  - destruct (extract_audio C a) as [audio | e]; cbn [rbind].
    + destruct (embed self audio s) as [[x y] | e].
      * repeat case_match; simplify_eq; cbn [fst task_log];
          by exists [(DEBUG, MsgAudioExtracted)].
      * destruct e; cbn; rewrite <- ?app_assoc; by eexists.
    + destruct e; cbn; by eexists.
Qed.

#[local] Instance task_fails_at_dec tasks i :
  Decision (task_fails_at C self tasks i).
Proof. unfold task_fails_at. destruct (tasks !! i); apply _. Qed.

Lemma run_tasks_failure_records tasks (order : list nat) st :
  ∃ rs,
    task_log (run_tasks C self tasks order st) = task_log st ++ rs ∧
    failure_count rs = length (filter (task_fails_at C self tasks) order).
Proof.
  induction order as [| index order IH] using rev_ind.
  { exists []. by rewrite app_nil_r. }
  destruct IH as (rs & Hlog & Hcount).
  unfold run_tasks in *. rewrite foldl_snoc.
  set (st1 := foldl (run_task C self tasks) st order) in *.
  rewrite list.filter_app, length_app, <- Hcount.
  unfold run_task. rewrite filter_cons, filter_nil.
  destruct (tasks !! index) as [[a s] |] eqn:Htask.
  - destruct (task_failure_records index a s st1) as (rs' & -> & Hrs').
    exists (rs ++ rs'). rewrite Hlog, app_assoc. split; [done |].
    unfold failure_count in *. rewrite list.filter_app, length_app, Hrs'.
    destruct (sample_fails C self (a, s)) eqn:Hfails.
    + rewrite decide_True; [done |].
      unfold task_fails_at. by rewrite Htask, Hfails.
    + rewrite decide_False; [done |].
      unfold task_fails_at. rewrite Htask, Hfails. by intros [].
  - exists rs. split; [done |].
    rewrite decide_False; [cbn; lia |].
    unfold task_fails_at. rewrite Htask. by intros [].
Qed.

Lemma failed_indices_count (pre tasks : list (string * string)) :
  length (filter (task_fails_at C self (pre ++ tasks))
            (seq (length pre) (length tasks)))
    = length (filter (λ p, Is_true (sample_fails C self p)) tasks).
Proof.
  revert pre. induction tasks as [| p tasks IH]; intros pre; [done |].
  cbn [length seq]. rewrite !filter_cons.
  specialize (IH (pre ++ [p])).
  rewrite <- app_assoc, length_app in IH. cbn in IH.
  rewrite Nat.add_1_r in IH.
  assert (Hat : task_fails_at C self (pre ++ p :: tasks) (length pre)
                ↔ Is_true (sample_fails C self p)).
  { unfold task_fails_at. by rewrite list_lookup_middle. }
  destruct (decide (Is_true (sample_fails C self p))) as [Hp | Hp].
  - rewrite decide_True by (by apply Hat). cbn [length]. by rewrite IH.
  - rewrite decide_False by (by rewrite Hat). by rewrite IH.
Qed.

Lemma failed_plus_survivors tasks :
  (length (filter (λ p, Is_true (sample_fails C self p)) tasks)
   + length (omap (sample_pair C self) tasks) = length tasks)%nat.
Proof.
  induction tasks as [| p tasks IH]; [done |].
  rewrite filter_cons. cbn [omap list_omap length].
  unfold sample_fails, sample_pair at 1.
  destruct (sample_extraction C self p.1 p.2) as [xy | e]; cbn [is_Ok negb].
  - rewrite decide_False by (by intros []). cbn [length].
    fold (omap (sample_pair C self) tasks).
    unfold sample_fails in IH. lia.
  - rewrite decide_True by done. cbn [length].
    fold (omap (sample_pair C self) tasks).
    unfold sample_fails in IH. lia.
Qed.

(** Every sample left out of the corpus leaves exactly one failure record:
    once the pool has run, the number of failure records it added to the
    log is the number of submitted samples that did not survive. *)
Theorem failures_logged_once av sub (log0 : list (level * message)) :
  schedule C (length (zip av sub)) ≡ₚ seq 0 (length (zip av sub)) →
  ∃ rs,
    task_log (run_pool C self av sub log0) = log0 ++ rs ∧
    (failure_count rs + length (survivors C self av sub)
     = length (zip av sub))%nat.
Proof.
  intros Hsched. unfold run_pool.
  destruct (run_tasks_failure_records (zip av sub)
              (schedule C (length (zip av sub)))
              (TaskState (replicate (length av) None)
                 (replicate (length sub) None) log0))
    as (rs & Hlog & Hcount).
  exists rs. split; [exact Hlog |].
  rewrite Hcount, Hsched.
  pose proof (failed_indices_count [] (zip av sub)) as Hseq.
  cbn [app length] in Hseq. rewrite Hseq.
  apply failed_plus_survivors.
Qed.

(** With fewer subtitle paths than audio/video paths the coordinator raises
    [IndexError] once the tasks of the common indices have run, and [train]
    passes it on: nothing is written and no model is built. *)
Theorem too_few_subtitle_paths av sub w k
    (model_dir weights_dir logs_dir training_dump_dir training_log : string)
    (epochs : Z) (resume : bool) :
  worker_pool (host C) = Ok k →
  (length sub < length av)%nat →
  let w' := World (fs w) (task_log (run_pool C self av sub (log w))) (calls w) in
  extract_data_and_label_from_avs C self av sub w
    = (w', Raise (IndexError "list index out of range")) ∧
  train C self (Some av) (Some sub) model_dir weights_dir logs_dir
      training_dump_dir epochs training_log resume w
    = (w', Raise (IndexError "list index out of range")).
Proof.
  intros Hpool Hlen. cbn zeta.
  assert (Hrun : extract_data_and_label_from_avs C self av sub w
            = (World (fs w) (task_log (run_pool C self av sub (log w)))
                 (calls w),
               Raise (IndexError "list index out of range"))).
  { unfold worker_pool in Hpool.
    unfold extract_data_and_label_from_avs. run_M.
    destruct (max_workers (host C)) as [n |]; [| discriminate Hpool].
    cbn [rbind] in Hpool. rewrite Hpool.
    by rewrite (proj2 (Nat.ltb_lt _ _)) by lia. }
  split; [exact Hrun |].
  unfold train, fresh_extraction. run_M. by rewrite Hrun.
Qed.


Lemma coordinator_frame av sub w :
  let w' := (extract_data_and_label_from_avs C self av sub w).1 in
  fs w' = fs w ∧ calls w' = calls w ∧ log w `prefix_of` log w'.
Proof.
  cbn zeta. split_and!.
  - apply coordinator_same_fs.
  - destruct (coordinator_calls C self (λ _, False) av sub w)
      as (cs & Hcalls & Hcs).
    destruct cs as [| c cs]; [| by inversion Hcs].
    by rewrite app_nil_r in Hcalls.
  - destruct (coordinator_log C self av sub w) as (rs & Hlog & _).
    by exists rs.
Qed.

(** The coordinator only appends to the log: it writes no file and makes no
    call on [Network], however it ends, and so does a fresh-extraction run
    that ends inside the coordinator. *)
Theorem coordinator_only_logs av sub w
    (model_dir weights_dir logs_dir training_dump_dir training_log : string)
    (epochs : Z) (resume : bool) :
  let w' := (extract_data_and_label_from_avs C self av sub w).1 in
  let run := train C self (Some av) (Some sub) model_dir weights_dir logs_dir
               training_dump_dir epochs training_log resume w in
  fs w' = fs w ∧ calls w' = calls w ∧ log w `prefix_of` log w' ∧
  ∀ e, (extract_data_and_label_from_avs C self av sub w).2 = Raise e →
       run = (w', Raise e).
Proof.
  cbn zeta. destruct (coordinator_frame av sub w) as (Hfs & Hcalls & Hlog).
  split_and!; [done | done | done |].
  intros e He. unfold train, fresh_extraction. run_M.
  destruct (extract_data_and_label_from_avs C self av sub w) as [w1 r].
  cbn [fst snd] in *. by rewrite He.
Qed.

End PoolCases.

Lemma pool_order_independent_witness :
  train_data
    (run_tasks Demo.C Demo.trainer [("a.wav", "a.srt"); ("b.mp4", "b.srt")]
       [0; 1]%nat (TaskState [None; None] [None; None] []))
  = train_data
      (run_tasks Demo.C Demo.trainer [("a.wav", "a.srt"); ("b.mp4", "b.srt")]
         [1; 0]%nat (TaskState [None; None] [None; None] [])).
Proof.
  apply (pool_order_independent Demo.C Demo.trainer
           [("a.wav", "a.srt"); ("b.mp4", "b.srt")] [0; 1]%nat [1; 0]%nat
           (TaskState [None; None] [None; None] [])).
  - apply (bool_decide_unpack _). by vm_compute.
  - cbn. lia.
  - cbn. lia.
Defined.

Lemma failures_logged_once_witness :
  ∃ rs,
    task_log (run_pool Demo.C Demo.trainer ["a.wav"; "b.mp4"]
                ["a.srt"; "b.srt"] []) = rs ∧
    (failure_count rs
     + length (survivors Demo.C Demo.trainer ["a.wav"; "b.mp4"]
                 ["a.srt"; "b.srt"]) = 2)%nat.
Proof.
  destruct (failures_logged_once Demo.C Demo.trainer ["a.wav"; "b.mp4"]
              ["a.srt"; "b.srt"] []) as (rs & Hlog & Hcount).
  - apply (bool_decide_unpack _). by vm_compute.
  - exists rs. split; [exact Hlog | exact Hcount].
Defined.

Lemma too_few_subtitle_paths_witness :
  (extract_data_and_label_from_avs Demo.C Demo.trainer ["a.wav"; "b.mp4"]
     ["a.srt"] Demo.empty_world).2
    = Raise (IndexError "list index out of range").
Proof.
  destruct (too_few_subtitle_paths Demo.C Demo.trainer ["a.wav"; "b.mp4"]
              ["a.srt"] Demo.empty_world 2 "models" "weights" "logs" "dump"
              "training.log" 10 false) as [-> _].
  - reflexivity.
  - cbn. lia.
  - reflexivity.
Defined.


(** ** What the coordinator returns *)

Section Corpus.
Context {F L network : Type} (C : @collaborators F L network).
Variable self : gmap string (PyObject.value (embedder F L)).
Implicit Types (w : @world F L network) (av sub : list string).

Lemma concatenate_items {A} (arrays : list (ndarray A)) (a : ndarray A) :
  Np.concatenate arrays = Ok a →
  items a = concat (items <$> arrays) ∧
  ∀ b, b ∈ arrays → tail_shape b = tail_shape a.
Proof.
  unfold Np.concatenate. destruct arrays as [| hd rest]; [done |].
  destruct (forallb _ rest) eqn:Hall; [| done].
  intros [= <-]. split; [done |]. cbn [tail_shape].
  intros b [-> | Hb]%elem_of_cons; [done |].
  rewrite forallb_forall in Hall.
  apply list_elem_of_In, Hall in Hb. by apply bool_decide_eq_true in Hb.
Qed.

Lemma concatenate_mismatch {A} (hd b : ndarray A) (rest : list (ndarray A)) :
  b ∈ rest → tail_shape b ≠ tail_shape hd →
  Np.concatenate (hd :: rest)
    = Raise (ValueError "all the input array dimensions except for the concatenation axis must match exactly").
Proof.
  intros Hb Hne. unfold Np.concatenate.
  destruct (forallb _ rest) eqn:Hall; [| done].
  rewrite forallb_forall in Hall.
  apply list_elem_of_In, Hall in Hb. by apply bool_decide_eq_true in Hb.
Qed.

Lemma length_concat_items {A} (arrays : list (ndarray A)) :
  length (concat (items <$> arrays)) = sum_list (Np.len <$> arrays).
Proof.
  induction arrays as [| a arrays IH]; [done |].
  cbn. rewrite length_app, IH. done.
Qed.

Lemma aligned_sums (pairs : list (features F * label_array L)) :
  (∀ xy, xy ∈ pairs → Np.len xy.1 = Np.len xy.2) →
  sum_list (Np.len <$> pairs.*1) = sum_list (Np.len <$> pairs.*2).
Proof.
  induction pairs as [| xy pairs IH]; intros Haligned; [done |].
  cbn. rewrite (Haligned xy) by (by left).
  f_equal. apply IH. intros xy' Hxy'. apply Haligned. by right.
Qed.

(** A coordinator that returns had a pool and enough subtitle paths. *)
Lemma coordinator_ok_inv av sub w w1 d l :
  extract_data_and_label_from_avs C self av sub w = (w1, Ok (d, l)) →
  (∃ k, worker_pool (host C) = Ok k) ∧ (length av ≤ length sub)%nat.
Proof.
  unfold extract_data_and_label_from_avs, worker_pool. run_M.
  destruct (max_workers (host C)) as [n | e]; [| done]. cbn [rbind].
  destruct (ThreadPoolExecutor n) as [k | e]; [| done].
  destruct (Nat.ltb_spec (length sub) (length av)); [done |].
  intros _. split; [by exists k | lia].
Qed.

(** The arrays the coordinator returns hold the samples of the surviving
    pairs one after the other: as many feature samples as the survivors'
    feature tensors hold together, and, when each surviving pair has as
    many labels as feature samples, as many labels as features. *)
Theorem corpus_alignment av sub w w1 d l :
  schedule C (length av) ≡ₚ seq 0 (length av) →
  extract_data_and_label_from_avs C self av sub w = (w1, Ok (d, l)) →
  let pairs := survivors C self av sub in
  items d = concat (items <$> pairs.*1) ∧
  items l = concat (items <$> pairs.*2) ∧
  Np.len d = sum_list (Np.len <$> pairs.*1) ∧
  ((∀ xy, xy ∈ pairs → Np.len xy.1 = Np.len xy.2) → Np.len d = Np.len l).
Proof.
  intros Hsched Hrun. cbn zeta.
  destruct (coordinator_ok_inv av sub w w1 d l Hrun) as [[k Hpool] Hlen].
  pose proof (coordinator_result C self av sub w k Hpool Hlen Hsched) as Hres.
  cbn zeta in Hres. rewrite Hrun in Hres.
  destruct (Np.concatenate (survivors C self av sub).*1) as [d' |] eqn:Hd;
    [| done].
  destruct (Np.concatenate (survivors C self av sub).*2) as [l' |] eqn:Hl;
    [| done].
  simplify_eq.
  destruct (concatenate_items _ _ Hd) as [Hid _].
  destruct (concatenate_items _ _ Hl) as [Hil _].
  split_and!; [done | done | |].
  - unfold Np.len at 1. by rewrite Hid, length_concat_items.
  - intros Haligned. unfold Np.len at 1 2.
    rewrite Hid, Hil, !length_concat_items. by apply aligned_sums.
Qed.

(** Survivors whose feature tensors disagree on the shape of a sample make
    the coordinator fail in [np.concatenate]. *)
Theorem mismatched_shapes_abort av sub w k p q rest :
  worker_pool (host C) = Ok k →
  (length av ≤ length sub)%nat →
  schedule C (length av) ≡ₚ seq 0 (length av) →
  survivors C self av sub = p :: rest →
  q ∈ rest →
  tail_shape q.1 ≠ tail_shape p.1 →
  (extract_data_and_label_from_avs C self av sub w).2
    = Raise (ValueError "all the input array dimensions except for the concatenation axis must match exactly").
Proof.
  intros Hpool Hlen Hsched Hpairs Hq Hne.
  rewrite (coordinator_result C self av sub w k Hpool Hlen Hsched).
  cbn zeta. rewrite Hpairs. cbn [fmap list_fmap].
  rewrite (concatenate_mismatch p.1 q.1 rest.*1); [done | | done].
  apply list_elem_of_fmap. by exists q.
Qed.

End Corpus.

Lemma corpus_alignment_witness :
  Np.len (NdArray [2; 1]%nat [[[1]; [2]]; [[3]; [4]]; [[1]; [2]]; [[3]; [4]]])
  = Np.len (NdArray [] [0; 1; 0; 1]).
Proof.
  destruct (corpus_alignment Demo.C Demo.trainer
              ["a.wav"; "b.mp4"; "a.wav"] ["a.srt"; "b.srt"; "c.srt"]
              Demo.empty_world
              (World ∅
                 [(ERROR,
                   MsgException (UnsupportedFormatException "no audio stream"));
                  (DEBUG, MsgExtracted)] [])
              (NdArray [2; 1]%nat
                 [[[1]; [2]]; [[3]; [4]]; [[1]; [2]]; [[3]; [4]]])
              (NdArray [] [0; 1; 0; 1]))
    as (_ & _ & _ & Haligned).
  - apply (bool_decide_unpack _). by vm_compute.
  - by vm_compute.
  - apply Haligned. intros xy Hxy. vm_compute in Hxy.
    repeat (apply elem_of_cons in Hxy as [-> | Hxy]; [reflexivity |]).
    by apply elem_of_nil in Hxy.
Defined.

Lemma mismatched_shapes_abort_witness :
  (extract_data_and_label_from_avs Demo.C Cases.mixed_trainer
     ["a.wav"; "d.wav"] ["a.srt"; "d.srt"] Demo.empty_world).2
    = Raise (ValueError "all the input array dimensions except for the concatenation axis must match exactly").
Proof.
  apply (mismatched_shapes_abort Demo.C Cases.mixed_trainer
           ["a.wav"; "d.wav"] ["a.srt"; "d.srt"] Demo.empty_world 2
           (Demo.x_a, Demo.y_a) (Cases.x_d, NdArray [] [1]) 
           [(Cases.x_d, NdArray [] [1])]).
  - reflexivity.
  - cbn. lia.
  - apply (bool_decide_unpack _). by vm_compute.
  - reflexivity.
  - by left.
  - cbn. discriminate.
Defined.

(** ** The dump on the resume-from-dump branch *)

Section DumpCases.
Context {F L network : Type} (C : @collaborators F L network).
Variable self : gmap string (PyObject.value (embedder F L)).
Implicit Types (w : @world F L network) (av sub : option (list string)).

Lemma dump_branch_unfold av sub
    (model_dir weights_dir logs_dir training_dump_dir training_log : string)
    (epochs : Z) (resume : bool) :
  av = None ∨ sub = None →
  train C self av sub model_dir weights_dir logs_dir training_dump_dir
    epochs training_log resume
  = resume_from_dump C (model_path model_dir) (weights_path weights_dir)
      logs_dir training_dump_dir epochs training_log resume
    ≫= after_fit C model_dir (model_path model_dir)
         (weights_path weights_dir).
Proof.
  intros Hnone. unfold train.
  destruct Hnone as [-> | ->]; [done | by destruct av].
Qed.

(** Without a dump file at the expected path, resuming from the dump fails
    with the error of opening it; apart from the one debug record nothing
    has happened: no call on [Network], no file written. *)
Theorem missing_dump_is_fatal av sub w
    (model_dir weights_dir logs_dir training_dump_dir training_log : string)
    (epochs : Z) (resume : bool) :
  av = None ∨ sub = None →
  fs w !! dump_path training_dump_dir = None →
  train C self av sub model_dir weights_dir logs_dir training_dump_dir
      epochs training_log resume w
    = (add_log DEBUG MsgResumeDump w,
       Raise (OSError (dump_path training_dump_dir))).
Proof.
  intros Hnone Hmissing. rewrite dump_branch_unfold by done.
  unfold resume_from_dump. fold (dump_path training_dump_dir).
  run_M. unfold h5_open_read. cbn [fs add_log]. by rewrite Hmissing.
Qed.

(** A dump file that lacks one of its two datasets fails the run with
    [KeyError] for that dataset, [train_data] first, before any call on
    [Network]. *)
Theorem dump_without_dataset_is_fatal av sub w hf
    (model_dir weights_dir logs_dir training_dump_dir training_log : string)
    (epochs : Z) (resume : bool) :
  av = None ∨ sub = None →
  fs w !! dump_path training_dump_dir = Some hf →
  ds_train_data hf = None ∨ ds_labels hf = None →
  train C self av sub model_dir weights_dir logs_dir training_dump_dir
      epochs training_log resume w
    = (add_log DEBUG MsgResumeDump w,
       Raise (KeyError match ds_train_data hf with
                       | Some _ => "labels"
                       | None => "train_data"
                       end)).
Proof.
  intros Hnone Hfile Hlacks. rewrite dump_branch_unfold by done.
  unfold resume_from_dump. fold (dump_path training_dump_dir).
  run_M. unfold h5_open_read. cbn [fs add_log]. rewrite Hfile.
  destruct hf as [[d |] [l |]]; cbn [ds_train_data ds_labels h5_dataset] in *;
    try done.
  by destruct Hlacks.
Qed.

Lemma resume_from_dump_same_fs
    (model_filepath weights_filepath logs_dir training_dump_dir
       training_log : string) (epochs : Z) (resume : bool) :
  preserves same_fs
    (resume_from_dump C model_filepath weights_filepath logs_dir
       training_dump_dir epochs training_log resume).
Proof.
  unfold resume_from_dump.
  preserves_step; [preserves_step |].
  preserves_step; [apply h5_open_read_preserves; apply _ |].
  repeat preserves_step.
Qed.

(** Resuming from the dump only reads it: however the run ends, the store
    of dump files is the one it started with. *)
Theorem resume_from_dump_is_read_only av sub w
    (model_dir weights_dir logs_dir training_dump_dir training_log : string)
    (epochs : Z) (resume : bool) :
  av = None ∨ sub = None →
  fs (train C self av sub model_dir weights_dir logs_dir training_dump_dir
        epochs training_log resume w).1 = fs w.
Proof.
  intros Hnone. rewrite dump_branch_unfold by done.
  apply (preserves_bind same_fs).
  - apply resume_from_dump_same_fs.
  - intros fitted. apply after_fit_same_fs.
Qed.

(** A dump whose features have fewer than three dimensions cannot size a
    new model: without [resume] the run fails with [IndexError] on the
    shape, before any call on [Network]. *)
Theorem flat_dump_cannot_size_model av sub w d l
    (model_dir weights_dir logs_dir training_dump_dir training_log : string)
    (epochs : Z) :
  av = None ∨ sub = None →
  fs w !! dump_path training_dump_dir = Some (H5File (Some d) (Some l)) →
  (length (tail_shape d) < 2)%nat →
  train C self av sub model_dir weights_dir logs_dir training_dump_dir
      epochs training_log false w
    = (add_log DEBUG MsgResumeDump w,
       Raise (IndexError "tuple index out of range")).
Proof.
  intros Hnone Hfile Hflat. rewrite dump_branch_unfold by done.
  unfold resume_from_dump. fold (dump_path training_dump_dir).
  run_M. unfold h5_open_read. cbn [fs add_log]. rewrite Hfile.
  cbn [ds_train_data ds_labels h5_dataset].
  unfold Np.shape_at, Np.shape.
  destruct (tail_shape d) as [| a [| b tl]]; cbn in *; [done | done | lia].
Qed.

End DumpCases.

Lemma missing_dump_is_fatal_witness :
  (train Demo.C Demo.trainer None None "models" "weights" "logs" "dump" 10
     "training.log" true Demo.empty_world).2
    = Raise (OSError "dump/training_dump.hdf5").
Proof.
  rewrite (missing_dump_is_fatal Demo.C Demo.trainer None None
             Demo.empty_world "models" "weights" "logs" "dump"
             "training.log" 10 true).
  - reflexivity.
  - by left.
  - by vm_compute.
Defined.

Lemma dump_without_dataset_is_fatal_witness :
  (train Demo.C Demo.trainer None None "models" "weights" "logs" "dump" 10
     "training.log" true Cases.labels_only_world).2
    = Raise (KeyError "train_data").
Proof.
  rewrite (dump_without_dataset_is_fatal Demo.C Demo.trainer None None
             Cases.labels_only_world (H5File None (Some Demo.y_a))
             "models" "weights" "logs" "dump" "training.log" 10 true).
  - reflexivity.
  - by left.
  - by vm_compute.
  - by left.
Defined.

Lemma resume_from_dump_is_read_only_witness :
  fs (train Demo.C Demo.trainer None None "models" "weights" "logs" "dump" 10
        "training.log" true Demo.dumped_world).1 = fs Demo.dumped_world.
Proof.
  apply (resume_from_dump_is_read_only Demo.C Demo.trainer None None
           Demo.dumped_world "models" "weights" "logs" "dump" "training.log"
           10 true).
  by left.
Defined.

Lemma flat_dump_cannot_size_model_witness :
  (train Demo.C Demo.trainer None None "models" "weights" "logs" "dump" 10
     "training.log" false Cases.flat_world).2
    = Raise (IndexError "tuple index out of range").
Proof.
  rewrite (flat_dump_cannot_size_model Demo.C Demo.trainer None None
             Cases.flat_world (NdArray [3]%nat []) Demo.y_a
             "models" "weights" "logs" "dump" "training.log" 10).
  - reflexivity.
  - by left.
  - by vm_compute.
  - cbn. lia.
Defined.

(** ** After the fit *)

Section BestOf.
Context {A : Type} (lt : A → A → bool).
Hypothesis lt_irrefl : ∀ x, lt x x = false.
Hypothesis lt_trans : ∀ x y z, lt x y = true → lt y z = true → lt x z = true.

Lemma fold_min_spec (rest seen : list A) (best : A) :
  best ∈ seen → (∀ y, y ∈ seen → lt y best = false) →
  let m := fold_left (λ best y, if lt y best then y else best) rest best in
  m ∈ seen ++ rest ∧ ∀ y, y ∈ seen ++ rest → lt y m = false.
Proof using lt_irrefl lt_trans.
  revert seen best.
  induction rest as [| z rest IH]; intros seen best Hin Hmin.
  { cbn. rewrite app_nil_r. done. }
  cbn [fold_left]. cbn zeta.
  replace (seen ++ z :: rest) with ((seen ++ [z]) ++ rest)
    by (by rewrite <- app_assoc).
  destruct (lt z best) eqn:Hz; apply IH.
  - apply elem_of_app; right. by left.
  - intros y [Hy | ->%list_elem_of_singleton]%elem_of_app; [| done].
    destruct (lt y z) eqn:Hyz; [| done].
    pose proof (Hmin y Hy) as Hbest.
    by rewrite (lt_trans y z best Hyz Hz) in Hbest.
  - apply elem_of_app; by left.
  - intros y [Hy | ->%list_elem_of_singleton]%elem_of_app; [by apply Hmin | done].
Qed.

Lemma fold_max_spec (rest seen : list A) (best : A) :
  best ∈ seen → (∀ y, y ∈ seen → lt best y = false) →
  let m := fold_left (λ best y, if lt best y then y else best) rest best in
  m ∈ seen ++ rest ∧ ∀ y, y ∈ seen ++ rest → lt m y = false.
Proof using lt_irrefl lt_trans.
  revert seen best.
  induction rest as [| z rest IH]; intros seen best Hin Hmax.
  { cbn. rewrite app_nil_r. done. }
  cbn [fold_left]. cbn zeta.
  replace (seen ++ z :: rest) with ((seen ++ [z]) ++ rest)
    by (by rewrite <- app_assoc).
  destruct (lt best z) eqn:Hz; apply IH.
  - apply elem_of_app; right. by left.
  - intros y [Hy | ->%list_elem_of_singleton]%elem_of_app; [| done].
    destruct (lt z y) eqn:Hzy; [| done].
    pose proof (Hmax y Hy) as Hbest.
    by rewrite (lt_trans best z y Hz Hzy) in Hbest.
  - apply elem_of_app; by left.
  - intros y [Hy | ->%list_elem_of_singleton]%elem_of_app; [by apply Hmax | done].
Qed.

Lemma min_spec (l : list A) :
  l ≠ [] →
  ∃ m, Py.min lt l = Ok m ∧ m ∈ l ∧ ∀ y, y ∈ l → lt y m = false.
Proof using lt_irrefl lt_trans.
  destruct l as [| x rest]; [done |]. intros _.
  eexists. split; [reflexivity |].
  apply (fold_min_spec rest [x] x); [by left |].
  by intros y ->%list_elem_of_singleton.
Qed.

Lemma max_spec (l : list A) :
  l ≠ [] →
  ∃ m, Py.max lt l = Ok m ∧ m ∈ l ∧ ∀ y, y ∈ l → lt m y = false.
Proof using lt_irrefl lt_trans.
  destruct l as [| x rest]; [done |]. intros _.
  eexists. split; [reflexivity |].
  apply (fold_max_spec rest [x] x); [by left |].
  by intros y ->%list_elem_of_singleton.
Qed.

End BestOf.

Section AfterFit.
Context {F L network : Type} (C : @collaborators F L network).
Variable self : gmap string (PyObject.value (embedder F L)).
Implicit Types (w : @world F L network) (n : network).
Implicit Types (val_loss val_acc : list F).

(** When the float order is a strict order under which the entries of each
    history are pairwise comparable (as they are when no entry is a NaN),
    the two records logged after a fit hold the smallest validation loss
    and the largest validation accuracy: each is an entry of its history,
    no entry lies beyond it, and every entry is equal to it or lies
    strictly on the other side of it.  The record of the elapsed time
    follows. *)
Theorem best_metrics_are_logged model_dir model_filepath weights_filepath
    n val_loss val_acc w :
  (∀ x, flt C x x = false) →
  (∀ x y z, flt C x y = true → flt C y z = true → flt C x z = true) →
  (∀ x y, x ∈ val_loss → y ∈ val_loss →
          flt C x y = true ∨ x = y ∨ flt C y x = true) →
  (∀ x y, x ∈ val_acc → y ∈ val_acc →
          flt C x y = true ∨ x = y ∨ flt C y x = true) →
  val_loss ≠ [] → val_acc ≠ [] →
  ∃ lo hi,
    log (after_fit C model_dir model_filepath weights_filepath
           (n, (val_loss, val_acc)) w).1
      = log w ++ [(DEBUG, MsgValLoss lo); (DEBUG, MsgValAcc hi);
                  (INFO, MsgTotalTime)] ∧
    lo ∈ val_loss ∧
    (∀ x, x ∈ val_loss →
          flt C x lo = false ∧ (x = lo ∨ flt C lo x = true)) ∧
    hi ∈ val_acc ∧
    (∀ x, x ∈ val_acc →
          flt C hi x = false ∧ (x = hi ∨ flt C x hi = true)).
Proof.
  intros Hirr Htrans Hloss_total Hacc_total Hloss Hacc.
  destruct (min_spec (flt C) Hirr Htrans val_loss Hloss)
    as (lo & Hlo & Hlo_in & Hlo_min).
  destruct (max_spec (flt C) Hirr Htrans val_acc Hacc)
    as (hi & Hhi & Hhi_in & Hhi_max).
  exists lo, hi. split_and!; [| done | | done |].
  - unfold after_fit. run_M. rewrite Hlo, Hhi.
    destruct (save_model_and_weights C n _ _ _);
      cbn [fst log add_log add_call]; by rewrite <- !app_assoc.
  - intros x Hx. pose proof (Hlo_min x Hx) as Hbelow. split; [done |].
    destruct (Hloss_total x lo Hx Hlo_in) as [Hlt | [Heq | Hgt]];
      [congruence | by left | by right].
  - intros x Hx. pose proof (Hhi_max x Hx) as Habove. split; [done |].
    destruct (Hacc_total x hi Hx Hhi_in) as [Hlt | [Heq | Hgt]];
      [by right | by left | congruence].
Qed.

(** A fit that returns an empty validation history makes [train] fail in
    [min] or [max], before the model is saved. *)
Theorem empty_history_is_fatal model_dir model_filepath weights_filepath
    n val_loss val_acc w :
  val_loss = [] ∨ val_acc = [] →
  ∃ msg,
    (after_fit C model_dir model_filepath weights_filepath
       (n, (val_loss, val_acc)) w).2 = Raise (ValueError msg) ∧
    calls (after_fit C model_dir model_filepath weights_filepath
             (n, (val_loss, val_acc)) w).1 = calls w.
Proof.
  intros Hempty. unfold after_fit. run_M.
  destruct val_loss as [| x val_loss]; [by eexists |].
  destruct Hempty as [[=] | ->]. cbn [Py.min Py.max]. by eexists.
Qed.

Lemma after_fit_ok_inv model_dir model_filepath weights_filepath n history w w' :
  after_fit C model_dir model_filepath weights_filepath (n, history) w
    = (w', Ok tt) →
  calls w' = calls w ++ [CallSave n model_filepath weights_filepath
                           (model_dir +:+ "/combined.hdf5")].
Proof.
  unfold after_fit. destruct history as [val_loss val_acc]. run_M.
  destruct (Py.min (flt C) val_loss); [| done].
  destruct (Py.max (flt C) val_acc); [| done].
  destruct (save_model_and_weights C n _ _ _); [| done].
  by intros [= <-].
Qed.

Lemma resume_from_dump_ok_inv model_filepath weights_filepath logs_dir
    training_dump_dir training_log epochs resume w w1 n history :
  resume_from_dump C model_filepath weights_filepath logs_dir
    training_dump_dir epochs training_log resume w = (w1, Ok (n, history)) →
  ∃ pre c, calls w1 = calls w ++ pre ++ [c] ∧ is_fit_of n c.
Proof.
  unfold resume_from_dump, h5_open_read. run_M. cbn [fs add_log].
  destruct (fs w !! _) as [[[d |] [l |]] |]; cbn [h5_dataset ds_train_data ds_labels];
    try done.
  destruct resume.
  - destruct (load_model_and_weights C _ _) as [n' |]; [| done].
    destruct (fit_with_generator C n' _) as [h |]; [| done].
    intros [= <- <- <-]. cbn [calls add_call add_log].
    eexists [_], _. rewrite <- app_assoc. split; [reflexivity | done].
  - destruct (Np.shape_at d 2); [| done].
    destruct (Np.shape_at d 1); [| done].
    destruct (get_lstm C _) as [n' |]; [| done].
    destruct (fit_with_generator C n' _) as [h |]; [| done].
    intros [= <- <- <-]. cbn [calls add_call add_log].
    eexists [_], _. rewrite <- app_assoc. split; [reflexivity | done].
Qed.

Lemma fit_extracted_ok_inv d l model_filepath weights_filepath logs_dir
    training_log epochs w w1 n history :
  fit_extracted C d l model_filepath weights_filepath logs_dir epochs
    training_log w = (w1, Ok (n, history)) →
  ∃ pre c, calls w1 = calls w ++ pre ++ [c] ∧ is_fit_of n c.
Proof.
  unfold fit_extracted. run_M.
  destruct (permute C d l) as [[d' l'] |]; [| done].
  destruct (reorient d') as [rd |]; [| done].
  destruct (Np.shape_at (center C rd) 1); [| done].
  destruct (Np.shape_at (center C rd) 2); [| done].
  destruct (get_lstm C _) as [n' |]; [| done].
  destruct (fit_and_get_history C n' _) as [h |]; [| done].
  intros [= <- <- <-]. cbn [calls add_call add_log].
  eexists [_], _. rewrite <- app_assoc. split; [reflexivity | done].
Qed.

(** A [train] call that returns has, as its last two calls on [Network],
    fitted a network and saved that same network, with the combined
    artifact at [model_dir/combined.hdf5]; this holds on both branches. *)
Theorem completed_train_saved_fitted_network
    (av sub : option (list string))
    (model_dir weights_dir logs_dir training_dump_dir training_log : string)
    (epochs : Z) (resume : bool) w w' :
  train C self av sub model_dir weights_dir logs_dir training_dump_dir
    epochs training_log resume w = (w', Ok tt) →
  ∃ pre c n,
    calls w' = calls w ++ pre ++
      [c; CallSave n (model_path model_dir) (weights_path weights_dir)
            (model_dir +:+ "/combined.hdf5")] ∧
    is_fit_of n c.
Proof.
  intros Hrun.
  assert (Hbranch : ∃ branch : M (network * (list F * list F)),
    train C self av sub model_dir weights_dir logs_dir training_dump_dir
      epochs training_log resume
    = branch ≫= after_fit C model_dir (model_path model_dir)
                  (weights_path weights_dir) ∧
    ∀ w0 w1 n history, branch w0 = (w1, Ok (n, history)) →
      ∃ pre c, calls w1 = calls w0 ++ pre ++ [c] ∧ is_fit_of n c).
  { destruct av as [a |]; [destruct sub as [s |] |].
    - eexists. split; [reflexivity |].
      intros w0 w1 n history. unfold fresh_extraction. run_M.
      pose proof (coordinator_frame C self a s w0) as (_ & Hcalls & _).
      destruct (extract_data_and_label_from_avs C self a s w0)
        as [w2 [[d l] |]]; [| done]. cbn [fst] in Hcalls.
      pose proof (write_dump_calls_log C
                    (training_dump_dir +:+ "/training_dump.hdf5") d l w2)
        as [Hcalls' _].
      destruct (write_dump C _ d l w2) as [w3 [[] |]]; [| done].
      cbn [fst] in Hcalls'. intros Hfit.
      apply fit_extracted_ok_inv in Hfit as (pre & c & Hfit & Hc).
      exists pre, c. by rewrite Hfit, Hcalls', Hcalls.
    - eexists. split; [reflexivity |].
      intros w0 w1 n history. apply resume_from_dump_ok_inv.
    - eexists. split; [reflexivity |].
      intros w0 w1 n history. apply resume_from_dump_ok_inv. }
  destruct Hbranch as (branch & Htrain & Hbranch).
  rewrite Htrain in Hrun. revert Hrun. run_M.
  destruct (branch w) as [w1 [[n history] |]] eqn:Hb; [| done].
  intros Hafter%after_fit_ok_inv.
  destruct (Hbranch w w1 n history Hb) as (pre & c & Hcalls & Hc).
  exists pre, c, n. rewrite Hafter, Hcalls, <- !app_assoc. done.
Qed.

End AfterFit.

Lemma best_metrics_are_logged_witness :
  ∃ lo hi,
    log (after_fit Demo.C "models" "models/model.hdf5" "weights/weights.hdf5"
           (1%nat, ([3; 2; 5], [8; 9; 7])) Demo.empty_world).1
      = [(DEBUG, MsgValLoss lo); (DEBUG, MsgValAcc hi); (INFO, MsgTotalTime)] ∧
    (2 = lo ∨ (lo <? 2) = true) ∧ (9 = hi ∨ (9 <? hi) = true).
Proof.
  assert (Htotal : ∀ x y : Z, (x <? y) = true ∨ x = y ∨ (y <? x) = true).
  { intros x y. destruct (Z.lt_trichotomy x y) as [Hlt | [Heq | Hgt]].
    - left. by apply Z.ltb_lt.
    - right. by left.
    - right. right. by apply Z.ltb_lt. }
  destruct (best_metrics_are_logged Demo.C "models" "models/model.hdf5"
              "weights/weights.hdf5" 1%nat [3; 2; 5] [8; 9; 7]
              Demo.empty_world)
    as (lo & hi & Hlog & _ & Hlo & _ & Hhi).
  - intros x. apply Z.ltb_irrefl.
  - intros x y z Hxy%Z.ltb_lt Hyz%Z.ltb_lt. apply Z.ltb_lt. lia.
  - intros x y _ _. apply Htotal.
  - intros x y _ _. apply Htotal.
  - discriminate.
  - discriminate.
  - exists lo, hi. split_and!; [exact Hlog | |].
    + apply (Hlo 2). by repeat constructor.
    + apply (Hhi 9). by repeat constructor.
Defined.

Lemma empty_history_is_fatal_witness :
  ∃ msg,
    (after_fit Demo.C "models" "models/model.hdf5" "weights/weights.hdf5"
       (1%nat, ([], [8; 9])) Demo.empty_world).2 = Raise (ValueError msg).
Proof.
  destruct (empty_history_is_fatal Demo.C "models" "models/model.hdf5"
              "weights/weights.hdf5" 1%nat [] [8; 9] Demo.empty_world)
    as (msg & Hrun & _).
  - by left.
  - exists msg. exact Hrun.
Defined.

Lemma completed_train_saved_fitted_network_witness :
  ∃ pre c,
    calls (train Demo.C Demo.trainer None None "models" "weights" "logs"
             "dump" 10 "training.log" true Demo.dumped_world).1
      = pre ++ [c; CallSave 7%nat "models/model.hdf5" "weights/weights.hdf5"
                     "models/combined.hdf5"].
Proof.
  destruct (completed_train_saved_fitted_network Demo.C Demo.trainer
              None None "models" "weights" "logs" "dump" "training.log" 10
              true Demo.dumped_world
              (train Demo.C Demo.trainer None None "models" "weights" "logs"
                 "dump" 10 "training.log" true Demo.dumped_world).1)
    as (pre & c & n & Hcalls & Hfit).
  - by vm_compute.
  - exists pre, c. rewrite Hcalls.
    assert (n = 7%nat) as ->; [| reflexivity].
    vm_compute in Hcalls.
    repeat (destruct pre as [| ? pre]; try discriminate Hcalls).
    by injection Hcalls as _ _ ->.
Defined.

(** ** Edge cases of a fresh extraction *)

Section FreshCases.
Context {F L network : Type} (C : @collaborators F L network).
Variable self : gmap string (PyObject.value (embedder F L)).
Implicit Types (w : @world F L network) (av sub : list string).
Implicit Types (d : features F) (l : label_array L).

(** The world once the extraction has returned and the dump is written. *)
Lemma fresh_run_after_dump av sub w w1 d l
    (model_dir weights_dir logs_dir training_dump_dir training_log : string)
    (epochs : Z) (resume : bool) :
  extract_data_and_label_from_avs C self av sub w = (w1, Ok (d, l)) →
  can_create C (dump_path training_dump_dir) = true →
  train C self (Some av) (Some sub) model_dir weights_dir logs_dir
      training_dump_dir epochs training_log resume w
  = (fit_extracted C d l (model_path model_dir) (weights_path weights_dir)
       logs_dir epochs training_log
     ≫= after_fit C model_dir (model_path model_dir)
          (weights_path weights_dir))
      (set_fs <[dump_path training_dump_dir := H5File (Some d) (Some l)]> w1).
Proof.
  intros Hextract Hcreate.
  unfold train, fresh_extraction. run_M. rewrite Hextract.
  fold (dump_path training_dump_dir).
  by rewrite (write_dump_run C _ d l w1 Hcreate).
Qed.

(** When the dump file cannot be created, the run fails with that error
    once the extraction is over: the extracted corpus is lost, no file is
    written and no model is built. *)
Theorem unwritable_dump_is_fatal av sub w w1 d l
    (model_dir weights_dir logs_dir training_dump_dir training_log : string)
    (epochs : Z) (resume : bool) :
  extract_data_and_label_from_avs C self av sub w = (w1, Ok (d, l)) →
  can_create C (dump_path training_dump_dir) = false →
  train C self (Some av) (Some sub) model_dir weights_dir logs_dir
      training_dump_dir epochs training_log resume w
    = (w1, Raise (OSError (dump_path training_dump_dir))) ∧
  fs w1 = fs w ∧ calls w1 = calls w.
Proof.
  intros Hextract Hcreate.
  pose proof (coordinator_frame C self av sub w) as (Hfs & Hcalls & _).
  rewrite Hextract in Hfs, Hcalls. cbn [fst] in Hfs, Hcalls.
  split; [| done].
  unfold train, fresh_extraction. run_M. rewrite Hextract.
  fold (dump_path training_dump_dir).
  unfold write_dump, h5_open_write. run_M. by rewrite Hcreate.
Qed.

(** An extraction that returns no label leaves a dump behind and then
    fails with [IndexError] on the shape of the empty array, before any
    model is built. *)
Theorem empty_corpus_fails_after_dump av sub w w1 d l
    (model_dir weights_dir logs_dir training_dump_dir training_log : string)
    (epochs : Z) (resume : bool) :
  extract_data_and_label_from_avs C self av sub w = (w1, Ok (d, l)) →
  can_create C (dump_path training_dump_dir) = true →
  Np.len l = 0%nat →
  random_permutation C 0 ≡ₚ seq 0 0 →
  train C self (Some av) (Some sub) model_dir weights_dir logs_dir
      training_dump_dir epochs training_log resume w
    = (set_fs <[dump_path training_dump_dir := H5File (Some d) (Some l)]> w1,
       Raise (IndexError "tuple index out of range")).
Proof.
  intros Hextract Hcreate Hempty Hperm.
  rewrite (fresh_run_after_dump av sub w w1 d l) by done.
  apply Permutation_nil_r in Hperm.
  unfold fit_extracted, permute. run_M. rewrite Hempty, Hperm.
  unfold Np.take. cbn [mapM rbind]. reflexivity.
Qed.

Lemma mapM_lookup_out_of_range {A} (xs : list A) (idx : list nat) (i : nat) :
  i ∈ idx → (length xs ≤ i)%nat → mapM (λ i, xs !! i) idx = None.
Proof.
  intros Hi Hout.
  destruct (mapM (λ i, xs !! i) idx) as [ys |] eqn:Hmap; [| done].
  apply mapM_Some_1 in Hmap.
  apply list_elem_of_lookup in Hi as [k Hk].
  destruct (Forall2_lookup_l _ _ _ _ _ Hmap Hk) as (y & _ & Hy).
  apply lookup_lt_Some in Hy. lia.
Qed.

(** With more labels than feature samples the permutation reaches past the
    features: the run fails with [IndexError] in [train_data[rand]], after
    the dump was written and before any model is built. *)
Theorem more_labels_than_features_is_fatal av sub w w1 d l
    (model_dir weights_dir logs_dir training_dump_dir training_log : string)
    (epochs : Z) (resume : bool) :
  extract_data_and_label_from_avs C self av sub w = (w1, Ok (d, l)) →
  can_create C (dump_path training_dump_dir) = true →
  (Np.len d < Np.len l)%nat →
  random_permutation C (Np.len l) ≡ₚ seq 0 (Np.len l) →
  train C self (Some av) (Some sub) model_dir weights_dir logs_dir
      training_dump_dir epochs training_log resume w
    = (set_fs <[dump_path training_dump_dir := H5File (Some d) (Some l)]> w1,
       Raise (IndexError "index out of bounds for axis 0")).
Proof.
  intros Hextract Hcreate Hmore Hperm.
  rewrite (fresh_run_after_dump av sub w w1 d l) by done.
  unfold fit_extracted, permute, Np.take. run_M.
  rewrite (mapM_lookup_out_of_range (items d) _ (Np.len d)); [done | | done].
  rewrite Hperm. apply elem_of_seq. lia.
Qed.

(** With fewer labels than feature samples the permutation step keeps as
    many feature samples as there are labels, all taken from the first
    [len(labels)] positions, still paired with their labels: the feature
    samples beyond are left out without an error. *)
Theorem surplus_features_are_dropped d l :
  (Np.len l ≤ Np.len d)%nat →
  random_permutation C (Np.len l) ≡ₚ seq 0 (Np.len l) →
  ∃ d' l',
    permute C d l = Ok (d', l') ∧
    Np.len d' = Np.len l ∧ Np.len l' = Np.len l ∧
    zip (items d') (items l') ≡ₚ zip (items d) (items l) ∧
    ∀ i x, items d' !! i = Some x →
           ∃ j, (j < Np.len l)%nat ∧ items d !! j = Some x.
Proof.
  intros Hlen Hperm.
  set (rand := random_permutation C (Np.len l)) in *.
  assert (Hrange : ∀ i, i ∈ rand →
            (i < length (items d))%nat ∧ (i < length (items l))%nat).
  { intros i Hi. rewrite Hperm in Hi. apply elem_of_seq in Hi.
    unfold Np.len in *. lia. }
  assert (Hd : mapM (λ i, items d !! i) rand
               = Some (omap (λ i, items d !! i) rand)).
  { apply mapM_lookup_in_range. intros i Hi. by apply Hrange. }
  assert (Hl : mapM (λ i, items l !! i) rand
               = Some (omap (λ i, items l !! i) rand)).
  { apply mapM_lookup_in_range. intros i Hi. by apply Hrange. }
  pose proof (mapM_Some_1 _ _ _ Hd) as Hfd.
  pose proof (mapM_Some_1 _ _ _ Hl) as Hfl.
  eexists _, _. unfold permute, Np.take. fold rand. rewrite Hd, Hl.
  cbn [rbind]. split_and!; [reflexivity | | | |].
  - unfold Np.len in *; cbn [items].
    by rewrite <- (Forall2_length Hfd), Hperm, length_seq.
  - unfold Np.len in *; cbn [items].
    by rewrite <- (Forall2_length Hfl), Hperm, length_seq.
  - cbn [items]. rewrite <- omap_lookup_zip by done.
    rewrite Hperm.
    replace (Np.len l) with (length (zip (items d) (items l)))
      by (rewrite length_zip; unfold Np.len in *; lia).
    by rewrite omap_lookup_seq.
  - cbn [items]. intros i x Hx.
    destruct (Forall2_lookup_r _ _ _ _ _ Hfd Hx) as (j & Hj & Hjx).
    exists j. split; [| done].
    apply list_elem_of_lookup_2 in Hj. rewrite Hperm in Hj.
    apply elem_of_seq in Hj. lia.
Qed.

End FreshCases.

Lemma unwritable_dump_is_fatal_witness :
  train Cases.C_readonly Demo.trainer (Some ["a.wav"]) (Some ["a.srt"])
    "models" "weights" "logs" "dump" 10 "training.log" false Demo.empty_world
  = (World ∅ [(DEBUG, MsgExtracted)] [],
     Raise (OSError "dump/training_dump.hdf5")).
Proof.
  apply (unwritable_dump_is_fatal Cases.C_readonly Demo.trainer ["a.wav"]
           ["a.srt"] Demo.empty_world (World ∅ [(DEBUG, MsgExtracted)] [])
           Demo.x_a Demo.y_a "models" "weights" "logs" "dump" "training.log"
           10 false).
  - reflexivity.
  - reflexivity.
Defined.

Lemma empty_corpus_fails_after_dump_witness :
  (train Demo.C Cases.empty_trainer (Some ["a.wav"]) (Some ["a.srt"])
     "models" "weights" "logs" "dump" 10 "training.log" false
     Demo.empty_world).2
    = Raise (IndexError "tuple index out of range").
Proof.
  rewrite (empty_corpus_fails_after_dump Demo.C Cases.empty_trainer
             ["a.wav"] ["a.srt"] Demo.empty_world
             (World ∅ [(DEBUG, MsgExtracted)] [])
             (NdArray [2; 1]%nat []) (NdArray [] [])
             "models" "weights" "logs" "dump" "training.log" 10 false).
  - reflexivity.
  - reflexivity.
  - reflexivity.
  - reflexivity.
  - reflexivity.
Defined.

Lemma more_labels_than_features_is_fatal_witness :
  (train Demo.C Cases.skewed_trainer (Some ["a.wav"]) (Some ["a.srt"])
     "models" "weights" "logs" "dump" 10 "training.log" false
     Demo.empty_world).2
    = Raise (IndexError "index out of bounds for axis 0").
Proof.
  rewrite (more_labels_than_features_is_fatal Demo.C Cases.skewed_trainer
             ["a.wav"] ["a.srt"] Demo.empty_world
             (World ∅ [(DEBUG, MsgExtracted)] [])
             (NdArray [2; 1]%nat [[[1]; [2]]]) (NdArray [] [0; 1])
             "models" "weights" "logs" "dump" "training.log" 10 false).
  - reflexivity.
  - reflexivity.
  - reflexivity.
  - cbn. lia.
  - apply (bool_decide_unpack _). by vm_compute.
Defined.

Lemma surplus_features_are_dropped_witness :
  ∃ d' l',
    permute Demo.C Demo.x_a (NdArray [] [0]) = Ok (d', l') ∧
    Np.len d' = 1%nat.
Proof.
  destruct (surplus_features_are_dropped Demo.C Demo.x_a (NdArray [] [0]))
    as (d' & l' & Hrun & Hlen & _).
  - cbn. lia.
  - apply (bool_decide_unpack _). by vm_compute.
  - exists d', l'. split; [exact Hrun | exact Hlen].
Defined.

(** ** File paths *)


(** ** Reorientation and zero-centering *)

Section Normalization.
Context {F L network : Type} (C : @collaborators F L network).
Implicit Types (d : features F) (val : list (list F)) (rows : list (list F)).

Lemma items_array (vals : list (list nat * list (list F))) :
  items (Np.array vals) = vals.*2.
Proof. by destruct vals as [| [s m] vals]. Qed.

Lemma column_of_rows (b i : nat) rows :
  Forall (λ row, length row = b) rows → (i < b)%nat →
  length (omap (λ row : list F, row !! i) rows) = length rows ∧
  ∀ j, omap (λ row : list F, row !! i) rows !! j = rows !! j ≫= (.!! i).
Proof.
  intros Hrows Hi. induction Hrows as [| row rows Hrow Hrows [IHlen IH]].
  { split; [done |]. by intros j. }
  destruct (lookup_lt_is_Some_2 row i) as [x Hx]; [lia |].
  cbn [omap list_omap]. rewrite Hx. cbn [length]. split.
  - f_equal. exact IHlen.
  - intros [| j]; cbn; [by rewrite Hx | apply IH].
Qed.

(** The rotation, entry by entry: the matrix [transpose (flip val)] of a
    sample of [a] rows and [b] columns has [b] rows and [a] columns, its
    entry [(i, j)] being the entry [(j, b - 1 - i)] of the sample. *)
Lemma rotated_entries (a b : nat) val :
  well_formed a b val →
  well_formed b a (Np.transpose b (@rev F <$> val)) ∧
  ∀ i j, (i < b)%nat →
         Np.transpose b (@rev F <$> val) !! i ≫= (.!! j)
         = val !! j ≫= (.!! (b - S i)%nat).
Proof.
  intros [Hlen Hrows].
  assert (Hrev : Forall (λ row, length row = b) (@rev F <$> val)).
  { apply Forall_fmap. eapply list.Forall_impl; [exact Hrows |].
    intros row Hrow. cbn. by rewrite length_rev. }
  unfold Np.transpose. split; [split |].
  - by rewrite length_fmap, length_seq.
  - apply Forall_fmap, list.Forall_forall. intros i Hi%elem_of_seq. cbn.
    destruct (column_of_rows b i _ Hrev) as [-> _]; [lia |].
    by rewrite length_fmap.
  - intros i j Hi. rewrite list_lookup_fmap, lookup_seq_lt by done.
    cbn. destruct (column_of_rows b i _ Hrev Hi) as [_ ->].
    rewrite list_lookup_fmap.
    destruct (val !! j) as [row |] eqn:Hrow; [| done]. cbn.
    assert (Hb : length row = b).
    { rewrite list.Forall_forall in Hrows. apply Hrows.
      by eapply list_elem_of_lookup_2. }
    rewrite rev_alt. fold (reverse row).
    rewrite reverse_lookup by lia. by rewrite Hb.
Qed.

(** One entry of all the rotated samples, in sample order. *)
Lemma column_of_rotated (a b i j : nat) (vals : list (list (list F))) :
  Forall (well_formed a b) vals → (i < b)%nat →
  omap (λ m : list (list F), m !! i ≫= (.!! j))
    ((λ val, Np.transpose b (@rev F <$> val)) <$> vals)
  = omap (λ val : list (list F), val !! j ≫= (.!! (b - S i)%nat)) vals.
Proof.
  intros Hvals Hi. induction Hvals as [| val vals Hval Hvals IH]; [done |].
  cbn [fmap list_fmap omap list_omap].
  destruct (rotated_entries a b val Hval) as [_ ->]; [| done].
  by rewrite <- IH.
Qed.

(** Reorientation and zero-centering, entry by entry.  For samples of [a]
    rows and [b] columns, the result has as many samples as the input, in
    the same order, so the labels stay aligned with them; entry [(i, j)]
    of sample [k] of the result is the entry [(j, b - 1 - i)] of sample
    [k] of the input, less the mean of that same entry over all the
    samples. *)
Theorem normalization_is_samplewise d (a b : nat) (tl : list nat) :
  tail_shape d = a :: b :: tl →
  Forall (well_formed a b) (items d) →
  ∃ rd,
    reorient d = Ok rd ∧
    Np.len (center C rd) = Np.len d ∧
    ∀ k val i j,
      items d !! k = Some val → (i < b)%nat → (j < a)%nat →
      ∃ x : F,
        val !! j ≫= (λ row : list F, row !! (b - S i)%nat) = Some x ∧
        items (center C rd) !! k
          ≫= (λ m : list (list F), m !! i ≫= (λ row : list F, row !! j))
        = Some (fsub C x
                  (fmean C
                     (omap (λ m : list (list F),
                              m !! j ≫= (.!! (b - S i)%nat)) (items d)))).
Proof.
  intros Htail Hwf. unfold reorient. rewrite Htail, rot90_each_run.
  cbn [rbind]. eexists. split; [reflexivity |].
  unfold center, Np.subtract, Np.len. cbn [items].
  rewrite items_array, <- !list_fmap_compose. split.
  { by rewrite !length_fmap. }
  intros k val i j Hval Hi Hj.
  pose proof (proj1 (list.Forall_forall _ _) Hwf val
                (list_elem_of_lookup_2 _ _ _ Hval)) as Hval_wf.
  destruct (rotated_entries a b val Hval_wf) as [[Hrows Hcols] Hentry].
  destruct Hval_wf as [Hval_len Hval_rows].
  (* the entry of the sample *)
  destruct (lookup_lt_is_Some_2 val j) as [row Hrow]; [lia |].
  assert (Hrow_len : length row = b).
  { rewrite list.Forall_forall in Hval_rows. apply Hval_rows.
    by eapply list_elem_of_lookup_2. }
  destruct (lookup_lt_is_Some_2 row (b - S i)) as [x Hx]; [lia |].
  exists x. split; [by rewrite Hrow |].
  (* the row of the rotated sample *)
  destruct (lookup_lt_is_Some_2 (Np.transpose b (@rev F <$> val)) i)
    as [rrow Hrrow]; [lia |].
  pose proof (Hentry i j Hi) as Hrx. rewrite Hrrow, Hrow in Hrx.
  cbn [mbind option_bind] in Hrx. rewrite Hx in Hrx.
  (* the mean matrix *)
  assert (Hshape : tail_shape
            (Np.array ((λ val, (b :: a :: tl, Np.transpose b (@rev F <$> val)))
                       <$> items d)) = b :: a :: tl).
  { destruct (items d) as [| v0 vs]; [done | reflexivity]. }
  unfold Np.mean0. rewrite Hshape, items_array, <- !list_fmap_compose.
  cbn [lookup list_lookup default].
  rewrite list_lookup_fmap, Hval. cbn [fmap option_fmap option_map compose snd].
  cbn [mbind option_bind].
  rewrite lookup_zip_with, Hrrow. cbn [mbind option_bind].
  rewrite list_lookup_fmap, lookup_seq_lt by done.
  cbn [fmap option_fmap option_map mbind option_bind].
  rewrite lookup_zip_with, Hrx. cbn [mbind option_bind].
  rewrite list_lookup_fmap, lookup_seq_lt by done.
  cbn [fmap option_fmap option_map mbind option_bind plus].
  do 3 f_equal.
  exact (column_of_rotated a b i j (items d) Hwf Hi).
Qed.

(** [np.rot90] turns a sample of [a] rows and [b] columns into one of [b]
    rows and [a] columns whose entry [(i, j)] is the entry
    [(j, b - 1 - i)] of the sample. *)
Theorem rot90_entries (a b : nat) (tl : list nat) val :
  well_formed a b val →
  ∃ r,
    Np.rot90 (a :: b :: tl) val = Ok (b :: a :: tl, r) ∧
    well_formed b a r ∧
    ∀ i j, (i < b)%nat →
           r !! i ≫= (.!! j) = val !! j ≫= (.!! (b - S i)%nat).
Proof.
  intros [Hlen Hrows]. eexists. split; [reflexivity |].
  assert (Hrev : Forall (λ row, length row = b) (@rev F <$> val)).
  { apply Forall_fmap. eapply list.Forall_impl; [exact Hrows |].
    intros row Hrow. cbn. by rewrite length_rev. }
  unfold Np.transpose. split; [split |].
  - by rewrite length_fmap, length_seq.
  - apply Forall_fmap, list.Forall_forall. intros i Hi%elem_of_seq. cbn.
    destruct (column_of_rows b i _ Hrev) as [-> _]; [lia |].
    by rewrite length_fmap.
  - intros i j Hi. rewrite list_lookup_fmap, lookup_seq_lt by done.
    cbn. destruct (column_of_rows b i _ Hrev Hi) as [_ ->].
    rewrite list_lookup_fmap.
    destruct (val !! j) as [row |] eqn:Hrow; [| done]. cbn.
    assert (Hb : length row = b).
    { rewrite list.Forall_forall in Hrows. apply Hrows.
      by eapply list_elem_of_lookup_2. }
    rewrite rev_alt. fold (reverse row).
    rewrite reverse_lookup by lia. by rewrite Hb.
Qed.

End Normalization.

Lemma normalization_is_samplewise_witness :
  ∃ rd,
    reorient Demo.x_a = Ok rd ∧ Np.len (center Demo.C rd) = 2%nat ∧
    items (center Demo.C rd) !! 1%nat
      ≫= (λ m : list (list Z), m !! 0%nat ≫= (λ row : list Z, row !! 1%nat))
    = Some 1.
Proof.
  destruct (normalization_is_samplewise Demo.C Demo.x_a 2%nat 1%nat [])
    as (rd & Hrd & Hlen & Hentry).
  - reflexivity.
  - repeat constructor.
  - exists rd. split_and!; [exact Hrd | exact Hlen |].
    destruct (Hentry 1%nat [[3]; [4]] 0%nat 1%nat) as (x & Hx & ->);
      [reflexivity | lia | lia |].
    injection Hx as <-. reflexivity.
Defined.

Lemma rot90_entries_witness :
  ∃ r, Np.rot90 [2; 3]%nat [[1; 2; 3]; [4; 5; 6]] = Ok ([3; 2]%nat, r) ∧
       r !! 0%nat ≫= (.!! 1%nat) = Some 6.
Proof.
  destruct (rot90_entries 2%nat 3%nat [] [[1; 2; 3]; [4; 5; 6]])
    as (r & Hrun & _ & Hentries).
  - split; [reflexivity |]. by repeat constructor.
  - exists r. split; [exact Hrun |].
    rewrite (Hentries 0%nat 1%nat) by lia. reflexivity.
Defined.

(** ** The export helpers *)

Section ExportCases.
Context {E session saver builder : Type}.
Variable T : @tensorflow E session saver builder.
Implicit Types (self : gmap string (PyObject.value E)) (fe : E).

Lemma constructed_trainer_has_no_backend fe self :
  PyObject.Trainer_new fe = Some (Ok self) →
  self !! "_Trainer__backend" = None ∧
  ∀ v, PyObject.getattr (<["_Trainer__backend" := v]> self) "_Trainer__backend"
       = Ok v.
Proof.
  rewrite Trainer_new_instance. intros [= <-]. split.
  - by apply lookup_singleton_ne.
  - intros v. unfold PyObject.getattr. by rewrite lookup_insert_eq.
Qed.

(** On a trainer as its constructor leaves it, [__convert_to_pb_model]
    cannot succeed: no [__backend] attribute was ever set, so the call ends
    with an exception before [saver.save] is reached.  Only with such an
    attribute stored from outside is the checkpoint saved, at
    [pb_model_dir] joined with [pb_model_name.ckpt]. *)
Theorem convert_to_pb_model_needs_backend fe self
    (pb_model_dir pb_model_name : string) :
  PyObject.Trainer_new fe = Some (Ok self) →
  (∃ e, convert_to_pb_model T self pb_model_dir pb_model_name
        = ([TfSaver], Raise e)) ∧
  ∀ v sv ss,
    tf_Saver T = Ok sv → get_session T v = Ok ss →
    convert_to_pb_model T (<["_Trainer__backend" := v]> self) pb_model_dir
      pb_model_name
    = ([TfSaver; TfGetSession;
        TfSaverSave (path_join pb_model_dir (pb_model_name +:+ ".ckpt"))],
       saver_save T sv ss (path_join pb_model_dir (pb_model_name +:+ ".ckpt"))).
Proof.
  intros Hnew.
  destruct (constructed_trainer_has_no_backend fe self Hnew) as [Hnone Hset].
  unfold convert_to_pb_model, backend_session. split.
  - unfold PyObject.getattr. rewrite Hnone.
    destruct (tf_Saver T); by eexists.
  - intros v sv ss -> Hsession. by rewrite Hset, Hsession.
Qed.

(** Likewise [__create_saved_model] on a constructed trainer: the builder
    is created, then the missing [__backend] attribute ends the call;
    nothing is added to the builder and nothing is saved.  With a backend
    stored from outside and every TensorFlow call succeeding, the meta
    graph is added and the builder saved. *)
Theorem create_saved_model_needs_backend fe self (saved_model_path : string) :
  PyObject.Trainer_new fe = Some (Ok self) →
  (∃ e, create_saved_model T self saved_model_path
        = ([TfBuilder saved_model_path], Raise e)) ∧
  ∀ v bd ss,
    SavedModelBuilder T saved_model_path = Ok bd →
    get_session T v = Ok ss →
    add_meta_graph_and_variables T bd ss = Ok tt →
    create_saved_model T (<["_Trainer__backend" := v]> self) saved_model_path
    = ([TfBuilder saved_model_path; TfGetSession; TfAddMetaGraph;
        TfBuilderSave], builder_save T bd).
Proof.
  intros Hnew.
  destruct (constructed_trainer_has_no_backend fe self Hnew) as [Hnone Hset].
  unfold create_saved_model, backend_session. split.
  - unfold PyObject.getattr. rewrite Hnone.
    destruct (SavedModelBuilder T saved_model_path); by eexists.
  - intros v bd ss -> Hsession Hadd. by rewrite Hset, Hsession, Hadd.
Qed.

End ExportCases.

Lemma convert_to_pb_model_needs_backend_witness :
  ∃ e, convert_to_pb_model Cases.tf Demo.trainer "out" "model"
       = ([TfSaver], Raise e).
Proof.
  destruct (convert_to_pb_model_needs_backend Cases.tf Demo.fe Demo.trainer
              "out" "model") as [Hfails _].
  - apply Trainer_new_instance.
  - exact Hfails.
Defined.

Lemma create_saved_model_needs_backend_witness :
  ∃ e, create_saved_model Cases.tf Demo.trainer "saved"
       = ([TfBuilder "saved"], Raise e).
Proof.
  destruct (create_saved_model_needs_backend Cases.tf Demo.fe Demo.trainer
              "saved") as [Hfails _].
  - apply Trainer_new_instance.
  - exact Hfails.
Defined.

(** ** Splitting the extension *)

Lemma string_of_list_ascii_app (l k : list ascii) :
  String.string_of_list_ascii (l ++ k)
    = String.string_of_list_ascii l +:+ String.string_of_list_ascii k.
Proof. induction l as [| c l IH]; [done |]. simpl. rewrite IH. reflexivity. Qed.

Lemma rfind_Some (c : ascii) (l : list ascii) (i : nat) :
  Py.rfind c l = Some i → l !! i = Some c.
Proof.
  revert i. induction l as [| x l IH]; intros i; [done |].
  cbn [Py.rfind]. destruct (Py.rfind c l) as [k |].
  - intros [= <-]. by apply IH.
  - destruct (Ascii.eqb_spec x c) as [-> | _]; [| done]. by intros [= <-].
Qed.

(** [os.path.splitext] only cuts the path: root and extension put together
    give the path back, and the extension is empty or starts with a
    dot. *)
Theorem splitext_round_trip (p : string) :
  (Py.splitext p).1 +:+ (Py.splitext p).2 = p ∧
  ((Py.splitext p).2 = "" ∨ ∃ rest, (Py.splitext p).2 = String "." rest).
Proof.
  assert (Hnil : p +:+ "" = p).
  { induction p as [| c p IH]; [done |].
    change (String c (p +:+ "") = String c p). by rewrite IH. }
  unfold Py.splitext.
  destruct (Py.rfind "." (String.list_ascii_of_string p)) as [k |] eqn:Hdot;
    [| by split; [| left]].
  destruct (_ && _); [| by split; [| left]]. cbn [fst snd]. split.
  - rewrite <- string_of_list_ascii_app, take_drop.
    apply String.string_of_list_ascii_of_string.
  - right. apply rfind_Some in Hdot.
    rewrite (drop_S _ _ _ Hdot). by eexists.
Qed.

Lemma task_touches_only_its_index_witness :
  train_data
    (extract_in_multithreads Demo.C Demo.trainer 0 "a.wav" "a.srt"
       (TaskState [None; None] [None; None] [])).1 !! 1%nat
  = Some None.
Proof.
  destruct (task_touches_only_its_index Demo.C Demo.trainer 0%nat "a.wav"
              "a.srt" (TaskState [None; None] [None; None] []))
    as (_ & _ & Hother).
  destruct (Hother 1%nat) as [Hdata _]; [lia |].
  exact Hdata.
Defined.

Lemma coordinator_only_logs_witness :
  train Demo.C Demo.trainer (Some ["b.mp4"]) (Some ["b.srt"]) "models"
    "weights" "logs" "dump" 10 "training.log" false Demo.empty_world
  = ((extract_data_and_label_from_avs Demo.C Demo.trainer ["b.mp4"]
        ["b.srt"] Demo.empty_world).1,
     Raise (ValueError "need at least one array to concatenate")).
Proof.
  destruct (coordinator_only_logs Demo.C Demo.trainer ["b.mp4"] ["b.srt"]
              Demo.empty_world "models" "weights" "logs" "dump"
              "training.log" 10 false) as (_ & _ & _ & Hraise).
  apply Hraise. reflexivity.
Defined.
